(** * config/log_config.py: path resolution and logging bootstrap

    A shallow embedding of [src/config/log_config.py].

    - [posixpath] embeds the functions of [os.path] the module calls
      (POSIX flavour, as in the spec's [/app] scenarios).
    - [Rutas] embeds the execution-mode flag [IS_BUNDLED], the two base
      directories and the path builders.
    - [Logging] embeds the part of the standard [logging] package that
      [configurar_logging] drives: the root logger, its handler list, record
      dispatch, [logging.critical] with its implicit [basicConfig].
    - [Bootstrap] embeds [configurar_logging] and
      [obtener_ruta_archivo_log] in a state-and-exception monad.

    What the model leaves out: asynchronous [BaseException]s
    ([KeyboardInterrupt], [SystemExit]); [logging.disable]; a caller that
    customised the ["ConfigLog"] logger or the names of the levels; what
    the formatters of the handlers make of a record. *)

From Stdlib Require Import String Ascii List Bool ZArith DecimalString Lia.
Import ListNotations.
Open Scope string_scope.

(* ------------------------------------------------------------------ *)
(** ** [os.path] (posixpath) *)

Module posixpath.

Definition sep : ascii := "/"%char.

Definition is_empty (p : string) : bool :=
  match p with EmptyString => true | String _ _ => false end.

(** [p.startswith('/')] *)
Definition startswith_sep (p : string) : bool :=
  match p with
  | String c _ => Ascii.eqb c sep
  | EmptyString => false
  end.

(** [p.endswith('/')] *)
Fixpoint endswith_sep (p : string) : bool :=
  match p with
  | EmptyString => false
  | String c EmptyString => Ascii.eqb c sep
  | String _ r => endswith_sep r
  end.

Definition isabs (p : string) : bool := startswith_sep p.

(** One round of the loop of [join]: an absolute component resets the
    path, otherwise it is appended with exactly one separator. *)
Definition join2 (path b : string) : string :=
  if startswith_sep b then b
  else if is_empty path || endswith_sep path then path ++ b
  else path ++ "/" ++ b.

(** What [join2] puts between [path] and a relative component. *)
Definition sep_tras (path : string) : string :=
  if is_empty path || endswith_sep path then "" else "/".

(** [os.path.join(a, *p)] *)
Definition join (a : string) (p : list string) : string :=
  fold_left join2 p a.

(** [(p[:i], p[i:])] for [i = p.rfind('/') + 1]. *)
Fixpoint rsplit_sep (p : string) : string * string :=
  match p with
  | EmptyString => (EmptyString, EmptyString)
  | String c r =>
      let '(h, t) := rsplit_sep r in
      if is_empty h
      then if Ascii.eqb c sep then (String c EmptyString, r)
           else (EmptyString, String c r)
      else (String c h, t)
  end.

(** [head == sep * len(head)] *)
Fixpoint all_sep (p : string) : bool :=
  match p with
  | EmptyString => true
  | String c r => Ascii.eqb c sep && all_sep r
  end.

(** [head.rstrip('/')] *)
Fixpoint rstrip_sep (p : string) : string :=
  match p with
  | EmptyString => EmptyString
  | String c r =>
      let r' := rstrip_sep r in
      if is_empty r' && Ascii.eqb c sep then EmptyString else String c r'
  end.

(** [os.path.dirname(p)] *)
Definition dirname (p : string) : string :=
  let head := fst (rsplit_sep p) in
  if negb (is_empty head) && negb (all_sep head) then rstrip_sep head
  else head.

(** [os.path.basename(p)] *)
Definition basename (p : string) : string := snd (rsplit_sep p).

(** [path.split('/')] *)
Fixpoint split (p : string) : list string :=
  match p with
  | EmptyString => [EmptyString]
  | String c r =>
      if Ascii.eqb c sep then EmptyString :: split r
      else match split r with
           | h :: t => String c h :: t
           | [] => [String c EmptyString]
           end
  end.

Definition is_nil {A} (l : list A) : bool :=
  match l with [] => true | _ => false end.

(** Body of the loop of [normpath] over the components. *)
Definition norm_step (initial_slashes : nat) (new_comps : list string)
    (comp : string) : list string :=
  if (comp =? "") || (comp =? ".") then new_comps
  else if negb (comp =? "..")
          || (Nat.eqb initial_slashes 0 && is_nil new_comps)
          || (negb (is_nil new_comps) && (last new_comps "" =? ".."))
  then new_comps ++ [comp]
  else if negb (is_nil new_comps) then removelast new_comps
  else new_comps.

(** POSIX keeps exactly two leading slashes, three or more count as one. *)
Definition initial_slashes (path : string) : nat :=
  match path with
  | String a (String b (String c _)) =>
      if Ascii.eqb a sep
      then if Ascii.eqb b sep && negb (Ascii.eqb c sep) then 2 else 1
      else 0
  | String a (String b EmptyString) =>
      if Ascii.eqb a sep then if Ascii.eqb b sep then 2 else 1 else 0
  | String a EmptyString => if Ascii.eqb a sep then 1 else 0
  | EmptyString => 0
  end.

Fixpoint repeat_sep (n : nat) : string :=
  match n with O => EmptyString | S k => String sep (repeat_sep k) end.

(** [os.path.normpath(path)] *)
Definition normpath (path : string) : string :=
  if is_empty path then "."
  else
    let ini := initial_slashes path in
    let comps := fold_left (norm_step ini) (split path) [] in
    let path' := repeat_sep ini ++ String.concat "/" comps in
    if is_empty path' then "." else path'.

(** [os.path.abspath(path)], with [os.getcwd()] passed as [cwd]. *)
Definition abspath (cwd path : string) : string :=
  normpath (if isabs path then path else join cwd [path]).

End posixpath.

(* ------------------------------------------------------------------ *)
(** ** Python values and exceptions *)

(** The values the attribute [sys.frozen] may hold. *)
Inductive pyval : Type :=
| PyNone
| PyBool (b : bool)
| PyInt (z : Z)
| PyStr (s : string).

(** Truth value testing. *)
Definition truthy (v : pyval) : bool :=
  match v with
  | PyNone => false
  | PyBool b => b
  | PyInt z => negb (Z.eqb z 0)
  | PyStr s => negb (posixpath.is_empty s)
  end.

(** [a and b]: the left operand when it is falsy, else the right one. *)
Definition py_and (a b : pyval) : pyval := if truthy a then b else a.

(** Exceptions below [Exception]: [OSError] (and its subclasses), and the
    others, with their class name. [str(e)] is [exn_msg e]. *)
Inductive exn : Type :=
| OSError (msg : string)
| OtherException (cls msg : string).

Definition exn_msg (e : exn) : string :=
  match e with OSError m => m | OtherException _ m => m end.

Definition is_OSError (e : exn) : bool :=
  match e with OSError _ => true | OtherException _ _ => false end.

(* ------------------------------------------------------------------ *)
(** ** PathResolver *)

Module Rutas.
Import posixpath.

(** The attributes of [sys] the module reads; an attribute may be absent. *)
Record sys_t : Type := {
  sys_frozen : option pyval;
  sys_MEIPASS : option string;
  sys_executable : string
}.

(** The value of ['__file__'] in a frame's globals. *)
Inductive pyfile : Type :=
| FileStr (s : string)
| FileNone.

(** A frame of the call stack: whether its globals hold ['__file__'], and
    the [co_filename] of its code object. *)
Record frame : Type := {
  f_globals_file : option pyfile;
  f_co_filename : string
}.

(** What the interpreter offers when the module is loaded.
    [module_file = None]: the name [__file__] is not defined in the
    module (interactive, embedded).
    [outer_stack]: the frames below the module-level frame, innermost
    first.
    [currentframe_ok = false]: [inspect.currentframe()] returns [None]. *)
Record runtime : Type := {
  sys : sys_t;
  module_file : option string;
  module_co_filename : string;
  outer_stack : list frame;
  cwd : string;
  currentframe_ok : bool
}.

Inductive ExecutionMode : Type := Packaged | FromSource.

(** [getattr(sys, 'frozen', False)] *)
Definition getattr_frozen (s : sys_t) : pyval :=
  match sys_frozen s with Some v => v | None => PyBool false end.

(** [hasattr(sys, '_MEIPASS')] *)
Definition hasattr_MEIPASS (s : sys_t) : bool :=
  match sys_MEIPASS s with Some _ => true | None => false end.

(** Line 24:
    [IS_BUNDLED = getattr(sys, 'frozen', False) and hasattr(sys, '_MEIPASS')] *)
Definition compute_IS_BUNDLED (s : sys_t) : pyval :=
  py_and (getattr_frozen s) (PyBool (hasattr_MEIPASS s)).

(** The mode is the truth value of the flag, as in [if IS_BUNDLED:]. *)
Definition mode_of (is_bundled : pyval) : ExecutionMode :=
  if truthy is_bundled then Packaged else FromSource.

(** A frame running code of this module: same globals, same source file. *)
Definition module_frame (rt : runtime) : frame :=
  {| f_globals_file := option_map FileStr (module_file rt);
     f_co_filename := module_co_filename rt |}.

Definition has_file (f : frame) : bool :=
  match f_globals_file f with Some _ => true | None => false end.

(** Lines 54-55: step to [f_back] while there is one and the frame's
    globals lack ['__file__']. [backs] is the [f_back] chain of [f]. *)
Fixpoint walk (f : frame) (backs : list frame) : frame :=
  match backs with
  | [] => f
  | b :: bs => if has_file f then f else walk b bs
  end.

(** Lines 51-72, the body of the inner [try]. [callers] is the [f_back]
    chain of the function's own frame. *)
Definition raiz_por_pila (rt : runtime) (callers : list frame)
  : exn + string :=
  let own := module_frame rt in
  let caller_file : exn + string :=
    if currentframe_ok rt then
      let caller_frame := walk own callers in
      match f_globals_file caller_frame with
      | Some (FileStr s) => inr s
      | Some FileNone =>
          (* os.path.abspath(None) *)
          inl (OtherException "TypeError"
                 "expected str, bytes or os.PathLike object, not NoneType")
      | None =>
          let caller_frame_fallback :=
            match callers with b :: _ => b | [] => own end in
          inr (f_co_filename caller_frame_fallback)
      end
    else
      (* inspect.currentframe().f_back on None *)
      inl (OtherException "AttributeError"
             "'NoneType' object has no attribute 'f_back'") in
  match caller_file with
  | inl e => inl e
  | inr caller_file =>
      let directorio_script_original :=
        dirname (abspath (cwd rt) caller_file) in
      if basename directorio_script_original =? "scripts"
      then inr (abspath (cwd rt) (join directorio_script_original [".."]))
      else inr directorio_script_original
  end.

(** What a path function gives back: the lines it printed on standard
    output and its result or the exception it raised. *)
Definition salida (A : Type) : Type := list string * (exn + A).

(** Lines 30-83. [callers]: the [f_back] chain of the call. *)
Definition _obtener_ruta_base_lectura (rt : runtime) (IS_BUNDLED : pyval)
    (callers : list frame) : salida string :=
  if truthy IS_BUNDLED then
    match sys_MEIPASS (sys rt) with
    | Some p => ([], inr p)
    | None =>
        ([], inl (OtherException "AttributeError"
                    "module 'sys' has no attribute '_MEIPASS'"))
    end
  else
    let ruta_base : option string :=
      match module_file rt with
      | Some file =>
          let directorio_actual := dirname (abspath (cwd rt) file) in
          Some (abspath (cwd rt) (join directorio_actual [".."]))
      | None =>
          (* except NameError *)
          match raiz_por_pila rt callers with
          | inr r => Some r
          | inl _ => (* except Exception *) Some (abspath (cwd rt) ".")
          end
      end in
    match ruta_base with
    | Some r => ([], inr r)
    | None =>
        let r := abspath (cwd rt) "." in
        (["ERROR (log_config): Fallback final a CWD (" ++ r
           ++ ") como base de lectura."], inr r)
    end.

(** Lines 85-97. The call to [_obtener_ruta_base_lectura] is made from
    this function's frame, which sits on top of [callers]. *)
Definition _obtener_ruta_base_escritura (rt : runtime) (IS_BUNDLED : pyval)
    (callers : list frame) : salida string :=
  if truthy IS_BUNDLED then ([], inr (dirname (sys_executable (sys rt))))
  else _obtener_ruta_base_lectura rt IS_BUNDLED (module_frame rt :: callers).

(** The module namespace: the names assigned at module level. *)
Record globals : Type := {
  _configuracion_realizada : bool;
  _ruta_archivo_log_actual : option string;
  IS_BUNDLED : pyval;
  RUTA_BASE_LECTURA : string;
  RUTA_BASE_ESCRITURA : string
}.

(** Execution of the module body (lines 18-101): both base functions are
    called from the module-level frame. *)
Definition module_load (rt : runtime) : salida globals :=
  let bundled := compute_IS_BUNDLED (sys rt) in
  let callers := module_frame rt :: outer_stack rt in
  match _obtener_ruta_base_lectura rt bundled callers with
  | (out1, inl e) => (out1, inl e)
  | (out1, inr lectura) =>
      match _obtener_ruta_base_escritura rt bundled callers with
      | (out2, inl e) => ((out1 ++ out2)%list, inl e)
      | (out2, inr escritura) =>
          ((out1 ++ out2)%list,
           inr {| _configuracion_realizada := false;
                  _ruta_archivo_log_actual := None;
                  IS_BUNDLED := bundled;
                  RUTA_BASE_LECTURA := lectura;
                  RUTA_BASE_ESCRITURA := escritura |})
      end
  end.

(** Lines 107-124. *)
Definition get_credentials_path (g : globals) : string :=
  let base_para_credenciales :=
    if truthy (IS_BUNDLED g) then RUTA_BASE_ESCRITURA g
    else RUTA_BASE_LECTURA g in
  join base_para_credenciales ["config"; "credenciales.json"].

(** Lines 127-134. *)
Definition get_data_path (g : globals) (relative_path_inside_data : string)
  : string :=
  join (RUTA_BASE_ESCRITURA g) ["data"; relative_path_inside_data].

(** Lines 136-143. *)
Definition get_logs_path (g : globals) (relative_path_inside_logs : string)
  : string :=
  join (RUTA_BASE_ESCRITURA g) ["logs"; relative_path_inside_logs].

(** A source checkout under [/app], run by the interpreter. *)
Definition rt_app : runtime :=
  {| sys := {| sys_frozen := None; sys_MEIPASS := None;
               sys_executable := "/usr/bin/python3" |};
     module_file := Some "/app/config/log_config.py";
     module_co_filename := "/app/config/log_config.py";
     outer_stack :=
       [ {| f_globals_file := Some (FileStr "/app/scripts/main.py");
            f_co_filename := "/app/scripts/main.py" |} ];
     cwd := "/app/scripts";
     currentframe_ok := true |}.

(** A process started from a source tree in which the module cannot see
    its own location and frames cannot be inspected. *)
Definition rt_sin_ubicacion : runtime :=
  {| sys := {| sys_frozen := None; sys_MEIPASS := None;
               sys_executable := "/usr/bin/python3" |};
     module_file := None;
     module_co_filename := "<string>";
     outer_stack := [];
     cwd := "/home/rpa";
     currentframe_ok := false |}.

(** The module source run with [exec] from [/app/scripts/main.py]: no
    [__file__] of its own, the caller's frame has one. *)
Definition rt_exec : runtime :=
  {| sys := {| sys_frozen := None; sys_MEIPASS := None;
               sys_executable := "/usr/bin/python3" |};
     module_file := None;
     module_co_filename := "<string>";
     outer_stack :=
       [ {| f_globals_file := Some (FileStr "/app/scripts/main.py");
            f_co_filename := "/app/scripts/main.py" |} ];
     cwd := "/home/rpa";
     currentframe_ok := true |}.

(** The module namespace after a load from the checkout under [/app]. *)
Definition g_app : globals :=
  {| _configuracion_realizada := false;
     _ruta_archivo_log_actual := None;
     IS_BUNDLED := PyBool false;
     RUTA_BASE_LECTURA := "/app";
     RUTA_BASE_ESCRITURA := "/app" |}.

End Rutas.

(* ------------------------------------------------------------------ *)
(** ** The [logging] package, as far as the module drives it *)

Module Logging.

Inductive stream : Type := stdout | stderr.

(** The classes of the handlers met on the root logger. [ForeignHandler]
    stands for any class installed by code that ran before. *)
Inductive handler_class : Type :=
| StreamHandler (s : stream)
| FileHandler (filename : string)
| RotatingFileHandler (filename : string) (maxBytes backupCount : Z)
| ForeignHandler.

Record Formatter : Type := {
  fmt : string;
  datefmt : option string
}.

(** A handler object. [h_id] is its identity; [h_close] tells what a call
    of its [close()] does: [None] returns, [Some e] raises [e]. *)
Record handler : Type := {
  h_id : nat;
  h_class : handler_class;
  h_level : Z;
  h_formatter : option Formatter;
  h_close : option exn
}.

Definition NOTSET : Z := 0.
Definition DEBUG : Z := 10.
Definition INFO : Z := 20.
Definition WARNING : Z := 30.
Definition ERROR : Z := 40.
Definition CRITICAL : Z := 50.

Definition BASIC_FORMAT : string := "%(levelname)s:%(name)s:%(message)s".

Definition exn_eq_dec (a b : exn) : {a = b} + {a <> b}.
Proof. decide equality; apply string_dec. Defined.

Definition handler_eq_dec (a b : handler) : {a = b} + {a <> b}.
Proof.
  repeat decide equality; try apply string_dec.
Defined.

(** [h in handlers] *)
Definition mem (h : handler) (hs : list handler) : bool :=
  if in_dec handler_eq_dec h hs then true else false.

(** [handlers.remove(h)]: the first occurrence goes. *)
Fixpoint remove_first (h : handler) (hs : list handler) : list handler :=
  match hs with
  | [] => []
  | x :: r => if handler_eq_dec h x then r else x :: remove_first h r
  end.

(** Where a record ends up: a handler of the root logger, or the
    package's [lastResort] handler (standard error, level WARNING). *)
Inductive destino : Type :=
| ToHandler (h : handler)
| ToLastResort.

(** [Logger.callHandlers] for a logger whose only handlers are the root's:
    each handler whose level admits the record handles it; with no handler
    at all the record goes to [lastResort]. *)
Definition callHandlers (hs : list handler) (levelno : Z) : list destino :=
  match hs with
  | [] => if WARNING <=? levelno then [ToLastResort] else []
  | _ => map ToHandler (filter (fun h => h_level h <=? levelno) hs)
  end%Z.


End Logging.

(* ------------------------------------------------------------------ *)
(** ** LoggingBootstrap *)

Module Bootstrap.
Import posixpath Rutas Logging.

Definition nl : string := String (ascii_of_nat 10) EmptyString.

(** The message of a log record: its text. *)
Inductive mensaje : Type :=
| Texto (s : string).

(** *** Ints and floats as the status line formats them *)

(** [str(n)] of an int, as an f-string renders it. *)
Definition str_int (n : Z) : string := NilZero.string_of_int (Z.to_int n).

(** [logging.getLevelName(level)] for an int, with the names the package
    registers. *)
Definition getLevelName (level : Z) : string :=
  if (level =? CRITICAL)%Z then "CRITICAL"
  else if (level =? ERROR)%Z then "ERROR"
  else if (level =? WARNING)%Z then "WARNING"
  else if (level =? INFO)%Z then "INFO"
  else if (level =? DEBUG)%Z then "DEBUG"
  else if (level =? NOTSET)%Z then "NOTSET"
  else "Level " ++ str_int level.

(** The double nearest to a natural number [n], ties to even: [n] kept
    to 53 significant bits. *)
Definition redondear53 (n : Z) : Z :=
  let bits := (Z.log2 n + 1)%Z in
  if (bits <=? 53)%Z then n
  else
    let s := (bits - 53)%Z in
    let q := Z.shiftr n s in
    let r := (n mod 2 ^ s)%Z in
    let t := if (2 ^ (s - 1) <? r)%Z || ((r =? 2 ^ (s - 1))%Z && Z.odd q)
             then (q + 1)%Z else q in
    Z.shiftl t s.

(** From this absolute value on, an int divided by [1024*1024] rounds to
    a quotient of [2^1024] or more, beyond the largest double. *)
Definition UMBRAL_FLOAT : Z := (2 ^ 1044 - 2 ^ 990)%Z.

Definition OverflowError : exn :=
  OtherException "OverflowError"
    "integer division result too large for a float".

(** [a / (1024*1024)] for an int [a], the true division of line 270: the
    quotient rounded to the nearest double, or [OverflowError] when that
    is beyond the range of a float. The double is given by its sign and
    by the natural number [n] such that its magnitude is [n / 2^20]. *)
Definition truediv_MiB (a : Z) : exn + (bool * Z) :=
  if (UMBRAL_FLOAT <=? Z.abs a)%Z then inl OverflowError
  else inr ((a <? 0)%Z, redondear53 (Z.abs a)).

(** [f"{x:.1f}"] for the double [x] of magnitude [n / 2^20]: its exact
    value to one decimal, ties to even. *)
Definition formato_1f (x : bool * Z) : string :=
  let '(negativo, n) := x in
  let q := (10 * n / 2 ^ 20)%Z in
  let r := ((10 * n) mod 2 ^ 20)%Z in
  let t := if (2 ^ 19 <? r)%Z || ((r =? 2 ^ 19)%Z && Z.odd q)
           then (q + 1)%Z else q in
  (if negativo then "-" else "")
    ++ str_int (t / 10) ++ "." ++ str_int (t mod 10).

(** What the process lets out. [Print]: a line given to [print], which
    writes to standard output. [Log]: a record created on a logger, with
    the destinations that handled it. *)
Inductive evento : Type :=
| Print (texto : string)
| Log (logger : string) (levelno : Z) (msg : mensaje) (exc_info : bool)
      (entregado : list destino).

(** The operating system, as the outcome of the two calls that reach it:
    [os.makedirs(path, exist_ok=True)] and opening a log file for append.
    [None]: the call returns; [Some e]: it raises [e]. *)
Record sistema : Type := {
  os_makedirs : string -> option exn;
  abrir : string -> option exn
}.

(** The process: the module namespace, the root logger, the handlers
    whose [close()] completed, the next object identity, the output so
    far, the operating system. *)
Record estado : Type := {
  modulo : globals;
  root_level : Z;
  root_handlers : list handler;
  cerrados : list handler;
  next_id : nat;
  traza : list evento;
  fs : sistema
}.

Definition con_modulo (g : globals) (st : estado) : estado :=
  {| modulo := g; root_level := root_level st;
     root_handlers := root_handlers st; cerrados := cerrados st;
     next_id := next_id st; traza := traza st; fs := fs st |}.

Definition con_root_level (l : Z) (st : estado) : estado :=
  {| modulo := modulo st; root_level := l;
     root_handlers := root_handlers st; cerrados := cerrados st;
     next_id := next_id st; traza := traza st; fs := fs st |}.

Definition con_root_handlers (hs : list handler) (st : estado) : estado :=
  {| modulo := modulo st; root_level := root_level st;
     root_handlers := hs; cerrados := cerrados st;
     next_id := next_id st; traza := traza st; fs := fs st |}.

Definition con_cerrados (hs : list handler) (st : estado) : estado :=
  {| modulo := modulo st; root_level := root_level st;
     root_handlers := root_handlers st; cerrados := hs;
     next_id := next_id st; traza := traza st; fs := fs st |}.

Definition con_next_id (n : nat) (st : estado) : estado :=
  {| modulo := modulo st; root_level := root_level st;
     root_handlers := root_handlers st; cerrados := cerrados st;
     next_id := n; traza := traza st; fs := fs st |}.

Definition con_traza (t : list evento) (st : estado) : estado :=
  {| modulo := modulo st; root_level := root_level st;
     root_handlers := root_handlers st; cerrados := cerrados st;
     next_id := next_id st; traza := t; fs := fs st |}.

(** *** The monad: state, and exceptions that leave the state as it was
    when they were raised *)

Inductive result (A : Type) : Type :=
| Ok (a : A)
| Raise (e : exn).
Arguments Ok {A} a.
Arguments Raise {A} e.

Definition M (A : Type) : Type := estado -> result A * estado.

Definition ret {A} (a : A) : M A := fun st => (Ok a, st).

Definition bind {A B} (m : M A) (k : A -> M B) : M B :=
  fun st =>
    match m st with
    | (Ok a, st') => k a st'
    | (Raise e, st') => (Raise e, st')
    end.

Definition raise {A} (e : exn) : M A := fun st => (Raise e, st).

(** [try: body / except Exception as e: handler e] *)
Definition try_except {A} (body : M A) (handler : exn -> M A) : M A :=
  fun st =>
    match body st with
    | (Ok a, st') => (Ok a, st')
    | (Raise e, st') => handler e st'
    end.

Definition get : M estado := fun st => (Ok st, st).
Definition modify (f : estado -> estado) : M unit := fun st => (Ok tt, f st).

Declare Scope monad_scope.
Delimit Scope monad_scope with M.
Notation "x <- m ;; k" := (bind m (fun x => k))
  (at level 100, m at next level, right associativity) : monad_scope.
Notation "m ;;; k" := (bind m (fun _ => k))
  (at level 100, right associativity) : monad_scope.
Open Scope monad_scope.

(** [for x in l: body x] *)
Fixpoint for_each {A} (l : list A) (body : A -> M unit) : M unit :=
  match l with
  | [] => ret tt
  | x :: r => body x ;;; for_each r body
  end.

(** [if c: m] *)
Definition when (c : bool) (m : M unit) : M unit := if c then m else ret tt.

(** *** Primitive operations *)

Definition print (texto : string) : M unit :=
  modify (fun st => con_traza (traza st ++ [Print texto]) st).

(** [handler.close()] *)
Definition close (h : handler) : M unit :=
  match h_close h with
  | Some e => raise e
  | None => modify (fun st => con_cerrados (h :: cerrados st) st)
  end.

(** [logger_raiz.removeHandler(h)] *)
Definition removeHandler (h : handler) : M unit :=
  modify (fun st =>
    if mem h (root_handlers st)
    then con_root_handlers (remove_first h (root_handlers st)) st
    else st).

(** [logger_raiz.addHandler(h)] *)
Definition addHandler (h : handler) : M unit :=
  modify (fun st =>
    if mem h (root_handlers st) then st
    else con_root_handlers (root_handlers st ++ [h]) st).

(** A handler object fresh from its constructor: level NOTSET, no
    formatter, and a [close()] that returns. *)
Definition objeto (id : nat) (c : handler_class) : handler :=
  {| h_id := id; h_class := c; h_level := NOTSET;
     h_formatter := None; h_close := None |}.

Definition new_handler (c : handler_class) : M handler :=
  fun st => (Ok (objeto (next_id st) c), con_next_id (S (next_id st)) st).

Definition setLevel (nivel : Z) (h : handler) : handler :=
  {| h_id := h_id h; h_class := h_class h; h_level := nivel;
     h_formatter := h_formatter h; h_close := h_close h |}.

Definition setFormatter (f : Formatter) (h : handler) : handler :=
  {| h_id := h_id h; h_class := h_class h; h_level := h_level h;
     h_formatter := Some f; h_close := h_close h |}.

(** [os.makedirs(path, exist_ok=True)] *)
Definition makedirs (path : string) : M unit :=
  fun st =>
    match os_makedirs (fs st) path with
    | Some e => (Raise e, st)
    | None => (Ok tt, st)
    end.

(** The constructors of the file handlers open the file at once. *)
Definition new_file_handler (c : handler_class) (path : string) : M handler :=
  fun st =>
    match abrir (fs st) path with
    | Some e => (Raise e, st)
    | None => new_handler c st
    end.

(** [logging.getLogger(name).log(levelno, msg)], for the root logger or a
    logger below it that has no level and no handler of its own: the
    record exists when the root level admits it. *)
Definition Logger_log (name : string) (levelno : Z) (msg : mensaje)
    (exc_info : bool) : M unit :=
  modify (fun st =>
    if (root_level st <=? levelno)%Z
    then con_traza
           (traza st ++ [Log name levelno msg exc_info
                           (callHandlers (root_handlers st) levelno)]) st
    else st).

(** [logging.basicConfig()]: with no handler on the root logger it
    installs a [StreamHandler] on standard error. *)
Definition basicConfig : M unit :=
  st <- get ;;
  if is_nil (root_handlers st) then
    h <- new_handler (StreamHandler stderr) ;;
    addHandler
      (setFormatter {| fmt := BASIC_FORMAT; datefmt := None |} h)
  else ret tt.

(** The module-level [logging.critical(msg)] of the standard library
    (not the method of a logger): it calls [basicConfig()] when the root
    logger has no handler, then logs on the root logger. *)
Definition logging_critical (msg : mensaje) (exc_info : bool) : M unit :=
  st <- get ;;
  when (is_nil (root_handlers st)) basicConfig ;;;
  Logger_log "root" CRITICAL msg exc_info.

(** *** [configurar_logging] *)

(** The parameters of [configurar_logging] (lines 150-159). *)
Record opciones : Type := {
  nombre_archivo_log : string;
  nivel_archivo : Z;
  nivel_consola : Z;
  usar_rotacion : bool;
  max_bytes_rotacion : Z;
  num_respaldos : Z;
  log_a_consola : bool;
  log_a_archivo : bool
}.

Definition opciones_por_defecto : opciones :=
  {| nombre_archivo_log := "app.log";
     nivel_archivo := DEBUG;
     nivel_consola := INFO;
     usar_rotacion := true;
     max_bytes_rotacion := 10 * 1024 * 1024;
     num_respaldos := 5;
     log_a_consola := true;
     log_a_archivo := true |}.

Definition formato_log_str : string :=
  "%(asctime)s - %(name)s - %(levelname)s - [%(filename)s:%(lineno)d] - %(message)s".

Definition formateador_log : Formatter :=
  {| fmt := formato_log_str; datefmt := Some "%Y-%m-%d %H:%M:%S" |}.

Definition con_configuracion_realizada (b : bool) (g : globals) : globals :=
  {| _configuracion_realizada := b;
     _ruta_archivo_log_actual := _ruta_archivo_log_actual g;
     IS_BUNDLED := IS_BUNDLED g;
     RUTA_BASE_LECTURA := RUTA_BASE_LECTURA g;
     RUTA_BASE_ESCRITURA := RUTA_BASE_ESCRITURA g |}.

Definition con_ruta_archivo_log_actual (r : option string) (g : globals)
  : globals :=
  {| _configuracion_realizada := _configuracion_realizada g;
     _ruta_archivo_log_actual := r;
     IS_BUNDLED := IS_BUNDLED g;
     RUTA_BASE_LECTURA := RUTA_BASE_LECTURA g;
     RUTA_BASE_ESCRITURA := RUTA_BASE_ESCRITURA g |}.

(** Lines 191-196, the body of the cleanup loop. *)
Definition limpiar_handler (handler : handler) : M unit :=
  try_except
    (close handler ;;;
     removeHandler handler)
    (fun e_close =>
       print ("ADVERTENCIA (log_config): Error cerrando handler de log existente: "
                ++ exn_msg e_close)).

(** Whether [close()] of a handler raises, and the line the loop prints
    when it does. *)
Definition cierre_falla (h : handler) : bool :=
  match h_close h with Some _ => true | None => false end.

Definition aviso_cierre (h : handler) : list evento :=
  match h_close h with
  | Some e =>
      [Print ("ADVERTENCIA (log_config): Error cerrando handler de log existente: "
                ++ exn_msg e)]
  | None => []
  end.

(** Lines 190-196: the loop runs over a copy of the handler list. *)
Definition limpieza : M unit :=
  st <- get ;;
  for_each (root_handlers st) limpiar_handler.

(** Lines 200-204. *)
Definition manejador_consola (o : opciones) : M unit :=
  when (log_a_consola o)
    (h <- new_handler (StreamHandler stdout) ;;
     addHandler (setFormatter formateador_log (setLevel (nivel_consola o) h))).

(** Lines 210-235, the body of the [try]. *)
Definition crear_manejador_archivo (o : opciones) : M unit :=
  st <- get ;;
  let ruta_directorio_log := get_logs_path (modulo st) "" in
  makedirs ruta_directorio_log ;;;
  let ruta_completa_archivo :=
    join ruta_directorio_log [nombre_archivo_log o] in
  h <- (if usar_rotacion o
        then new_file_handler
               (RotatingFileHandler ruta_completa_archivo
                  (max_bytes_rotacion o) (num_respaldos o))
               ruta_completa_archivo
        else new_file_handler (FileHandler ruta_completa_archivo)
               ruta_completa_archivo) ;;
  addHandler (setFormatter formateador_log (setLevel (nivel_archivo o) h)) ;;;
  modify (fun st =>
    con_modulo
      (con_ruta_archivo_log_actual (Some ruta_completa_archivo) (modulo st))
      st).

(** Lines 237-244. [get_logs_path] cannot raise, so the directory is always
    among the locals when the handler runs. *)
Definition except_OSError (o : opciones) (e_os : exn) : M unit :=
  st <- get ;;
  print (nl ++ "ERROR CRÍTICO (log_config): No se pudo crear/escribir en el directorio/archivo de log.") ;;;
  print ("   Directorio Intentado: " ++ get_logs_path (modulo st) "") ;;;
  print ("   Archivo Intentado: " ++ nombre_archivo_log o) ;;;
  print ("   Error del Sistema Operativo: " ++ exn_msg e_os ++ nl) ;;;
  logging_critical
    (Texto ("Fallo CRÍTICO configurando log archivo: " ++ exn_msg e_os))
    false.

(** Lines 246-249. *)
Definition except_Exception (e_gen : exn) : M unit :=
  print (nl ++ "ERROR INESPERADO (log_config): Configurando log de archivo: "
            ++ exn_msg e_gen ++ nl) ;;;
  logging_critical (Texto "Error inesperado configurando log archivo.") true.

(** Lines 207-249. *)
Definition manejador_archivo (o : opciones) : M unit :=
  modify (fun st =>
    con_modulo (con_ruta_archivo_log_actual None (modulo st)) st) ;;;
  when (log_a_archivo o)
    (try_except (crear_manejador_archivo o)
       (fun e => if is_OSError e then except_OSError o e
                 else except_Exception e)).

(** Lines 262-264. *)
Definition estado_consola (o : opciones) : string :=
  if log_a_consola o
  then "ON (Nivel >= " ++ getLevelName (nivel_consola o) ++ ")"
  else "OFF".

(** Line 270, the text added when rotation is on; the division is
    evaluated first and may raise. *)
Definition texto_rotacion (o : opciones) : exn + string :=
  match truediv_MiB (max_bytes_rotacion o) with
  | inl e => inl e
  | inr x =>
      inr (" [Rot: " ++ formato_1f x ++ "MB x"
             ++ str_int (num_respaldos o) ++ "]")
  end.

(** Line 268. *)
Definition archivo_on (o : opciones) (ruta : string) : string :=
  "ON (Nivel >= " ++ getLevelName (nivel_archivo o)
    ++ ") en '" ++ ruta ++ "'".

(** Lines 266-270. An empty path counts as no path, as [if path:] does. *)
Definition estado_archivo (o : opciones) (g : globals) : exn + string :=
  match _ruta_archivo_log_actual g with
  | Some r =>
      if is_empty r then inr "OFF (o error en setup)"
      else
        if usar_rotacion o then
          match texto_rotacion o with
          | inl e => inl e
          | inr rot => inr (archivo_on o r ++ rot)
          end
        else inr (archivo_on o r)
  | None => inr "OFF (o error en setup)"
  end.

(** Line 272, the message of the status line. *)
Definition linea_estado (o : opciones) (archivo : string) : mensaje :=
  Texto ("  Estado Salidas -> Consola: " ++ estado_consola o
           ++ " | Archivo: " ++ archivo).

(** Lines 262-272: the message of the status line, or what building it
    raises. *)
Definition estado_salidas (o : opciones) (g : globals) : exn + mensaje :=
  match estado_archivo o g with
  | inl e => inl e
  | inr a => inr (linea_estado o a)
  end.

(** Lines 253-272. The flag is set first; the status line is built after
    the three records on the paths and outside every [try], so what
    building it raises leaves [configurar_logging]. *)
Definition finalizar (o : opciones) : M unit :=
  modify (fun st =>
    con_modulo (con_configuracion_realizada true (modulo st)) st) ;;;
  st <- get ;;
  let g := modulo st in
  Logger_log "ConfigLog" INFO
    (Texto ("Sistema Logging Configurado ("
              ++ (if truthy (IS_BUNDLED g) then "Empaquetado" else "Desarrollo")
              ++ ").")) false ;;;
  Logger_log "ConfigLog" INFO
    (Texto ("  Ruta Base Lectura (Código): " ++ RUTA_BASE_LECTURA g)) false ;;;
  Logger_log "ConfigLog" INFO
    (Texto ("  Ruta Base Escritura (Logs/Datos/ExtConf): "
              ++ RUTA_BASE_ESCRITURA g)) false ;;;
  match estado_salidas o g with
  | inl e => raise e
  | inr m => Logger_log "ConfigLog" INFO m false
  end.

(** Lines 150-272. *)
Definition configurar_logging (o : opciones) : M unit :=
  st <- get ;;
  if _configuracion_realizada (modulo st) then
    Logger_log "ConfigLog" WARNING
      (Texto "Intento de reconfigurar logging ya configurado.") false
  else
    modify (con_root_level DEBUG) ;;;
    limpieza ;;;
    manejador_consola o ;;;
    manejador_archivo o ;;;
    finalizar o.

(** Lines 277-282. *)
Definition obtener_ruta_archivo_log (st : estado) : option string :=
  _ruta_archivo_log_actual (modulo st).

(** Configuration calls one after the other by a caller that catches
    nothing: the sequence ends at the first call that raises. *)
Definition reconfigurar (os : list opciones) : M unit :=
  for_each os configurar_logging.

(** The exception the body of the file-sink [try] meets, if any: the one
    of [os.makedirs] on the logs directory, else the one of opening the
    log file. *)
Definition fallo_archivo (st : estado) (o : opciones) : option exn :=
  match os_makedirs (fs st) (get_logs_path (modulo st) "") with
  | Some e => Some e
  | None =>
      abrir (fs st)
        (join (get_logs_path (modulo st) "") [nombre_archivo_log o])
  end.

(** The console handler [configurar_logging] builds, as object [id]. *)
Definition consola_de (o : opciones) (id : nat) : handler :=
  setFormatter formateador_log
    (setLevel (nivel_consola o) (objeto id (StreamHandler stdout))).

(** The handler [basicConfig] builds, as object [id]. *)
Definition manejador_basico (id : nat) : handler :=
  setFormatter {| fmt := BASIC_FORMAT; datefmt := None |}
    (objeto id (StreamHandler stderr)).



(** The process right after the module was loaded: the root logger as the
    package creates it (level WARNING, no handler), unless earlier code
    installed the handlers [hs]. *)
Definition estado_inicial (g : globals) (hs : list handler) (s : sistema)
  : estado :=
  {| modulo := g; root_level := WARNING; root_handlers := hs;
     cerrados := []; next_id := length hs; traza := []; fs := s |}.

(** An operating system where every call succeeds. *)
Definition so_ok : sistema :=
  {| os_makedirs := fun _ => None; abrir := fun _ => None |}.

(** [/app/logs] exists as a regular file: the directory cannot be made. *)
Definition so_logs_es_archivo : sistema :=
  {| os_makedirs := fun p =>
       if p =? "/app/logs/"
       then Some (OSError "[Errno 17] File exists: '/app/logs/'")
       else None;
     abrir := fun _ => None |}.

(** The lines the [except] clauses print for the exception [e] met while
    setting up the file sink, logs directory [dir]. *)
Definition informe_fallo (o : opciones) (dir : string) (e : exn)
  : list evento :=
  if is_OSError e then
    [ Print (nl ++ "ERROR CRÍTICO (log_config): No se pudo crear/escribir en el directorio/archivo de log.");
      Print ("   Directorio Intentado: " ++ dir);
      Print ("   Archivo Intentado: " ++ nombre_archivo_log o);
      Print ("   Error del Sistema Operativo: " ++ exn_msg e ++ nl) ]
  else
    [ Print (nl ++ "ERROR INESPERADO (log_config): Configurando log de archivo: "
                ++ exn_msg e ++ nl) ].

(** The CRITICAL record of the [except] clauses: message and [exc_info]. *)
Definition registro_critico (e : exn) : mensaje * bool :=
  if is_OSError e
  then (Texto ("Fallo CRÍTICO configurando log archivo: " ++ exn_msg e), false)
  else (Texto "Error inesperado configurando log archivo.", true).

(** The three records on the mode and the base paths (lines 257-259),
    for the module namespace [g] and the handlers [hs] then on the root
    logger. *)
Definition registros_rutas (g : globals) (hs : list handler) : list evento :=
  [ Log "ConfigLog" INFO
      (Texto ("Sistema Logging Configurado ("
                ++ (if truthy (IS_BUNDLED g) then "Empaquetado" else "Desarrollo")
                ++ ").")) false (callHandlers hs INFO);
    Log "ConfigLog" INFO
      (Texto ("  Ruta Base Lectura (Código): " ++ RUTA_BASE_LECTURA g))
      false (callHandlers hs INFO);
    Log "ConfigLog" INFO
      (Texto ("  Ruta Base Escritura (Logs/Datos/ExtConf): "
                ++ RUTA_BASE_ESCRITURA g)) false (callHandlers hs INFO) ].

(** The records that close the configuration (lines 257-272): the three
    on the paths, then the status line when it can be built. *)
Definition resumen (o : opciones) (g : globals) (hs : list handler)
  : list evento :=
  (registros_rutas g hs
     ++ match estado_salidas o g with
        | inr m => [Log "ConfigLog" INFO m false (callHandlers hs INFO)]
        | inl _ => []
        end)%list.

(** How the last step of the first call ends: it returns when the status
    line can be built, and raises what building it raises otherwise. *)
Definition desenlace (o : opciones) (g : globals) : result unit :=
  match estado_salidas o g with
  | inr _ => Ok tt
  | inl e => Raise e
  end.

(** Whether the rotation part of the status line can be built: rotation
    is off, or the size is below the threshold of the float division. *)
Definition rotacion_formateable (o : opciones) : bool :=
  negb (usar_rotacion o)
  || (Z.abs (max_bytes_rotacion o) <? UMBRAL_FLOAT)%Z.


(** Options that ask for a rotation size no float can hold (10^400
    bytes). *)
Definition o_enorme : opciones :=
  {| nombre_archivo_log := "app.log";
     nivel_archivo := DEBUG;
     nivel_consola := INFO;
     usar_rotacion := true;
     max_bytes_rotacion := 10 ^ 400;
     num_respaldos := 5;
     log_a_consola := true;
     log_a_archivo := true |}.

(** The process after the configuration calls [os], made one after the
    other whatever the outcome of each (the caller goes on after a call
    that raised). *)
Definition tras_llamadas (os : list opciones) (st : estado) : estado :=
  fold_left (fun st o => snd (configurar_logging o st)) os st.

(** The file handler [configurar_logging] builds on [ruta], as object
    [id]. *)
Definition archivo_de (o : opciones) (id : nat) (ruta : string) : handler :=
  setFormatter formateador_log
    (setLevel (nivel_archivo o)
       (objeto id
          (if usar_rotacion o
           then RotatingFileHandler ruta (max_bytes_rotacion o)
                  (num_respaldos o)
           else FileHandler ruta))).

(** The process after the root level is set and the old handlers are
    cleaned up (lines 183-196). *)
Definition tras_limpieza (st : estado) : estado :=
  {| modulo := modulo st; root_level := DEBUG;
     root_handlers := filter cierre_falla (root_handlers st);
     cerrados := rev (filter (fun h => negb (cierre_falla h))
                        (root_handlers st)) ++ cerrados st;
     next_id := next_id st;
     traza := traza st ++ flat_map aviso_cierre (root_handlers st);
     fs := fs st |}.

(** The process after the console step (lines 200-204). *)
Definition tras_consola (o : opciones) (st : estado) : estado :=
  let st1 := tras_limpieza st in
  if log_a_consola o then
    if mem (consola_de o (next_id st1)) (root_handlers st1)
    then con_next_id (S (next_id st1)) st1
    else con_root_handlers
           (root_handlers st1 ++ [consola_de o (next_id st1)])
           (con_next_id (S (next_id st1)) st1)
  else st1.

(** What no step of [configurar_logging] changes. *)
Definition mismo_entorno (st st' : estado) : Prop :=
  fs st' = fs st
  /\ IS_BUNDLED (modulo st') = IS_BUNDLED (modulo st)
  /\ RUTA_BASE_LECTURA (modulo st') = RUTA_BASE_LECTURA (modulo st)
  /\ RUTA_BASE_ESCRITURA (modulo st') = RUTA_BASE_ESCRITURA (modulo st).


(** A handler left by earlier code that closes without trouble. *)
Definition h_viejo : handler :=
  {| h_id := 1; h_class := StreamHandler stderr; h_level := WARNING;
     h_formatter := None; h_close := None |}.

Definition sin_consola (o : opciones) : opciones :=
  {| nombre_archivo_log := nombre_archivo_log o;
     nivel_archivo := nivel_archivo o;
     nivel_consola := nivel_consola o;
     usar_rotacion := usar_rotacion o;
     max_bytes_rotacion := max_bytes_rotacion o;
     num_respaldos := num_respaldos o;
     log_a_consola := false;
     log_a_archivo := log_a_archivo o |}.

(** A packaged run: the bootloader sets both attributes of [sys]. *)
Definition sys_empaquetado : sys_t :=
  {| sys_frozen := Some (PyBool true);
     sys_MEIPASS := Some "/tmp/_MEI123";
     sys_executable := "/opt/rpa/rpa" |}.

(** A fresh process after the load under [/app], with the handlers [hs]
    left on the root logger by earlier code. *)
Definition st_app (hs : list handler) (s : sistema) : estado :=
  estado_inicial g_app hs s.

End Bootstrap.
(* ------------------------------------------------------------------ *)
(** ** Directory layouts *)

Module Disposicion.
Import posixpath Rutas.

(** No separator in [c]. *)
Fixpoint sin_sep (c : string) : bool :=
  match c with
  | EmptyString => true
  | String x r => negb (Ascii.eqb x sep) && sin_sep r
  end.

(** A proper name of a directory entry: not empty, no separator, neither
    [.] nor [..]. *)
Definition componente (c : string) : bool :=
  negb (is_empty c) && sin_sep c && negb (c =? ".") && negb (c =? "..").

(** [/c1/c2/.../cn], the empty string for no component. *)
Fixpoint seg (cs : list string) : string :=
  match cs with
  | [] => EmptyString
  | c :: r => "/" ++ c ++ seg r
  end.

(** The absolute path with the components [cs]; the root for none. *)
Definition ruta_de (cs : list string) : string :=
  match cs with
  | [] => "/"
  | _ => seg cs
  end.

(** A process run by the interpreter whose module [log_config] was
    loaded from the file [file]. *)
Definition rt_desde (file : string) (pila : list frame) (dir : string)
  : runtime :=
  {| sys := {| sys_frozen := None; sys_MEIPASS := None;
               sys_executable := "/usr/bin/python3" |};
     module_file := Some file;
     module_co_filename := file;
     outer_stack := pila;
     cwd := dir;
     currentframe_ok := true |}.

End Disposicion.

(* ------------------------------------------------------------------ *)
(** ** scripts/main.py *)

(** The script's own start-up (lines 44-60) and its flow (lines 114-321).
    The browser, the dialogs, the file system and the pandas step are
    outside the repository: each call that reaches them is an event of the
    trace, and what the call answers is given by the world [mundo]. Not
    modelled: [BaseException]s, a dialog or a logging call that raises, the
    records [procesar_reporte_con_pandas] logs on its own. *)

Module Main.
Import posixpath Rutas Logging Bootstrap.

(** Line 44. *)
Definition script_dir (dir file : string) : string :=
  dirname (abspath dir file).

(** Line 45. *)
Definition project_root (dir file : string) : string :=
  abspath dir (join (script_dir dir file) [".."]).

(** Lines 46-47: [if project_root not in sys.path: sys.path.insert(0, ...)]. *)
Definition ajustar_sys_path (root : string) (sys_path : list string)
  : list string :=
  if existsb (String.eqb root) sys_path then sys_path
  else root :: sys_path.

(** Line 59, [timestamp_log] being what [strftime] gave on line 58. *)
Definition nombre_log_ejecucion (timestamp_log : string) : string :=
  "ejecucion_rpa_" ++ timestamp_log ++ ".log".

(** Line 60: every other parameter keeps its default. *)
Definition opciones_main (timestamp_log : string) : opciones :=
  {| nombre_archivo_log := nombre_log_ejecucion timestamp_log;
     nivel_archivo := nivel_archivo opciones_por_defecto;
     nivel_consola := nivel_consola opciones_por_defecto;
     usar_rotacion := usar_rotacion opciones_por_defecto;
     max_bytes_rotacion := max_bytes_rotacion opciones_por_defecto;
     num_respaldos := num_respaldos opciones_por_defecto;
     log_a_consola := log_a_consola opciones_por_defecto;
     log_a_archivo := log_a_archivo opciones_por_defecto |}.

Definition configurar_desde_main (timestamp_log : string) : M unit :=
  configurar_logging (opciones_main timestamp_log).

(** *** Constants (lines 89-102) *)

Definition URL_PRUEBA_LOGIN : string :=
  "https://mi-aplicacion-web-de-prueba.com/login".
Definition DIR_DESCARGAS_TEMPORAL : string := "descargas_temp".
Definition ID_CAMPO_USUARIO : string := "username".
Definition ID_CAMPO_PASSWORD : string := "password".
Definition ID_CAMPO_EMPRESA : string := "companyId".

(** A locator: the strategy and its value. *)
Definition selector : Type := (string * string)%type.

Definition By_ID (v : string) : selector := ("id", v).
Definition SELECTOR_BOTON_LOGIN : selector :=
  ("xpath", "//button[contains(text(), 'Ingresar')]").
Definition SELECTOR_ICONO_MENU : selector :=
  ("css selector", "i.fa-bars.menu-icon").

(** The expected conditions the script waits for. *)
Inductive condicion : Type :=
| visibility_of_element_located (s : selector)
| element_to_be_clickable (s : selector).

(** *** Python values as the flow uses them *)

(** What the flow does with the loaded credentials: it tests their truth
    value and subscripts them with a key. *)
Record valor : Type := {
  es_verdadero : bool;
  subscript : string -> exn + pyval
}.

(** [None]. *)
Definition py_None : valor :=
  {| es_verdadero := false;
     subscript := fun _ =>
       inl (OtherException "TypeError" "'NoneType' object is not subscriptable") |}.

(** [d[k]] in an association list, the last binding of a key first. *)
Fixpoint buscar (k : string) (d : list (string * pyval)) : option pyval :=
  match d with
  | [] => None
  | (k', v) :: r => if k =? k' then Some v else buscar k r
  end.

(** A [dict] with string keys. *)
Definition py_dict (d : list (string * pyval)) : valor :=
  {| es_verdadero := negb (is_nil d);
     subscript := fun k =>
       match buscar k d with
       | Some v => inr v
       | None => inl (OtherException "KeyError" ("'" ++ k ++ "'"))
       end |}.

(** *** Events and the world *)

Inductive clase_dialogo : Type := showerror | showinfo.

(** What the flow does that can be seen from outside, in order. *)
Inductive suceso : Type :=
| Registro (nivel : Z) (texto : string) (exc_info : bool)
| Dialogo (c : clase_dialogo) (titulo texto : string)
| Rmtree (ruta : string)
| Makedirs (ruta : string)
| InstalarDriver
| CrearChrome (descargas : string)
| MaximizeWindow
| DriverGet (url : string)
| WaitUntil (c : condicion)
| SendKeys (s : selector) (v : pyval)
| Click (s : selector)
| TkRoot
| AskString (sugerida : string)
| CsvSimulado (ruta : string)
| Procesar (csv dir fecha : string)
| DriverQuit.

(** What opening and parsing the credentials file gives. *)
Inductive lectura_json : Type :=
| Leido (v : valor)
| FileNotFoundError
| JSONDecodeError
| OtraFalla (e : exn).

(** The answers of everything outside the repository. [None] in an
    [option exn]: the call returns. *)
Record mundo : Type := {
  json_load : string -> lectura_json;
  os_path_exists : string -> bool;
  shutil_rmtree : string -> option exn;
  os_makedirs_estricto : string -> option exn;
  instalar_driver : option exn;
  crear_chrome : option exn;
  maximize_window : option exn;
  driver_get : string -> option exn;
  wait_until : condicion -> option exn;
  send_keys : selector -> pyval -> option exn;
  click : selector -> option exn;
  tk_Tk : option exn;
  askstring : string -> option string;
  fecha_ayer : string;
  to_csv_simulado : string -> option exn;
  procesar_reporte_con_pandas : string -> string -> string -> option string;
  driver_quit : option exn;
  Path_div : string -> string -> string
}.

(** The flow's state: whether the local [driver] holds a browser, and the
    events so far. *)
Record flujo : Type := {
  driver : bool;
  sucesos : list suceso
}.

Definition F (A : Type) : Type := flujo -> result A * flujo.

Definition retF {A} (a : A) : F A := fun st => (Ok a, st).

Definition bindF {A B} (m : F A) (k : A -> F B) : F B :=
  fun st =>
    match m st with
    | (Ok a, st') => k a st'
    | (Raise e, st') => (Raise e, st')
    end.

Definition raiseF {A} (e : exn) : F A := fun st => (Raise e, st).

(** [try: body / except Exception as e: handler e] *)
Definition try_exceptF {A} (body : F A) (handler : exn -> F A) : F A :=
  fun st =>
    match body st with
    | (Ok a, st') => (Ok a, st')
    | (Raise e, st') => handler e st'
    end.

(** [try: body / finally: fin]: [fin] runs whatever [body] did; what it
    raises replaces the outcome of [body]. *)
Definition try_finallyF {A} (body : F A) (fin : F unit) : F A :=
  fun st =>
    match body st with
    | (r, st') =>
        match fin st' with
        | (Ok _, st'') => (r, st'')
        | (Raise e, st'') => (Raise e, st'')
        end
    end.

Declare Scope flujo_scope.
Delimit Scope flujo_scope with F.
Notation "x <- m ;; k" := (bindF m (fun x => k))
  (at level 100, m at next level, right associativity) : flujo_scope.
Notation "m ;;; k" := (bindF m (fun _ => k))
  (at level 100, right associativity) : flujo_scope.
Open Scope flujo_scope.

Definition emitir (s : suceso) : F unit :=
  fun st => (Ok tt, {| driver := driver st; sucesos := sucesos st ++ [s] |}).

(** An outside call: the event, then its answer. *)
Definition llamar (s : suceso) (respuesta : option exn) : F unit :=
  emitir s ;;;
  match respuesta with
  | Some e => raiseF e
  | None => retF tt
  end.

Definition asignar_driver : F unit :=
  fun st => (Ok tt, {| driver := true; sucesos := sucesos st |}).

Definition leer_driver : F bool := fun st => (Ok (driver st), st).

(** Line 260: [driver = None]. *)
Definition sin_driver : F unit :=
  fun st => (Ok tt, {| driver := false; sucesos := sucesos st |}).

(** The methods of [logger = logging.getLogger("RPA_Main_Flow")]. *)
Definition logger_debug (t : string) : F unit := emitir (Registro DEBUG t false).
Definition logger_info (t : string) : F unit := emitir (Registro INFO t false).
Definition logger_warning (t : string) : F unit :=
  emitir (Registro WARNING t false).
Definition logger_error (t : string) : F unit := emitir (Registro ERROR t false).
Definition logger_exception (t : string) : F unit :=
  emitir (Registro ERROR t true).
Definition logger_critical (t : string) (exc_info : bool) : F unit :=
  emitir (Registro CRITICAL t exc_info).

(** [isinstance(e, TimeoutException)] *)
Definition es_Timeout (e : exn) : bool :=
  match e with
  | OtherException cls _ => cls =? "TimeoutException"
  | OSError _ => false
  end.

(** *** The functions *)

(** Lines 114-131. *)
Definition cargar_credenciales (w : mundo) (ruta_archivo : string) : F valor :=
  logger_debug ("Intentando cargar credenciales desde: " ++ ruta_archivo) ;;;
  match json_load w ruta_archivo with
  | Leido v => retF v
  | FileNotFoundError =>
      logger_error ("Archivo de credenciales no encontrado en la ruta especificada: "
                      ++ ruta_archivo) ;;;
      emitir (Dialogo showerror "Error"
                ("No se encontró el archivo de credenciales:" ++ nl
                   ++ ruta_archivo)) ;;;
      retF py_None
  | JSONDecodeError =>
      logger_error ("El archivo de credenciales contiene un error de formato JSON: "
                      ++ ruta_archivo) ;;;
      emitir (Dialogo showerror "Error"
                "Archivo de credenciales con formato JSON inválido.") ;;;
      retF py_None
  | OtraFalla e => raiseF e
  end.

(** Truth value of what [askstring] returns: [None] and the empty string
    are falsy. *)
Definition fecha_verdadera (f : option string) : bool :=
  match f with
  | Some t => negb (is_empty t)
  | None => false
  end.

(** Lines 134-150. *)
Definition obtener_fecha_interactiva (w : mundo) (fecha_sugerida : string)
  : F (option string) :=
  logger_info "Mostrando diálogo de selección de fecha al usuario." ;;;
  llamar TkRoot (tk_Tk w) ;;;
  emitir (AskString fecha_sugerida) ;;;
  let fecha_seleccionada := askstring w fecha_sugerida in
  (match fecha_seleccionada with
   | Some t =>
       if negb (is_empty t)
       then logger_info ("Usuario seleccionó la fecha: " ++ t)
       else logger_warning "Usuario canceló la selección de fecha."
   | None => logger_warning "Usuario canceló la selección de fecha."
   end) ;;;
  retF fecha_seleccionada.

(** [wait.until(visible(By.ID, campo)).send_keys(creds[clave])]: the wait,
    then the subscript, then the typing. *)
Definition escribir_campo (w : mundo) (creds : valor) (campo clave : string)
  : F unit :=
  llamar (WaitUntil (visibility_of_element_located (By_ID campo)))
         (wait_until w (visibility_of_element_located (By_ID campo))) ;;;
  match subscript creds clave with
  | inl e => raiseF e
  | inr v => llamar (SendKeys (By_ID campo) v) (send_keys w (By_ID campo) v)
  end.

(** Lines 160-170, the body of the [try]. *)
Definition pasos_login (w : mundo) (creds : valor) : F bool :=
  llamar (DriverGet URL_PRUEBA_LOGIN) (driver_get w URL_PRUEBA_LOGIN) ;;;
  escribir_campo w creds ID_CAMPO_USUARIO "correo" ;;;
  escribir_campo w creds ID_CAMPO_PASSWORD "contraseña" ;;;
  escribir_campo w creds ID_CAMPO_EMPRESA "empresa" ;;;
  llamar (WaitUntil (element_to_be_clickable SELECTOR_BOTON_LOGIN))
         (wait_until w (element_to_be_clickable SELECTOR_BOTON_LOGIN)) ;;;
  llamar (Click SELECTOR_BOTON_LOGIN) (click w SELECTOR_BOTON_LOGIN) ;;;
  llamar (WaitUntil (visibility_of_element_located SELECTOR_ICONO_MENU))
         (wait_until w (visibility_of_element_located SELECTOR_ICONO_MENU)) ;;;
  logger_info "Login realizado con éxito." ;;;
  retF true.

(** Lines 153-176. *)
Definition realizar_login (w : mundo) (creds : valor) : F bool :=
  logger_info "Iniciando proceso de login." ;;;
  try_exceptF (pasos_login w creds)
    (fun e =>
       if es_Timeout e then
         logger_error "Timeout durante el login. ¿Credenciales incorrectas o la página no cargó a tiempo?" ;;;
         retF false
       else
         logger_exception ("Error inesperado durante el login: " ++ exn_msg e) ;;;
         retF false).

(** Lines 210-211 of [procesar_reporte_con_pandas]: the list of labels
    with which line 212 indexes the frame, [columnas] being the labels
    of [df.columns] (a label may occur there more than once). *)
Definition columnas_finales : list string :=
  ["fecha_reporte"; "id_cliente"; "tipo_transaccion"; "importe_neto"].

Definition columnas_existentes_para_final (columnas : list string)
  : list string :=
  filter (fun col => existsb (String.eqb col) columnas) columnas_finales.

(** Lines 251-258: [Some tt] when the flow goes on, [None] when it
    returns. *)
Definition preparar_descargas (w : mundo) (dir_descarga_temp : string)
  : F (option unit) :=
  try_exceptF
    ((if os_path_exists w dir_descarga_temp then
        llamar (Rmtree dir_descarga_temp) (shutil_rmtree w dir_descarga_temp) ;;;
        logger_info ("Directorio temporal limpiado: " ++ dir_descarga_temp)
      else retF tt) ;;;
     llamar (Makedirs dir_descarga_temp)
            (os_makedirs_estricto w dir_descarga_temp) ;;;
     retF (Some tt))
    (fun e =>
       if is_OSError e then
         logger_error ("No se pudo limpiar/crear el directorio de descargas: "
                         ++ exn_msg e) ;;;
         retF None
       else raiseF e).

(** Lines 264-270 (PASO 1). *)
Definition iniciar_navegador (w : mundo) (dir_descarga_temp : string)
  : F unit :=
  logger_info "Inicializando WebDriver de Chrome..." ;;;
  llamar InstalarDriver (instalar_driver w) ;;;
  llamar (CrearChrome dir_descarga_temp) (crear_chrome w) ;;;
  asignar_driver ;;;
  llamar MaximizeWindow (maximize_window w).

(** Lines 284-308 (PASOS 4 y 5). *)
Definition descargar_y_procesar (w : mundo)
    (dir_descarga_temp dir_salida_final fecha_elegida : string) : F unit :=
  logger_info "Iniciando secuencia de navegación y descarga del reporte..." ;;;
  let ruta_csv_descargado_simulado :=
    Path_div w dir_descarga_temp "reporte_bruto_simulado.csv" in
  llamar (CsvSimulado ruta_csv_descargado_simulado)
         (to_csv_simulado w ruta_csv_descargado_simulado) ;;;
  logger_info ("Descarga simulada completada. Archivo: "
                 ++ ruta_csv_descargado_simulado) ;;;
  emitir (Procesar ruta_csv_descargado_simulado dir_salida_final
            fecha_elegida) ;;;
  match procesar_reporte_con_pandas w ruta_csv_descargado_simulado
          dir_salida_final fecha_elegida with
  | Some ruta_archivo_final =>
      logger_info "PROCESO COMPLETADO CON ÉXITO." ;;;
      emitir (Dialogo showinfo "Éxito"
                ("El proceso ha finalizado correctamente." ++ nl
                   ++ "Reporte guardado en: " ++ ruta_archivo_final))
  | None =>
      logger_error "El procesamiento de datos falló. Revise los logs." ;;;
      emitir (Dialogo showerror "Error"
                "Ocurrió un error al procesar los datos. Consulte el archivo de log para más detalles.")
  end.

(** Lines 263-308, the body of the second [try]. *)
Definition cuerpo_flujo (w : mundo) (credenciales : valor)
    (dir_descarga_temp dir_salida_final : string) : F unit :=
  iniciar_navegador w dir_descarga_temp ;;;
  ok <- realizar_login w credenciales ;;
  if negb ok then
    raiseF (OtherException "Exception" "Fallo en el Login. Abortando.")
  else
    let fecha_sugerida := fecha_ayer w in
    fecha_elegida <- obtener_fecha_interactiva w fecha_sugerida ;;
    match fecha_elegida with
    | Some fecha =>
        if is_empty fecha then
          logger_warning "Proceso cancelado por el usuario en la selección de fecha."
        else
          descargar_y_procesar w dir_descarga_temp dir_salida_final fecha
    | None =>
        logger_warning "Proceso cancelado por el usuario en la selección de fecha."
    end.

(** Lines 310-312. *)
Definition except_flujo (e : exn) : F unit :=
  logger_critical ("Ha ocurrido un error CRÍTICO en el flujo principal: "
                     ++ exn_msg e) true ;;;
  emitir (Dialogo showerror "Error Crítico"
            ("Ha ocurrido un error inesperado durante la ejecución:" ++ nl
               ++ exn_msg e ++ nl ++ nl ++ "Revise los logs.")).

(** Lines 314-321. *)
Definition finally_flujo (w : mundo) : F unit :=
  d <- leer_driver ;;
  (if d then
     logger_info "Cerrando el navegador y finalizando el proceso." ;;;
     llamar DriverQuit (driver_quit w)
   else retF tt) ;;;
  logger_info "================= FIN DEL FLUJO RPA =================".

(** Lines 232-321, with the module namespace [g] of [log_config]. *)
Definition ejecutar_flujo_rpa (w : mundo) (g : globals) : F unit :=
  logger_info "================ INICIO DEL FLUJO RPA ================" ;;;
  let ruta_credenciales := get_credentials_path g in
  credenciales <- cargar_credenciales w ruta_credenciales ;;
  if negb (es_verdadero credenciales) then
    logger_critical "No se pudieron cargar las credenciales. Terminando proceso." false
  else
    let dir_descarga_temp := get_data_path g DIR_DESCARGAS_TEMPORAL in
    let dir_salida_final := get_data_path g "" in
    listo <- preparar_descargas w dir_descarga_temp ;;
    match listo with
    | None => retF tt
    | Some _ =>
        sin_driver ;;;
        try_finallyF
          (try_exceptF
             (cuerpo_flujo w credenciales dir_descarga_temp dir_salida_final)
             except_flujo)
          (finally_flujo w)
    end.

(** Whether an outside call answered well. *)
Definition sin_error (r : option exn) : bool :=
  match r with None => true | Some _ => false end.

(** Whether one field of the login form gets filled: the wait, the key
    and the typing all answer well. *)
Definition campo_sin_fallos (w : mundo) (creds : valor) (campo clave : string)
  : bool :=
  sin_error (wait_until w (visibility_of_element_located (By_ID campo)))
  && match subscript creds clave with
     | inr v => sin_error (send_keys w (By_ID campo) v)
     | inl _ => false
     end.

(** Whether every step of the login answers well. *)
Definition login_sin_fallos (w : mundo) (creds : valor) : bool :=
  sin_error (driver_get w URL_PRUEBA_LOGIN)
  && (campo_sin_fallos w creds ID_CAMPO_USUARIO "correo"
  && (campo_sin_fallos w creds ID_CAMPO_PASSWORD "contraseña"
  && (campo_sin_fallos w creds ID_CAMPO_EMPRESA "empresa"
  && (sin_error (wait_until w (element_to_be_clickable SELECTOR_BOTON_LOGIN))
  && (sin_error (click w SELECTOR_BOTON_LOGIN)
  && sin_error (wait_until w
                  (visibility_of_element_located SELECTOR_ICONO_MENU))))))).

(** The state with the events [evs] added. *)
Definition mas (st : flujo) (evs : list suceso) : flujo :=
  {| driver := driver st; sucesos := sucesos st ++ evs |}.

Definition registro_fin : suceso :=
  Registro INFO "================= FIN DEL FLUJO RPA =================" false.

Definition es_registro_fin (s : suceso) : bool :=
  match s with
  | Registro _ t _ =>
      t =? "================= FIN DEL FLUJO RPA ================="
  | _ => false
  end.

(** The events of a run that ends before the second [try]: records other
    than the closing one, error dialogs, and the two directory calls. *)
Definition temprano (s : suceso) : bool :=
  match s with
  | Registro _ _ _ => negb (es_registro_fin s)
  | Dialogo showerror _ _ | Rmtree _ | Makedirs _ => true
  | _ => false
  end.

(** The state once [driver] holds a browser. *)
Definition con_driver (st : flujo) : flujo :=
  {| driver := true; sucesos := sucesos st |}.

Definition es_descarga (s : suceso) : bool :=
  match s with CsvSimulado _ | Procesar _ _ _ => true | _ => false end.

(** Whether the download and the pandas step answer well (PASOS 4 y 5). *)
Definition exito_descarga (w : mundo) (dt ds fecha : string) : bool :=
  sin_error (to_csv_simulado w (Path_div w dt "reporte_bruto_simulado.csv"))
  && match procesar_reporte_con_pandas w
             (Path_div w dt "reporte_bruto_simulado.csv") ds fecha with
     | Some _ => true
     | None => false
     end.

(** Whether the browser starts, the login passes and the dialog opens. *)
Definition hasta_fecha (w : mundo) (creds : valor) : bool :=
  sin_error (instalar_driver w)
  && (sin_error (crear_chrome w)
  && (sin_error (maximize_window w)
  && (login_sin_fallos w creds
  && sin_error (tk_Tk w)))).

(** Whether every step of the body answers well and the user gives a
    date. *)
Definition exito_cuerpo (w : mundo) (creds : valor) (dt ds : string) : bool :=
  hasta_fecha w creds
  && match askstring w (fecha_ayer w) with
     | Some f => negb (is_empty f) && exito_descarga w dt ds f
     | None => false
     end.

(** Whether the run gets to the date dialog and the user gives no date. *)
Definition cancelado (w : mundo) (creds : valor) : bool :=
  hasta_fecha w creds && negb (fecha_verdadera (askstring w (fecha_ayer w))).

(** The exception met while the download directory is made afresh
    (lines 252-255), if any: that of [rmtree] when the directory exists,
    else that of [makedirs]. *)
Definition fallo_preparacion (w : mundo) (dir : string) : option exn :=
  match (if os_path_exists w dir then shutil_rmtree w dir else None) with
  | Some e => Some e
  | None => os_makedirs_estricto w dir
  end.

Definition preparado (w : mundo) (dir : string) : bool :=
  sin_error (fallo_preparacion w dir).

(** The events of lines 252-255. *)
Definition eventos_preparacion (w : mundo) (dir : string) : list suceso :=
  if os_path_exists w dir then
    match shutil_rmtree w dir with
    | Some _ => [Rmtree dir]
    | None =>
        [Rmtree dir;
         Registro INFO ("Directorio temporal limpiado: " ++ dir) false;
         Makedirs dir]
    end
  else [Makedirs dir].

(** The first two records of a run. *)
Definition prologo (g : globals) : list suceso :=
  [Registro INFO "================ INICIO DEL FLUJO RPA ================" false;
   Registro DEBUG ("Intentando cargar credenciales desde: "
                     ++ get_credentials_path g) false].

(** Whether the run gets to the second [try]: credentials loaded and
    truthy, download directory made afresh. *)
Definition arranca (w : mundo) (g : globals) : bool :=
  match json_load w (get_credentials_path g) with
  | Leido v =>
      es_verdadero v && preparado w (get_data_path g DIR_DESCARGAS_TEMPORAL)
  | _ => false
  end.

(** Whether the run gets a browser. *)
Definition navegador_creado (w : mundo) (g : globals) : bool :=
  arranca w g && (sin_error (instalar_driver w) && sin_error (crear_chrome w)).

(** What closes a run that got to the second [try] (lines 318-321). *)
Definition epilogo (w : mundo) (creado : bool) : list suceso :=
  if creado then
    Registro INFO "Cerrando el navegador y finalizando el proceso." false
    :: DriverQuit
    :: (match driver_quit w with Some _ => [] | None => [registro_fin] end)
  else [registro_fin].

(** Whether the whole run answers well. *)
Definition exito (w : mundo) (g : globals) : bool :=
  match json_load w (get_credentials_path g) with
  | Leido v =>
      es_verdadero v
      && (preparado w (get_data_path g DIR_DESCARGAS_TEMPORAL)
      && exito_cuerpo w v (get_data_path g DIR_DESCARGAS_TEMPORAL)
           (get_data_path g ""))
  | _ => false
  end.

(** The events a login makes. *)
Definition evento_login (s : suceso) : bool :=
  match s with
  | Registro _ _ _ | DriverGet _ | WaitUntil _ | SendKeys _ _ | Click _ => true
  | _ => false
  end.

(** A run of the flow from the state [st]: its outcome [r] and the events
    [evs] it adds. *)
Definition corre (w : mundo) (g : globals) (st : flujo)
    (r : result unit) (evs : list suceso) : Prop :=
  exists d,
    ejecutar_flujo_rpa w g st
    = (r, {| driver := d; sucesos := sucesos st ++ evs |}).

(** The flow starts with no browser and nothing done. *)
Definition inicio : flujo := {| driver := false; sucesos := [] |}.

(** Events that use the browser. *)
Definition usa_navegador (s : suceso) : bool :=
  match s with
  | MaximizeWindow | DriverGet _ | WaitUntil _ | SendKeys _ _ | Click _
  | DriverQuit => true
  | _ => false
  end.

Definition es_quit (s : suceso) : bool :=
  match s with DriverQuit => true | _ => false end.

Definition es_crear_chrome (s : suceso) : bool :=
  match s with CrearChrome _ => true | _ => false end.

Definition es_dialogo_exito (s : suceso) : bool :=
  match s with Dialogo showinfo _ _ => true | _ => false end.

Definition es_dialogo (s : suceso) : bool :=
  match s with Dialogo _ _ _ => true | _ => false end.

(** A world where everything answers well and the user accepts the
    suggested date. *)
Definition mundo_feliz : mundo :=
  {| json_load := fun _ =>
       Leido (py_dict [("correo", PyStr "rpa@example.com");
                       ("contraseña", PyStr "secreto");
                       ("empresa", PyStr "42")]);
     os_path_exists := fun _ => true;
     shutil_rmtree := fun _ => None;
     os_makedirs_estricto := fun _ => None;
     instalar_driver := None;
     crear_chrome := None;
     maximize_window := None;
     driver_get := fun _ => None;
     wait_until := fun _ => None;
     send_keys := fun _ _ => None;
     click := fun _ => None;
     tk_Tk := None;
     askstring := fun sugerida => Some sugerida;
     fecha_ayer := "14/01/2024";
     to_csv_simulado := fun _ => None;
     procesar_reporte_con_pandas := fun _ dir _ =>
       Some (dir ++ "reporte_procesado_20240115_093000.csv");
     driver_quit := None;
     Path_div := fun d n => d ++ "/" ++ n |}.

(** A world where the credentials file is an empty JSON object. *)
Definition mundo_sin_credenciales : mundo :=
  {| json_load := fun _ => Leido (py_dict []);
     os_path_exists := os_path_exists mundo_feliz;
     shutil_rmtree := shutil_rmtree mundo_feliz;
     os_makedirs_estricto := os_makedirs_estricto mundo_feliz;
     instalar_driver := None;
     crear_chrome := None;
     maximize_window := None;
     driver_get := driver_get mundo_feliz;
     wait_until := wait_until mundo_feliz;
     send_keys := send_keys mundo_feliz;
     click := click mundo_feliz;
     tk_Tk := None;
     askstring := askstring mundo_feliz;
     fecha_ayer := fecha_ayer mundo_feliz;
     to_csv_simulado := to_csv_simulado mundo_feliz;
     procesar_reporte_con_pandas := procesar_reporte_con_pandas mundo_feliz;
     driver_quit := None;
     Path_div := Path_div mundo_feliz |}.

(** A world where the user leaves the date prompt empty and confirms. *)
Definition mundo_fecha_vacia : mundo :=
  {| json_load := json_load mundo_feliz;
     os_path_exists := os_path_exists mundo_feliz;
     shutil_rmtree := shutil_rmtree mundo_feliz;
     os_makedirs_estricto := os_makedirs_estricto mundo_feliz;
     instalar_driver := None;
     crear_chrome := None;
     maximize_window := None;
     driver_get := driver_get mundo_feliz;
     wait_until := wait_until mundo_feliz;
     send_keys := send_keys mundo_feliz;
     click := click mundo_feliz;
     tk_Tk := None;
     askstring := fun _ => Some "";
     fecha_ayer := fecha_ayer mundo_feliz;
     to_csv_simulado := to_csv_simulado mundo_feliz;
     procesar_reporte_con_pandas := procesar_reporte_con_pandas mundo_feliz;
     driver_quit := None;
     Path_div := Path_div mundo_feliz |}.

(** A world where the download directory exists and cannot be removed. *)
Definition mundo_disco_protegido : mundo :=
  {| json_load := json_load mundo_feliz;
     os_path_exists := fun _ => true;
     shutil_rmtree := fun _ =>
       Some (OSError "[Errno 13] Permission denied: '/app/data/descargas_temp'");
     os_makedirs_estricto := os_makedirs_estricto mundo_feliz;
     instalar_driver := None;
     crear_chrome := None;
     maximize_window := None;
     driver_get := driver_get mundo_feliz;
     wait_until := wait_until mundo_feliz;
     send_keys := send_keys mundo_feliz;
     click := click mundo_feliz;
     tk_Tk := None;
     askstring := askstring mundo_feliz;
     fecha_ayer := fecha_ayer mundo_feliz;
     to_csv_simulado := to_csv_simulado mundo_feliz;
     procesar_reporte_con_pandas := procesar_reporte_con_pandas mundo_feliz;
     driver_quit := None;
     Path_div := Path_div mundo_feliz |}.

(** A world where the page after the login never shows its menu. *)
Definition mundo_login_rechazado : mundo :=
  {| json_load := json_load mundo_feliz;
     os_path_exists := os_path_exists mundo_feliz;
     shutil_rmtree := shutil_rmtree mundo_feliz;
     os_makedirs_estricto := os_makedirs_estricto mundo_feliz;
     instalar_driver := None;
     crear_chrome := None;
     maximize_window := None;
     driver_get := driver_get mundo_feliz;
     wait_until := fun c =>
       match c with
       | visibility_of_element_located ("css selector", _) =>
           Some (OtherException "TimeoutException" "Message: ")
       | _ => None
       end;
     send_keys := send_keys mundo_feliz;
     click := click mundo_feliz;
     tk_Tk := None;
     askstring := askstring mundo_feliz;
     fecha_ayer := fecha_ayer mundo_feliz;
     to_csv_simulado := to_csv_simulado mundo_feliz;
     procesar_reporte_con_pandas := procesar_reporte_con_pandas mundo_feliz;
     driver_quit := None;
     Path_div := Path_div mundo_feliz |}.

End Main.

(* ------------------------------------------------------------------ *)
(** * Properties of the path resolver *)

Module RutasProps.
Import posixpath Rutas.

(** *** [os.path] on the paths of the scenarios *)

Example join_empty_last : join "/app" ["logs"; ""] = "/app/logs/".
Proof. reflexivity. Qed.

Example join_absolute_resets : join "/app" ["data"; "/etc/passwd"] = "/etc/passwd".
Proof. reflexivity. Qed.

Example join_after_sep : join "/app/logs/" ["app.log"] = "/app/logs/app.log".
Proof. reflexivity. Qed.

Example dirname_file : dirname "/app/config/log_config.py" = "/app/config".
Proof. reflexivity. Qed.

Example dirname_trailing : dirname "/a/b//" = "/a/b".
Proof. reflexivity. Qed.

Example dirname_root : dirname "/x" = "/".
Proof. reflexivity. Qed.

Example basename_dir : basename "/app/scripts" = "scripts".
Proof. reflexivity. Qed.

Example normpath_parent : normpath "/app/config/.." = "/app".
Proof. reflexivity. Qed.

Example normpath_mixed : normpath "//a/./b/../../../c/" = "//c".
Proof. reflexivity. Qed.

Example normpath_relative_parent : normpath "a/../.." = "..".
Proof. reflexivity. Qed.

Example abspath_dot : abspath "/home/rpa" "." = "/home/rpa".
Proof. reflexivity. Qed.

Example abspath_pseudo_file : dirname (abspath "/home/rpa" "<stdin>") = "/home/rpa".
Proof. reflexivity. Qed.

Example load_app :
  module_load rt_app = ([], inr g_app).
Proof. reflexivity. Qed.

(** *** Helper lemmas *)

Lemma append_assoc (a b c : string) : (a ++ b) ++ c = a ++ b ++ c.
Proof. induction a as [|x a IH]; simpl; [reflexivity | now rewrite IH]. Qed.

Lemma prefix_append (a b : string) : String.prefix a (a ++ b) = true.
Proof.
  induction a as [|x a IH]; simpl; [destruct b; reflexivity|].
  destruct (ascii_dec x x) as [_|N]; [exact IH | now elim N].
Qed.

Lemma endswith_sep_append (a b : string) :
  is_empty b = false -> endswith_sep (a ++ b) = endswith_sep b.
Proof.
  intros Hb. induction a as [|x a IH]; simpl; [reflexivity|].
  rewrite IH. destruct (a ++ b) eqn:E; [|reflexivity].
  destruct a; simpl in E; [subst b; discriminate Hb | discriminate E].
Qed.

Lemma is_empty_append (a b : string) :
  is_empty b = false -> is_empty (a ++ b) = false.
Proof. intros Hb. destruct a; simpl; [exact Hb | reflexivity]. Qed.

Lemma join2_relative (path b : string) :
  isabs b = false -> join2 path b = path ++ sep_tras path ++ b.
Proof.
  intros Hb. unfold join2, sep_tras. unfold isabs in Hb. rewrite Hb.
  destruct (is_empty path || endswith_sep path); reflexivity.
Qed.

(** [join(base, sub, suffix)] for a relative [suffix] and a folder name
    [sub] that neither starts nor ends with a separator. *)
Lemma join_base_sub_suffix (base sub suffix : string) :
  isabs sub = false -> is_empty sub = false -> endswith_sep sub = false ->
  isabs suffix = false ->
  join base [sub; suffix] = base ++ sep_tras base ++ sub ++ "/" ++ suffix.
Proof.
  intros Hsub Hne Hend Hsuf. unfold join; simpl.
  rewrite (join2_relative base sub Hsub).
  rewrite (join2_relative _ suffix Hsuf).
  assert (Hs : sep_tras (base ++ sep_tras base ++ sub) = "/").
  { unfold sep_tras at 1.
    rewrite <- append_assoc.
    rewrite (is_empty_append _ _ Hne), (endswith_sep_append _ _ Hne), Hend.
    reflexivity. }
  rewrite Hs. now rewrite !append_assoc.
Qed.

(** The frames pushed by this module have no ['__file__'] when the module
    has none, so the stack walk passes over them. *)
Lemma walk_skips_module_frame (rt : runtime) (callers : list frame) :
  module_file rt = None ->
  walk (module_frame rt) (module_frame rt :: callers)
  = walk (module_frame rt) callers.
Proof.
  intros Hf. simpl. unfold has_file, module_frame at 1. simpl.
  now rewrite Hf.
Qed.

(** From the module-level frame, the stack-based root is the same whether
    the base function is called directly or through the write-base
    function. *)
Lemma raiz_por_pila_desde_escritura (rt : runtime) (outer : list frame) :
  module_file rt = None ->
  raiz_por_pila rt (module_frame rt :: module_frame rt :: outer)
  = raiz_por_pila rt (module_frame rt :: outer).
Proof.
  intros Hf. unfold raiz_por_pila.
  now rewrite (walk_skips_module_frame rt (module_frame rt :: outer) Hf).
Qed.

(** In source mode, at module load, both base functions give the same. *)
Lemma escritura_es_lectura (rt : runtime) (b : pyval) :
  truthy b = false ->
  _obtener_ruta_base_escritura rt b (module_frame rt :: outer_stack rt)
  = _obtener_ruta_base_lectura rt b (module_frame rt :: outer_stack rt).
Proof.
  intros Hb. unfold _obtener_ruta_base_escritura, _obtener_ruta_base_lectura.
  rewrite Hb. destruct (module_file rt) eqn:Hf; [reflexivity|].
  now rewrite (raiz_por_pila_desde_escritura rt (outer_stack rt) Hf).
Qed.

(** In source mode the read-base function prints nothing and returns. *)
Lemma lectura_dev_total (rt : runtime) (b : pyval) (callers : list frame) :
  truthy b = false ->
  exists r, _obtener_ruta_base_lectura rt b callers = ([], inr r).
Proof.
  intros Hb. unfold _obtener_ruta_base_lectura. rewrite Hb.
  destruct (module_file rt).
  - eexists; reflexivity.
  - destruct (raiz_por_pila rt callers); eexists; reflexivity.
Qed.

(** What the module load yields in source mode. *)
Lemma module_load_dev (rt : runtime) :
  truthy (compute_IS_BUNDLED (sys rt)) = false ->
  exists r,
    _obtener_ruta_base_lectura rt (compute_IS_BUNDLED (sys rt))
      (module_frame rt :: outer_stack rt) = ([], inr r)
    /\ module_load rt
       = ([], inr {| _configuracion_realizada := false;
                     _ruta_archivo_log_actual := None;
                     IS_BUNDLED := compute_IS_BUNDLED (sys rt);
                     RUTA_BASE_LECTURA := r;
                     RUTA_BASE_ESCRITURA := r |}).
Proof.
  intros Hb.
  destruct (lectura_dev_total rt _ (module_frame rt :: outer_stack rt) Hb)
    as [r Hr].
  exists r. split; [exact Hr|].
  unfold module_load. rewrite (escritura_es_lectura rt _ Hb), Hr.
  reflexivity.
Qed.

Lemma last_cons {A} (l : list A) (x d : A) : last (x :: l) d = last l x.
Proof.
  revert x d. induction l as [|y l IH]; intros x d; [reflexivity|].
  change (last (x :: y :: l) d) with (last (y :: l) d).
  now rewrite !IH.
Qed.

Lemma last_in_cons {A} (l : list A) (d : A) : In (last l d) (d :: l).
Proof.
  revert d. induction l as [|y l IH]; intros d; [left; reflexivity|].
  right. rewrite (last_cons l y d). apply IH.
Qed.

(** The stack walk stops at the first frame whose globals hold
    ['__file__'], or at the outermost frame when there is none. *)
Lemma walk_find (f : frame) (backs : list frame) :
  walk f backs
  = match find has_file (f :: backs) with
    | Some x => x
    | None => last backs f
    end.
Proof.
  revert f. induction backs as [|b bs IH]; intros f.
  - simpl. destruct (has_file f); reflexivity.
  - cbn [walk find]. destruct (has_file f) eqn:Hf; [reflexivity|].
    rewrite IH. cbn [find].
    destruct (has_file b); [reflexivity|].
    destruct (find has_file bs); [reflexivity|].
    now rewrite !last_cons.
Qed.

(** ** The claims *)

(** C3. In FromSource mode the read base and the write base computed at
    module load are the same directory, whatever the module location, the
    call stack and the working directory: both calls return, print
    nothing, and the module stores the same value under both names. *)
Theorem C3_read_base_equals_write_base (rt : runtime) :
  mode_of (compute_IS_BUNDLED (sys rt)) = FromSource ->
  let b := compute_IS_BUNDLED (sys rt) in
  let callers := module_frame rt :: outer_stack rt in
  exists root g,
    _obtener_ruta_base_lectura rt b callers = ([], inr root)
    /\ _obtener_ruta_base_escritura rt b callers = ([], inr root)
    /\ module_load rt = ([], inr g)
    /\ RUTA_BASE_LECTURA g = root
    /\ RUTA_BASE_ESCRITURA g = root.
Proof.
  intros Hm b callers.
  assert (Hb : truthy b = false).
  { unfold mode_of in Hm. fold b in Hm. destruct (truthy b);
      [discriminate Hm | reflexivity]. }
  destruct (module_load_dev rt Hb) as [r [Hr Hl]].
  exists r. eexists. split; [exact Hr|].
  split; [unfold callers; now rewrite (escritura_es_lectura rt b Hb)|].
  split; [exact Hl|]. split; reflexivity.
Qed.

(** C3 at a process that cannot see its own location. *)
Lemma C3_witness :
  mode_of (compute_IS_BUNDLED (sys rt_sin_ubicacion)) = FromSource
  /\ exists root g,
       _obtener_ruta_base_lectura rt_sin_ubicacion
         (compute_IS_BUNDLED (sys rt_sin_ubicacion))
         (module_frame rt_sin_ubicacion :: outer_stack rt_sin_ubicacion)
       = ([], inr root)
       /\ _obtener_ruta_base_escritura rt_sin_ubicacion
            (compute_IS_BUNDLED (sys rt_sin_ubicacion))
            (module_frame rt_sin_ubicacion :: outer_stack rt_sin_ubicacion)
          = ([], inr root)
       /\ module_load rt_sin_ubicacion = ([], inr g)
       /\ RUTA_BASE_LECTURA g = root
       /\ RUTA_BASE_ESCRITURA g = root.
Proof.
  split; [reflexivity|].
  apply (C3_read_base_equals_write_base rt_sin_ubicacion). reflexivity.
Defined.

(** C4, as stated, fails on the code: with write base [/app] and the
    default empty suffix, [get_logs_path()] returns [/app/logs/], with a
    trailing separator, not the string [/app/logs]. *)
Lemma C4_counterexample :
  exists g,
    module_load rt_app = ([], inr g)
    /\ mode_of (IS_BUNDLED g) = FromSource
    /\ RUTA_BASE_ESCRITURA g = "/app"
    /\ get_logs_path g "" <> "/app/logs".
Proof.
  eexists. split; [vm_compute; reflexivity|].
  split; [reflexivity|]. split; [reflexivity|].
  intros H. vm_compute in H. discriminate H.
Qed.

(** C4, amended. For every relative suffix and whatever the mode,
    [get_data_path] and [get_logs_path] return the write base, a separator
    unless the base already ends with one, the folder name [data] or
    [logs], a separator and the suffix; the write base is a prefix of the
    result. With write base [/app], [get_logs_path()] returns
    [/app/logs/]. *)
Theorem C4_data_and_logs_under_write_base (g : globals) (suffix : string) :
  isabs suffix = false ->
  let base := RUTA_BASE_ESCRITURA g in
  get_data_path g suffix = base ++ sep_tras base ++ "data" ++ "/" ++ suffix
  /\ get_logs_path g suffix = base ++ sep_tras base ++ "logs" ++ "/" ++ suffix
  /\ String.prefix base (get_data_path g suffix) = true
  /\ String.prefix base (get_logs_path g suffix) = true
  /\ (base = "/app" -> get_logs_path g "" = "/app/logs/").
Proof.
  intros Hs base.
  assert (Hd : get_data_path g suffix
               = base ++ sep_tras base ++ "data" ++ "/" ++ suffix)
    by (apply join_base_sub_suffix; [reflexivity .. | exact Hs]).
  assert (Hl : get_logs_path g suffix
               = base ++ sep_tras base ++ "logs" ++ "/" ++ suffix)
    by (apply join_base_sub_suffix; [reflexivity .. | exact Hs]).
  split; [exact Hd|]. split; [exact Hl|].
  split; [rewrite Hd; apply prefix_append|].
  split; [rewrite Hl; apply prefix_append|].
  intros Hb. unfold get_logs_path. fold base. rewrite Hb. reflexivity.
Qed.

(** C4 at the suffix [descargas/tmp] under [/app]. *)
Lemma C4_witness :
  isabs "descargas/tmp" = false
  /\ get_logs_path g_app "descargas/tmp" = "/app/logs/descargas/tmp"
  /\ get_data_path g_app "descargas/tmp" = "/app/data/descargas/tmp"
  /\ get_logs_path g_app "" = "/app/logs/".
Proof.
  split; [reflexivity|].
  destruct (C4_data_and_logs_under_write_base g_app "descargas/tmp" eq_refl)
    as [Hd [Hl [_ [_ Happ]]]].
  split; [exact Hl|]. split; [exact Hd|]. exact (Happ eq_refl).
Defined.

(** C6. [get_credentials_path] is a function of the module's constants
    alone (no file system is consulted): it returns the base, a separator
    unless the base ends with one, and [config/credenciales.json], where
    the base is the write base when Packaged and the read base when
    FromSource. Loaded in FromSource mode from
    [/app/config/log_config.py], the module's read base is [/app] and the
    function returns [/app/config/credenciales.json]. *)
Theorem C6_credentials_path (g : globals) (rt : runtime) :
  mode_of (compute_IS_BUNDLED (sys rt)) = FromSource ->
  module_file rt = Some "/app/config/log_config.py" ->
  let base :=
    match mode_of (IS_BUNDLED g) with
    | Packaged => RUTA_BASE_ESCRITURA g
    | FromSource => RUTA_BASE_LECTURA g
    end in
  get_credentials_path g = join base ["config"; "credenciales.json"]
  /\ get_credentials_path g
     = base ++ sep_tras base ++ "config" ++ "/" ++ "credenciales.json"
  /\ exists g',
       module_load rt = ([], inr g')
       /\ mode_of (IS_BUNDLED g') = FromSource
       /\ RUTA_BASE_LECTURA g' = "/app"
       /\ get_credentials_path g' = "/app/config/credenciales.json".
Proof.
  intros Hm Hf base.
  assert (Hg : get_credentials_path g = join base ["config"; "credenciales.json"]).
  { unfold get_credentials_path, base, mode_of.
    destruct (truthy (IS_BUNDLED g)); reflexivity. }
  split; [exact Hg|].
  split; [rewrite Hg; now apply join_base_sub_suffix|].
  assert (Hb : truthy (compute_IS_BUNDLED (sys rt)) = false).
  { unfold mode_of in Hm.
    destruct (truthy (compute_IS_BUNDLED (sys rt)));
      [discriminate Hm | reflexivity]. }
  destruct (module_load_dev rt Hb) as [r [Hr Hl]].
  assert (Hroot : r = "/app").
  { unfold _obtener_ruta_base_lectura in Hr. rewrite Hb, Hf in Hr.
    vm_compute in Hr. now inversion Hr. }
  subst r. eexists. split; [exact Hl|].
  split; [unfold mode_of; simpl; now rewrite Hb|].
  split; [reflexivity|].
  unfold get_credentials_path. simpl. rewrite Hb. reflexivity.
Qed.

(** C6 at the checkout under [/app]. *)
Lemma C6_witness :
  mode_of (compute_IS_BUNDLED (sys rt_app)) = FromSource
  /\ module_file rt_app = Some "/app/config/log_config.py"
  /\ exists g',
       module_load rt_app = ([], inr g')
       /\ get_credentials_path g' = "/app/config/credenciales.json".
Proof.
  split; [reflexivity|]. split; [reflexivity|].
  destruct (C6_credentials_path g_app rt_app eq_refl eq_refl)
    as [_ [_ [g' [Hl [_ [_ Hc]]]]]].
  exists g'. split; [exact Hl | exact Hc].
Defined.

(** C8, as stated, fails on the code: when every step of the fallback
    chain fails the function returns the working directory and prints
    nothing, so no warning is surfaced. *)
Lemma C8_counterexample :
  let rt := rt_sin_ubicacion in
  let callers := module_frame rt :: outer_stack rt in
  mode_of (compute_IS_BUNDLED (sys rt)) = FromSource
  /\ module_file rt = None
  /\ (exists e, raiz_por_pila rt callers = inl e)
  /\ _obtener_ruta_base_lectura rt (compute_IS_BUNDLED (sys rt)) callers
     = ([], inr (cwd rt)).
Proof.
  cbv zeta. split; [reflexivity|]. split; [reflexivity|].
  split; [eexists; reflexivity|]. vm_compute. reflexivity.
Qed.

(** C8, amended. In FromSource mode, when the module's own location is
    unavailable, the read-base function never raises and never prints.
    It walks the call stack to the first frame whose globals hold
    ['__file__']; if the directory of that file is named [scripts] it
    returns the parent of that directory, otherwise that directory; with
    no such frame it does the same with the source file of the calling
    frame's code. If a step raises (frames cannot be inspected, or the
    ['__file__'] found is [None]) it returns the absolute path of the
    working directory, silently. *)
Theorem C8_fallback_chain (rt : runtime) (b : pyval) (callers : list frame) :
  mode_of b = FromSource ->
  module_file rt = None ->
  let own := module_frame rt in
  let resultado := _obtener_ruta_base_lectura rt b callers in
  let raiz_de := fun file =>
    let d := dirname (abspath (cwd rt) file) in
    if basename d =? "scripts" then abspath (cwd rt) (join d [".."]) else d in
  (exists r, resultado = ([], inr r))
  /\ (currentframe_ok rt = true ->
      forall fr file,
        find has_file (own :: callers) = Some fr ->
        f_globals_file fr = Some (FileStr file) ->
        resultado = ([], inr (raiz_de file)))
  /\ (currentframe_ok rt = true ->
      find has_file (own :: callers) = None ->
      resultado = ([], inr (raiz_de (f_co_filename (hd own callers)))))
  /\ (currentframe_ok rt = true ->
      forall fr,
        find has_file (own :: callers) = Some fr ->
        f_globals_file fr = Some FileNone ->
        resultado = ([], inr (abspath (cwd rt) ".")))
  /\ (currentframe_ok rt = false ->
      resultado = ([], inr (abspath (cwd rt) ".")))
  /\ (forall e, raiz_por_pila rt callers = inl e ->
      resultado = ([], inr (abspath (cwd rt) "."))).
Proof.
  intros Hm Hf own resultado raiz_de.
  assert (Hb : truthy b = false).
  { unfold mode_of in Hm. destruct (truthy b);
      [discriminate Hm | reflexivity]. }
  assert (Hres : resultado
                 = ([], inr (match raiz_por_pila rt callers with
                             | inr r => r
                             | inl _ => abspath (cwd rt) "."
                             end))).
  { unfold resultado, _obtener_ruta_base_lectura. rewrite Hb, Hf.
    destruct (raiz_por_pila rt callers); reflexivity. }
  split; [eexists; exact Hres|].
  split; [|split; [|split; [|split]]].
  - intros Hc fr file Hfind Hfile. rewrite Hres.
    unfold raiz_por_pila. rewrite Hc, walk_find. fold own.
    rewrite Hfind, Hfile. unfold raiz_de.
    destruct (basename _ =? "scripts"); reflexivity.
  - intros Hc Hfind. rewrite Hres.
    unfold raiz_por_pila. rewrite Hc, walk_find. fold own.
    rewrite Hfind.
    assert (Hlast : f_globals_file (last callers own) = None).
    { pose proof (find_none has_file (own :: callers) Hfind
                    (last callers own)) as Hn.
      unfold has_file in Hn.
      destruct (f_globals_file (last callers own)); [|reflexivity].
      assert (Hin : In (last callers own) (own :: callers))
        by apply last_in_cons.
      specialize (Hn Hin). discriminate Hn. }
    rewrite Hlast. unfold raiz_de.
    destruct callers; simpl hd;
      destruct (basename _ =? "scripts"); reflexivity.
  - intros Hc fr Hfind Hfile. rewrite Hres.
    unfold raiz_por_pila. rewrite Hc, walk_find. fold own.
    rewrite Hfind, Hfile. reflexivity.
  - intros Hc. rewrite Hres. unfold raiz_por_pila. rewrite Hc. reflexivity.
  - intros e He. rewrite Hres, He. reflexivity.
Qed.

(** C8 at a module run with [exec] from [/app/scripts/main.py]: the
    caller lives in [scripts], the root is its parent. *)
Lemma C8_witness :
  mode_of (compute_IS_BUNDLED (sys rt_exec)) = FromSource
  /\ module_file rt_exec = None
  /\ _obtener_ruta_base_lectura rt_exec (compute_IS_BUNDLED (sys rt_exec))
       (module_frame rt_exec :: outer_stack rt_exec)
     = ([], inr "/app").
Proof.
  split; [reflexivity|]. split; [reflexivity|].
  destruct (C8_fallback_chain rt_exec (compute_IS_BUNDLED (sys rt_exec))
              (module_frame rt_exec :: outer_stack rt_exec)
              eq_refl eq_refl) as [_ [Hfile _]].
  exact (Hfile eq_refl _ "/app/scripts/main.py" eq_refl eq_refl).
Defined.

(** C9. Once the module is loaded, whatever the mode,
    [get_credentials_path] is the join of the write base with [config]
    and [credenciales.json]: in FromSource mode, where it takes the read
    base, both bases hold the same value. *)
Theorem C9_credentials_joined_on_write_base
    (rt : runtime) (out : list string) (g : globals) :
  module_load rt = (out, inr g) ->
  get_credentials_path g
  = join (RUTA_BASE_ESCRITURA g) ["config"; "credenciales.json"]
  /\ (mode_of (IS_BUNDLED g) = FromSource ->
      RUTA_BASE_LECTURA g = RUTA_BASE_ESCRITURA g).
Proof.
  intros Hl.
  destruct (truthy (compute_IS_BUNDLED (sys rt))) eqn:Hb.
  - assert (Hg : IS_BUNDLED g = compute_IS_BUNDLED (sys rt)).
    { unfold module_load in Hl.
      destruct (_obtener_ruta_base_lectura _ _ _) as [o1 [e1|r1]];
        [discriminate Hl|].
      destruct (_obtener_ruta_base_escritura _ _ _) as [o2 [e2|r2]];
        [discriminate Hl|].
      inversion Hl; reflexivity. }
    split.
    + unfold get_credentials_path. now rewrite Hg, Hb.
    + unfold mode_of. rewrite Hg, Hb. discriminate.
  - destruct (module_load_dev rt Hb) as [r [_ Hl']].
    rewrite Hl' in Hl. inversion Hl; subst. simpl. split; [|reflexivity].
    unfold get_credentials_path; simpl. now rewrite Hb.
Qed.

(** C9 at the checkout under [/app]. *)
Lemma C9_witness :
  exists g,
    module_load rt_app = ([], inr g)
    /\ get_credentials_path g
       = join (RUTA_BASE_ESCRITURA g) ["config"; "credenciales.json"].
Proof.
  exists (match module_load rt_app with
          | (_, inr g) => g
          | _ => g_app
          end).
  split; [reflexivity|].
  exact (proj1 (C9_credentials_joined_on_write_base rt_app [] _ eq_refl)).
Defined.

End RutasProps.

(* ------------------------------------------------------------------ *)
(** * Properties of the logging bootstrap *)

Module BootstrapProps.
Import posixpath Rutas Logging Bootstrap.

Lemma bind_ok {A B} (m : M A) (k : A -> M B) (st st' : estado) (a : A) :
  m st = (Ok a, st') -> bind m k st = k a st'.
Proof. intros H. unfold bind. now rewrite H. Qed.

Lemma estado_eta (st : estado) :
  st = {| modulo := modulo st; root_level := root_level st;
          root_handlers := root_handlers st; cerrados := cerrados st;
          next_id := next_id st; traza := traza st; fs := fs st |}.
Proof. destruct st; reflexivity. Qed.

Lemma mem_true_iff (h : handler) (hs : list handler) :
  mem h hs = true <-> In h hs.
Proof.
  unfold mem. destruct (in_dec handler_eq_dec h hs); split; intros H;
    try assumption; try reflexivity; try discriminate H; contradiction.
Qed.

(** *** The cleanup loop *)

(** Removing a handler that closes well, when it is the first such
    handler of the list: it is there, the others that close well stay in
    order, those that do not are not touched. *)
Lemma remove_first_head_ok (x : handler) (cur rest : list handler) :
  cierre_falla x = false ->
  filter (fun h => negb (cierre_falla h)) cur = x :: rest ->
  mem x cur = true
  /\ filter (fun h => negb (cierre_falla h)) (remove_first x cur) = rest
  /\ filter cierre_falla (remove_first x cur) = filter cierre_falla cur.
Proof.
  intros Hx. induction cur as [|y cur IH]; simpl; intros Hf;
    [discriminate Hf|].
  destruct (handler_eq_dec x y) as [<-|Hne].
  - rewrite Hx in *. simpl in Hf. inversion Hf; subst.
    split; [apply mem_true_iff; left; reflexivity|]. split; reflexivity.
  - destruct (cierre_falla y) eqn:Hy; simpl in Hf.
    + destruct (IH Hf) as [Hm [Hg Hb]].
      split; [apply mem_true_iff; right; now apply mem_true_iff|].
      simpl. rewrite Hy. simpl. split; [exact Hg | now rewrite Hb].
    + inversion Hf; subst. now elim Hne.
Qed.

Lemma limpiar_handler_ok (x : handler) (st : estado) (rest : list handler) :
  cierre_falla x = false ->
  filter (fun h => negb (cierre_falla h)) (root_handlers st) = x :: rest ->
  limpiar_handler x st
  = (Ok tt, con_root_handlers (remove_first x (root_handlers st))
              (con_cerrados (x :: cerrados st) st)).
Proof.
  intros Hx Hf.
  destruct (remove_first_head_ok x _ rest Hx Hf) as [Hm _].
  unfold limpiar_handler, try_except, bind, close, removeHandler, modify.
  unfold cierre_falla in Hx. destruct (h_close x); [discriminate Hx|].
  simpl. rewrite Hm. reflexivity.
Qed.

Lemma limpiar_handler_falla (x : handler) (st : estado) :
  cierre_falla x = true ->
  limpiar_handler x st = (Ok tt, con_traza (traza st ++ aviso_cierre x) st).
Proof.
  intros Hx.
  unfold limpiar_handler, try_except, bind, close, aviso_cierre, print,
    modify, raise.
  unfold cierre_falla in Hx. destruct (h_close x); [|discriminate Hx].
  reflexivity.
Qed.

(** The loop over [l], started with the handlers [root_handlers st] whose
    closable members are those of [l], in the same order. *)
Lemma for_each_limpiar (l : list handler) (st : estado) :
  filter (fun h => negb (cierre_falla h)) (root_handlers st)
  = filter (fun h => negb (cierre_falla h)) l ->
  for_each l limpiar_handler st
  = (Ok tt,
     {| modulo := modulo st; root_level := root_level st;
        root_handlers := filter cierre_falla (root_handlers st);
        cerrados := rev (filter (fun h => negb (cierre_falla h)) l)
                      ++ cerrados st;
        next_id := next_id st;
        traza := traza st ++ flat_map aviso_cierre l;
        fs := fs st |}).
Proof.
  revert st. induction l as [|x l IH]; intros st Hf.
  - simpl in *. unfold ret. rewrite app_nil_r.
    assert (Hall : filter cierre_falla (root_handlers st) = root_handlers st).
    { induction (root_handlers st) as [|y c IHc]; [reflexivity|].
      simpl in *. destruct (cierre_falla y); simpl in *;
        [f_equal; auto | discriminate Hf]. }
    rewrite Hall. now rewrite <- estado_eta.
  - cbn [for_each]. destruct (cierre_falla x) eqn:Hx.
    + rewrite (bind_ok _ _ _ _ _ (limpiar_handler_falla x st Hx)).
      simpl in Hf. rewrite Hx in Hf. simpl in Hf.
      rewrite IH; [|exact Hf].
      simpl. rewrite Hx. simpl. now rewrite <- app_assoc.
    + simpl in Hf. rewrite Hx in Hf. simpl in Hf.
      destruct (remove_first_head_ok x _ _ Hx Hf) as [_ [Hg Hb]].
      rewrite (bind_ok _ _ _ _ _ (limpiar_handler_ok x st _ Hx Hf)).
      rewrite IH; [|exact Hg].
      simpl. rewrite Hx, Hb. simpl.
      unfold aviso_cierre at 2. unfold cierre_falla in Hx.
      destruct (h_close x); [discriminate Hx|]. simpl.
      now rewrite <- app_assoc.
Qed.

(** The cleanup step: it returns; the handlers whose [close()] raised are
    the ones left, those that closed are recorded, one line is printed
    per failure. *)
Lemma limpieza_spec (st : estado) :
  limpieza st
  = (Ok tt,
     {| modulo := modulo st; root_level := root_level st;
        root_handlers := filter cierre_falla (root_handlers st);
        cerrados := rev (filter (fun h => negb (cierre_falla h))
                           (root_handlers st)) ++ cerrados st;
        next_id := next_id st;
        traza := traza st ++ flat_map aviso_cierre (root_handlers st);
        fs := fs st |}).
Proof.
  unfold limpieza, bind, get. now apply for_each_limpiar.
Qed.

(** *** The sinks *)

Lemma consola_spec (o : opciones) (st : estado) :
  manejador_consola o st
  = (Ok tt,
     if log_a_consola o then
       if mem (consola_de o (next_id st)) (root_handlers st)
       then con_next_id (S (next_id st)) st
       else con_root_handlers
              (root_handlers st ++ [consola_de o (next_id st)])
              (con_next_id (S (next_id st)) st)
     else st).
Proof.
  unfold manejador_consola, when. destruct (log_a_consola o); [|reflexivity].
  unfold bind, new_handler, addHandler, modify. cbn [root_handlers con_next_id].
  fold (consola_de o (next_id st)).
  destruct (mem (consola_de o (next_id st)) (root_handlers st)); reflexivity.
Qed.

(** [logging.critical] when the root level is DEBUG: the default handler
    is installed first if the root logger has none, then the record is
    dispatched. *)
Lemma logging_critical_spec (msg : mensaje) (exc : bool) (st : estado) :
  root_level st = DEBUG ->
  logging_critical msg exc st
  = (Ok tt,
     let st1 :=
       if is_nil (root_handlers st)
       then con_root_handlers [manejador_basico (next_id st)]
              (con_next_id (S (next_id st)) st)
       else st in
     con_traza
       (traza st1 ++ [Log "root" CRITICAL msg exc
                        (callHandlers (root_handlers st1) CRITICAL)]) st1).
Proof.
  intros Hl.
  unfold logging_critical, bind, get, when, basicConfig, bind, get,
    Logger_log, modify.
  destruct (root_handlers st) as [|h hs] eqn:Hh; cbn [is_nil].
  - rewrite Hh. cbn [is_nil]. unfold new_handler, addHandler, modify.
    cbn [root_handlers con_next_id]. rewrite Hh. cbn. rewrite Hl. reflexivity.
  - unfold ret. rewrite Hl, Hh. reflexivity.
Qed.

Lemma crear_manejador_archivo_falla (o : opciones) (st : estado) (e : exn) :
  fallo_archivo st o = Some e ->
  crear_manejador_archivo o st = (Raise e, st).
Proof.
  unfold fallo_archivo, crear_manejador_archivo, bind, get, makedirs.
  destruct (os_makedirs (fs st) (get_logs_path (modulo st) "")) as [e'|].
  - intros H; inversion H; reflexivity.
  - intros H. destruct (usar_rotacion o); unfold new_file_handler;
      rewrite H; reflexivity.
Qed.

(** The file sink when its set-up fails: the path stays unset, the report
    is printed, and the rest is [logging.critical]. *)
Lemma archivo_spec_falla (o : opciones) (st : estado) (e : exn) :
  log_a_archivo o = true ->
  fallo_archivo st o = Some e ->
  manejador_archivo o st
  = logging_critical (fst (registro_critico e)) (snd (registro_critico e))
      (con_traza (traza st ++ informe_fallo o (get_logs_path (modulo st) "") e)
         (con_modulo (con_ruta_archivo_log_actual None (modulo st)) st)).
Proof.
  intros Ha Hf.
  unfold manejador_archivo, when. rewrite Ha.
  unfold bind at 1. unfold modify at 1.
  unfold try_except.
  rewrite (crear_manejador_archivo_falla o _ e) by exact Hf.
  unfold informe_fallo, registro_critico.
  destruct (is_OSError e).
  - unfold except_OSError, bind, get, print, modify. cbn.
    rewrite <- !app_assoc. reflexivity.
  - unfold except_Exception, bind, print, modify. cbn. reflexivity.
Qed.

Lemma archivo_spec_off (o : opciones) (st : estado) :
  log_a_archivo o = false ->
  manejador_archivo o st
  = (Ok tt, con_modulo (con_ruta_archivo_log_actual None (modulo st)) st).
Proof.
  intros Ha. unfold manejador_archivo, when, bind, modify. rewrite Ha.
  reflexivity.
Qed.

(** The file sink when the directory can be made and the file opened. *)
Lemma archivo_spec_ok (o : opciones) (st : estado) :
  log_a_archivo o = true ->
  fallo_archivo st o = None ->
  let ruta := join (get_logs_path (modulo st) "") [nombre_archivo_log o] in
  let h := archivo_de o (next_id st) ruta in
  manejador_archivo o st
  = (Ok tt,
     con_modulo (con_ruta_archivo_log_actual (Some ruta) (modulo st))
       (if mem h (root_handlers st)
        then con_next_id (S (next_id st)) st
        else con_root_handlers (root_handlers st ++ [h])
               (con_next_id (S (next_id st)) st))).
Proof.
  intros Ha Hf ruta h. unfold fallo_archivo in Hf.
  destruct (os_makedirs (fs st) (get_logs_path (modulo st) "")) eqn:Hm;
    [discriminate Hf|].
  unfold manejador_archivo, when. rewrite Ha.
  unfold bind at 1. unfold modify at 1. unfold try_except.
  unfold crear_manejador_archivo, bind, get, makedirs.
  cbn [fs modulo con_modulo]. unfold get_logs_path in *.
  cbn [RUTA_BASE_ESCRITURA con_ruta_archivo_log_actual].
  rewrite Hm. unfold h, archivo_de, ruta, get_logs_path.
  destruct (usar_rotacion o); unfold new_file_handler;
    cbn [fs con_modulo]; rewrite Hf; unfold new_handler, addHandler, modify;
    cbn [root_handlers con_next_id con_modulo next_id];
    match goal with |- context [mem ?x ?l] => destruct (mem x l) end;
    reflexivity.
Qed.

(** The last step: the flag is set, the three records on the paths are
    logged, then the status line is logged or building it raises. *)
Lemma finalizar_spec (o : opciones) (st : estado) :
  root_level st = DEBUG ->
  finalizar o st
  = (desenlace o (con_configuracion_realizada true (modulo st)),
     con_traza
       (traza st
          ++ resumen o (con_configuracion_realizada true (modulo st))
               (root_handlers st))
       (con_modulo (con_configuracion_realizada true (modulo st)) st)).
Proof.
  intros Hl. unfold finalizar, bind, get, modify, Logger_log, modify.
  do 3 (cbn [root_level root_handlers traza modulo con_modulo con_traza];
        rewrite ?Hl; change (DEBUG <=? INFO)%Z with true; cbv iota).
  unfold resumen, desenlace, registros_rutas.
  destruct (estado_salidas o (con_configuracion_realizada true (modulo st)))
    as [e|m].
  - unfold raise, con_traza, con_modulo.
    cbn [root_level root_handlers traza modulo cerrados next_id fs].
    rewrite app_nil_r, <- !app_assoc. reflexivity.
  - cbn [root_level root_handlers traza modulo con_modulo con_traza].
    rewrite Hl. change (DEBUG <=? INFO)%Z with true. cbv iota.
    unfold con_traza, con_modulo.
    cbn [root_level root_handlers traza modulo cerrados next_id fs].
    rewrite <- !app_assoc. reflexivity.
Qed.

(** Building the status line raises nothing but the [OverflowError] of
    the division, and only with a log path, rotation on and a size from
    the threshold on. *)
Lemma estado_salidas_casos (o : opciones) (g : globals) :
  (exists m, estado_salidas o g = inr m)
  \/ (estado_salidas o g = inl OverflowError
      /\ usar_rotacion o = true
      /\ (UMBRAL_FLOAT <=? Z.abs (max_bytes_rotacion o))%Z = true
      /\ exists r, _ruta_archivo_log_actual g = Some r /\ is_empty r = false).
Proof.
  unfold estado_salidas, estado_archivo, texto_rotacion, truediv_MiB.
  destruct (_ruta_archivo_log_actual g) as [r|]; [|left; eexists; reflexivity].
  destruct (is_empty r) eqn:Hr; [left; eexists; reflexivity|].
  destruct (usar_rotacion o); [|left; eexists; reflexivity].
  destruct (UMBRAL_FLOAT <=? Z.abs (max_bytes_rotacion o))%Z.
  - right. split; [reflexivity|]. split; [reflexivity|].
    split; [reflexivity|]. exists r. split; [reflexivity | exact Hr].
  - left. eexists. reflexivity.
Qed.

Lemma desenlace_casos (o : opciones) (g : globals) :
  desenlace o g = Ok tt \/ desenlace o g = Raise OverflowError.
Proof.
  unfold desenlace.
  destruct (estado_salidas_casos o g) as [[m H]|[H _]]; rewrite H;
    [left | right]; reflexivity.
Qed.

Lemma desenlace_sin_ruta (o : opciones) (g : globals) :
  _ruta_archivo_log_actual g = None -> desenlace o g = Ok tt.
Proof.
  intros H. unfold desenlace.
  destruct (estado_salidas_casos o g) as [[m Hm]|[_ [_ [_ [r [Hr _]]]]]];
    [now rewrite Hm | congruence].
Qed.

Lemma desenlace_formateable (o : opciones) (g : globals) :
  rotacion_formateable o = true -> desenlace o g = Ok tt.
Proof.
  intros H. unfold desenlace.
  destruct (estado_salidas_casos o g) as [[m Hm]|[_ [Hu [Hx _]]]];
    [now rewrite Hm|].
  unfold rotacion_formateable in H. rewrite Hu in H. cbn [negb orb] in H.
  apply Z.ltb_lt in H. apply Z.leb_le in Hx.
  exfalso. exact (Z.lt_irrefl _ (Z.lt_le_trans _ _ _ H Hx)).
Qed.

(** With a log path, what decides the outcome is the rotation. *)
Lemma desenlace_con_ruta (o : opciones) (g : globals) (r : string) :
  _ruta_archivo_log_actual g = Some r -> is_empty r = false ->
  desenlace o g
  = if rotacion_formateable o then Ok tt else Raise OverflowError.
Proof.
  intros Hg Hr.
  unfold desenlace, estado_salidas, estado_archivo, texto_rotacion,
    truediv_MiB, rotacion_formateable.
  rewrite Hg, Hr. destruct (usar_rotacion o); [|reflexivity].
  cbn [negb orb].
  rewrite (Z.ltb_antisym UMBRAL_FLOAT (Z.abs (max_bytes_rotacion o))).
  destruct (UMBRAL_FLOAT <=? Z.abs (max_bytes_rotacion o))%Z; reflexivity.
Qed.

(** The last step when no log path is set: it returns. *)
Lemma finalizar_sin_ruta (o : opciones) (st : estado) :
  root_level st = DEBUG ->
  _ruta_archivo_log_actual (modulo st) = None ->
  finalizar o st
  = (Ok tt,
     con_traza
       (traza st
          ++ resumen o (con_configuracion_realizada true (modulo st))
               (root_handlers st))
       (con_modulo (con_configuracion_realizada true (modulo st)) st)).
Proof.
  intros Hl Hr. rewrite (finalizar_spec o st Hl).
  now rewrite (desenlace_sin_ruta o
                 (con_configuracion_realizada true (modulo st)) Hr).
Qed.

Section Umbral.
Local Open Scope Z_scope.

(** Rounding at the last binade: where the rounded quotient reaches
    [2^1024]. *)
Lemma redondeo_medio (q r : Z) :
  2 ^ 52 <= q < 2 ^ 53 -> 0 <= r < 2 ^ 991 ->
  (2 ^ 1044
   <=? (if (2 ^ 990 <? r) || ((r =? 2 ^ 990) && Z.odd q) then q + 1 else q)
       * 2 ^ 991)
  = (2 ^ 1044 - 2 ^ 990 <=? 2 ^ 991 * q + r).
Proof.
  intros Hq Hr.
  destruct (Z.eq_dec q (2 ^ 53 - 1)) as [->|Hq1].
  - change (Z.odd (2 ^ 53 - 1)) with true. rewrite andb_true_r.
    destruct (2 ^ 990 <? r) eqn:E1; cbn [orb].
    + apply Z.ltb_lt in E1.
      transitivity true; [apply Z.leb_le | symmetry; apply Z.leb_le]; lia.
    + apply Z.ltb_ge in E1. destruct (r =? 2 ^ 990) eqn:E2.
      * apply Z.eqb_eq in E2.
        transitivity true; [apply Z.leb_le | symmetry; apply Z.leb_le]; lia.
      * apply Z.eqb_neq in E2.
        transitivity false; [apply Z.leb_gt | symmetry; apply Z.leb_gt]; lia.
  - transitivity false; [apply Z.leb_gt | symmetry; apply Z.leb_gt].
    + destruct (_ || _); lia.
    + lia.
Qed.

(** The threshold of the division is where the quotient, rounded to the
    nearest double, reaches [2^1024]: in units of [2^-20], where [n]
    rounds to [2^1044] or more. *)
Lemma redondear53_umbral (n : Z) :
  0 <= n ->
  (2 ^ 1044 <=? redondear53 n) = (UMBRAL_FLOAT <=? n).
Proof.
  intros Hn. unfold UMBRAL_FLOAT.
  destruct (Z.eq_dec n 0) as [->|Hz]; [reflexivity|].
  assert (Hpos : 0 < n) by lia.
  pose proof (Z.log2_spec n Hpos) as [Hlo Hhi].
  pose proof (Z.log2_nonneg n) as Hl0.
  unfold redondear53. cbv zeta.
  replace (Z.succ (Z.log2 n)) with (Z.log2 n + 1) in Hhi by lia.
  remember (Z.log2 n + 1) as b eqn:Eb.
  replace (Z.log2 n) with (b - 1) in Hlo by lia.
  clear Eb Hl0.
  destruct (b <=? 53) eqn:Hb.
  - apply Z.leb_le in Hb.
    assert (2 ^ b <= 2 ^ 53) by (apply Z.pow_le_mono_r; lia).
    transitivity false; [apply Z.leb_gt | symmetry; apply Z.leb_gt]; lia.
  - apply Z.leb_gt in Hb.
    rewrite Z.shiftr_div_pow2, Z.shiftl_mul_pow2 by lia.
    destruct (Z.lt_trichotomy b 1044) as [Hlt|[Heq|Hgt]].
    + assert (Hp : 0 < 2 ^ (b - 53)) by (apply Z.pow_pos_nonneg; lia).
      pose proof (Z.div_mod n (2 ^ (b - 53)) ltac:(lia)) as Hdm.
      pose proof (Z.mod_pos_bound n (2 ^ (b - 53)) Hp) as Hr.
      assert (Hbs : 2 ^ b = 2 ^ (b - 53) * 2 ^ 53).
      { rewrite <- Z.pow_add_r by lia. f_equal. lia. }
      assert (H1043 : 2 ^ b <= 2 ^ 1043) by (apply Z.pow_le_mono_r; lia).
      remember (2 ^ (b - 53)) as X eqn:EX.
      remember (2 ^ (b - 1)) as L eqn:EL.
      remember (2 ^ b) as U eqn:EU.
      remember (n / X) as q eqn:Eq. remember (n mod X) as r eqn:Er.
      clear EX EL EU Eq Er.
      assert (Hq : q < 2 ^ 53) by nia.
      transitivity false; [apply Z.leb_gt | symmetry; apply Z.leb_gt].
      * assert ((q + 1) * X <= 2 ^ 53 * X)
          by (apply Z.mul_le_mono_nonneg_r; lia).
        destruct (_ || _); lia.
      * lia.
    + subst b. change (1044 - 53) with 991. change (991 - 1) with 990.
      change (1044 - 1) with 1043 in Hlo.
      assert (Hp : 0 < 2 ^ 991) by lia.
      pose proof (Z.div_mod n (2 ^ 991) ltac:(lia)) as Hdm.
      pose proof (Z.mod_pos_bound n (2 ^ 991) Hp) as Hr.
      remember (n / 2 ^ 991) as q eqn:Eq.
      remember (n mod 2 ^ 991) as r eqn:Er. clear Eq Er.
      assert (Hq : 2 ^ 52 <= q < 2 ^ 53) by lia.
      rewrite (redondeo_medio q r Hq Hr). now rewrite <- Hdm.
    + assert (Hp : 0 < 2 ^ (b - 53)) by (apply Z.pow_pos_nonneg; lia).
      pose proof (Z.div_mod n (2 ^ (b - 53)) ltac:(lia)) as Hdm.
      pose proof (Z.mod_pos_bound n (2 ^ (b - 53)) Hp) as Hr.
      assert (Hbs1 : 2 ^ (b - 1) = 2 ^ (b - 53) * 2 ^ 52).
      { rewrite <- Z.pow_add_r by lia. f_equal. lia. }
      assert (H1044 : 2 ^ 1044 <= 2 ^ (b - 1))
        by (apply Z.pow_le_mono_r; lia).
      assert (Hbs : 2 ^ b = 2 ^ (b - 53) * 2 ^ 53).
      { rewrite <- Z.pow_add_r by lia. f_equal. lia. }
      remember (2 ^ (b - 53)) as X eqn:EX.
      remember (2 ^ (b - 1)) as L eqn:EL.
      remember (2 ^ b) as U eqn:EU.
      remember (n / X) as q eqn:Eq. remember (n mod X) as r eqn:Er.
      clear EX EL EU Eq Er.
      assert (Hq : 2 ^ 52 <= q) by nia.
      transitivity true; [apply Z.leb_le | symmetry; apply Z.leb_le].
      * assert (2 ^ 52 * X <= q * X)
          by (apply Z.mul_le_mono_nonneg_r; lia).
        assert (q * X <= (q + 1) * X) by lia.
        destruct (_ || _); lia.
      * lia.
Qed.

(** [truediv_MiB] in terms of the rounding alone. *)
Lemma truediv_MiB_redondeo (a : Z) :
  truediv_MiB a
  = if 2 ^ 1044 <=? redondear53 (Z.abs a) then inl OverflowError
    else inr (a <? 0, redondear53 (Z.abs a)).
Proof.
  unfold truediv_MiB. now rewrite (redondear53_umbral _ (Z.abs_nonneg a)).
Qed.

End Umbral.

(** The division at the two sides of the threshold: the largest double
    below it, [OverflowError] from it on. *)
Example truediv_MiB_umbral :
  truediv_MiB (UMBRAL_FLOAT - 1) = inr (false, (2 ^ 1044 - 2 ^ 991)%Z)
  /\ truediv_MiB (- (UMBRAL_FLOAT - 1)) = inr (true, (2 ^ 1044 - 2 ^ 991)%Z)
  /\ redondear53 UMBRAL_FLOAT = (2 ^ 1044)%Z
  /\ truediv_MiB UMBRAL_FLOAT = inl OverflowError
  /\ truediv_MiB (10 ^ 400) = inl OverflowError.
Proof.
  split; [vm_compute; reflexivity|]. split; [vm_compute; reflexivity|].
  split; [vm_compute; reflexivity|]. split; vm_compute; reflexivity.
Qed.

Example formato_1f_ejemplos :
  formato_1f (false, 10 * 1024 * 1024)%Z = "10.0"
  /\ formato_1f (false, 262144%Z) = "0.2"
  /\ formato_1f (false, 786432%Z) = "0.8"
  /\ formato_1f (false, 157286%Z) = "0.1"
  /\ formato_1f (true, 1%Z) = "-0.0"
  /\ formato_1f (false, redondear53 (2 ^ 53 + 1)) = "8589934592.0".
Proof.
  split; [vm_compute; reflexivity|]. split; [vm_compute; reflexivity|].
  split; [vm_compute; reflexivity|]. split; [vm_compute; reflexivity|].
  split; vm_compute; reflexivity.
Qed.

Example getLevelName_ejemplos :
  getLevelName DEBUG = "DEBUG" /\ getLevelName 25 = "Level 25"
  /\ getLevelName (-3) = "Level -3".
Proof.
  split; [vm_compute; reflexivity|]. split; vm_compute; reflexivity.
Qed.

(** The status line of the default options with the log file
    [/app/logs/app.log]. *)
Example estado_salidas_por_defecto :
  estado_salidas opciones_por_defecto
    (con_ruta_archivo_log_actual (Some "/app/logs/app.log") g_app)
  = inr (Texto "  Estado Salidas -> Consola: ON (Nivel >= INFO) | Archivo: ON (Nivel >= DEBUG) en '/app/logs/app.log' [Rot: 10.0MB x5]").
Proof. vm_compute. reflexivity. Qed.

(** A first call that asks for a rotation size no float can hold sets up
    both sinks, sets the flag, logs the three records on the paths and
    raises [OverflowError]. *)
Example primera_llamada_desborda :
  exists st',
    configurar_logging o_enorme (st_app [] so_ok) = (Raise OverflowError, st')
    /\ _configuracion_realizada (modulo st') = true
    /\ obtener_ruta_archivo_log st' = Some "/app/logs/app.log"
    /\ length (root_handlers st') = 2%nat
    /\ length (traza st') = 3%nat.
Proof.
  eexists. split; [vm_compute; reflexivity|].
  split; [reflexivity|]. split; [reflexivity|]. split; reflexivity.
Qed.

(** A call in state Configured: the warning is logged when the root level
    admits it, nothing else happens. *)
Lemma configurar_ya_configurado (o : opciones) (st : estado) :
  _configuracion_realizada (modulo st) = true ->
  configurar_logging o st
  = (Ok tt,
     if (root_level st <=? WARNING)%Z
     then con_traza
            (traza st ++ [Log "ConfigLog" WARNING
                            (Texto "Intento de reconfigurar logging ya configurado.")
                            false (callHandlers (root_handlers st) WARNING)])
            st
     else st).
Proof.
  intros Hc. unfold configurar_logging, bind, get. rewrite Hc.
  reflexivity.
Qed.

(** A call in state Unconfigured, up to the console step. *)
Lemma configurar_primera (o : opciones) (st : estado) :
  _configuracion_realizada (modulo st) = false ->
  configurar_logging o st
  = (manejador_archivo o ;;; finalizar o) (tras_consola o st).
Proof.
  intros Hc. unfold configurar_logging. unfold bind at 1. unfold get.
  rewrite Hc. unfold bind at 1. unfold modify at 1.
  rewrite (bind_ok _ _ _ _ _ (limpieza_spec (con_root_level DEBUG st))).
  cbn [modulo root_level root_handlers cerrados next_id traza fs
       con_root_level].
  fold (tras_limpieza st).
  now rewrite (bind_ok _ _ _ _ _ (consola_spec o (tras_limpieza st))).
Qed.

Lemma tras_consola_marco (o : opciones) (st : estado) :
  root_level (tras_consola o st) = DEBUG
  /\ modulo (tras_consola o st) = modulo st
  /\ fs (tras_consola o st) = fs st.
Proof.
  unfold tras_consola. destruct (log_a_consola o);
    [destruct (mem _ _)|]; repeat split; reflexivity.
Qed.

Lemma fallo_archivo_ext (o : opciones) (st st' : estado) :
  fs st' = fs st ->
  RUTA_BASE_ESCRITURA (modulo st') = RUTA_BASE_ESCRITURA (modulo st) ->
  fallo_archivo st' o = fallo_archivo st o.
Proof.
  intros Hf Hr. unfold fallo_archivo, get_logs_path. now rewrite Hf, Hr.
Qed.

(** The file step always returns; the root level, the operating system
    and the module's constants are as before, no handler is lost. *)
Lemma archivo_total (o : opciones) (st : estado) :
  root_level st = DEBUG ->
  exists st',
    manejador_archivo o st = (Ok tt, st')
    /\ root_level st' = DEBUG
    /\ mismo_entorno st st'
    /\ _configuracion_realizada (modulo st')
       = _configuracion_realizada (modulo st)
    /\ incl (root_handlers st) (root_handlers st').
Proof.
  intros Hl. unfold mismo_entorno.
  destruct (log_a_archivo o) eqn:Ha.
  - destruct (fallo_archivo st o) as [e|] eqn:Hf.
    + rewrite (archivo_spec_falla o st e Ha Hf).
      rewrite logging_critical_spec by exact Hl.
      eexists. split; [reflexivity|].
      cbn [root_handlers con_traza con_modulo next_id root_level modulo fs].
      destruct (is_nil (root_handlers st)) eqn:Hn; cbn;
        repeat split; try assumption; try reflexivity.
      * destruct (root_handlers st); [|discriminate Hn].
        intros x Hx; destruct Hx.
      * apply incl_refl.
    + rewrite (archivo_spec_ok o st Ha Hf).
      eexists. split; [reflexivity|].
      destruct (mem _ _); cbn; repeat split; try assumption;
        try reflexivity; [apply incl_refl | apply incl_appl, incl_refl].
  - rewrite (archivo_spec_off o st Ha).
    eexists. split; [reflexivity|]. cbn.
    repeat split; try assumption; try reflexivity. apply incl_refl.
Qed.

(** Every call leaves the state Configured and the operating system and
    the module's constants untouched, whatever its outcome: it returns,
    or, in a first call, it raises the [OverflowError] of the status
    line. *)
Lemma configurar_total (o : opciones) (st : estado) :
  exists r st',
    configurar_logging o st = (r, st')
    /\ _configuracion_realizada (modulo st') = true
    /\ mismo_entorno st st'
    /\ (_configuracion_realizada (modulo st) = false ->
        root_level st' = DEBUG)
    /\ (r = Ok tt \/ r = Raise OverflowError)
    /\ (rotacion_formateable o = true -> r = Ok tt)
    /\ (_configuracion_realizada (modulo st) = true -> r = Ok tt).
Proof.
  destruct (_configuracion_realizada (modulo st)) eqn:Hc.
  - rewrite (configurar_ya_configurado o st Hc).
    do 2 eexists. split; [reflexivity|]. unfold mismo_entorno.
    destruct (root_level st <=? WARNING)%Z; cbn;
      repeat split; try assumption; try reflexivity;
      try discriminate; left; reflexivity.
  - rewrite (configurar_primera o st Hc).
    destruct (tras_consola_marco o st) as [Hl [Hm Hfs]].
    destruct (archivo_total o (tras_consola o st) Hl)
      as [st3 [H3 [Hl3 [[Hf3 [Hb3 [Hr3 He3]]] [Hc3 _]]]]].
    rewrite (bind_ok _ _ _ _ _ H3).
    rewrite (finalizar_spec o st3 Hl3).
    pose proof (desenlace_casos o
                  (con_configuracion_realizada true (modulo st3))) as Hd.
    pose proof (desenlace_formateable o
                  (con_configuracion_realizada true (modulo st3))) as Hf.
    set (r := desenlace o (con_configuracion_realizada true (modulo st3)))
      in *.
    set (t := resumen o (con_configuracion_realizada true (modulo st3))
                (root_handlers st3)).
    do 2 eexists. split; [reflexivity|]. unfold mismo_entorno.
    cbn [modulo fs root_level con_traza con_modulo
         _configuracion_realizada IS_BUNDLED RUTA_BASE_LECTURA
         RUTA_BASE_ESCRITURA con_configuracion_realizada].
    rewrite Hf3, Hb3, Hr3, He3, Hfs, Hm.
    split; [reflexivity|].
    split; [repeat split; reflexivity|].
    split; [intros _; exact Hl3|].
    split; [exact Hd|]. split; [exact Hf | discriminate].
Qed.

(** Calls made in state Configured change nothing but the output. *)
Lemma reconfigurar_configurado (os : list opciones) (st : estado) :
  _configuracion_realizada (modulo st) = true ->
  exists t,
    reconfigurar os st = (Ok tt, con_traza (traza st ++ t) st).
Proof.
  revert st. induction os as [|o os IH]; intros st Hc.
  - exists []. unfold reconfigurar; simpl. unfold ret.
    rewrite app_nil_r. f_equal. apply estado_eta.
  - unfold reconfigurar. cbn [for_each].
    rewrite (bind_ok _ _ _ _ _ (configurar_ya_configurado o st Hc)).
    fold (reconfigurar os).
    destruct (root_level st <=? WARNING)%Z.
    + destruct (IH (con_traza (traza st ++ [Log "ConfigLog" WARNING
                 (Texto "Intento de reconfigurar logging ya configurado.")
                 false (callHandlers (root_handlers st) WARNING)]) st) Hc)
        as [t Ht].
      rewrite Ht. eexists. cbn. rewrite <- app_assoc. reflexivity.
    + destruct (IH st Hc) as [t Ht]. exists t. exact Ht.
Qed.

(** No sequence of calls touches the operating system or the module's
    constants, whatever the outcome of each call. *)
Lemma tras_llamadas_entorno (os : list opciones) (st : estado) :
  mismo_entorno st (tras_llamadas os st).
Proof.
  revert st. induction os as [|o os IH]; intros st.
  - repeat split; reflexivity.
  - destruct (configurar_total o st) as [r [st1 [H1 [_ [E1 _]]]]].
    assert (Hs : tras_llamadas (o :: os) st = tras_llamadas os st1).
    { unfold tras_llamadas. cbn [fold_left]. now rewrite H1. }
    rewrite Hs. pose proof (IH st1) as E2.
    unfold mismo_entorno in *.
    destruct E1 as [A1 [B1 [C1 D1]]]. destruct E2 as [A2 [B2 [C2 D2]]].
    repeat split; congruence.
Qed.

(** The module load never raises, and stores the flag it computed. *)
Lemma module_load_total (rt : runtime) :
  exists out g,
    module_load rt = (out, inr g)
    /\ IS_BUNDLED g = compute_IS_BUNDLED (sys rt).
Proof.
  destruct (truthy (compute_IS_BUNDLED (sys rt))) eqn:Hb.
  - unfold module_load, _obtener_ruta_base_escritura,
      _obtener_ruta_base_lectura. rewrite Hb.
    destruct (sys_MEIPASS (sys rt)) as [p|] eqn:Hp.
    + do 2 eexists. split; reflexivity.
    + exfalso. unfold compute_IS_BUNDLED, py_and, hasattr_MEIPASS in Hb.
      rewrite Hp in Hb.
      destruct (truthy (getattr_frozen (sys rt))) eqn:Hfz;
        [discriminate Hb | congruence].
  - destruct (RutasProps.module_load_dev rt Hb) as [r [_ Hl]].
    do 2 eexists. split; [exact Hl | reflexivity].
Qed.

Lemma tras_consola_attached (o : opciones) (st : estado) :
  log_a_consola o = true ->
  In (consola_de o (next_id st)) (root_handlers (tras_consola o st)).
Proof.
  intros Hc. unfold tras_consola. rewrite Hc.
  cbn [next_id tras_limpieza].
  destruct (mem _ _) eqn:Hm; cbn [root_handlers con_root_handlers con_next_id].
  - now apply mem_true_iff.
  - apply in_or_app. right. left. reflexivity.
Qed.

Lemma tras_consola_off (o : opciones) (st : estado) :
  log_a_consola o = false -> tras_consola o st = tras_limpieza st.
Proof. intros Hc. unfold tras_consola. now rewrite Hc. Qed.


Lemma filter_falla_nil (hs : list handler) :
  forallb (fun h => negb (cierre_falla h)) hs = true ->
  filter cierre_falla hs = [].
Proof.
  induction hs as [|h hs IH]; [reflexivity|]. simpl.
  destruct (cierre_falla h); simpl; [discriminate | exact IH].
Qed.

(** The file step when its set-up fails, field by field. *)
Lemma archivo_falla_campos (o : opciones) (st : estado) (e : exn) :
  root_level st = DEBUG ->
  log_a_archivo o = true ->
  fallo_archivo st o = Some e ->
  exists st',
    manejador_archivo o st = (Ok tt, st')
    /\ root_level st' = DEBUG
    /\ modulo st' = con_ruta_archivo_log_actual None (modulo st)
    /\ root_handlers st'
       = (if is_nil (root_handlers st)
          then [manejador_basico (next_id st)]
          else root_handlers st)
    /\ traza st'
       = (traza st
          ++ informe_fallo o (get_logs_path (modulo st) "") e
          ++ [Log "root" CRITICAL (fst (registro_critico e))
                (snd (registro_critico e))
                (callHandlers (root_handlers st') CRITICAL)])%list.
Proof.
  intros Hl Ha Hf.
  rewrite (archivo_spec_falla o st e Ha Hf).
  rewrite logging_critical_spec by exact Hl.
  eexists. split; [reflexivity|].
  cbn [root_handlers con_traza con_modulo next_id root_level modulo fs traza].
  destruct (is_nil (root_handlers st));
    cbn [root_handlers con_traza con_modulo con_root_handlers con_next_id
         next_id root_level modulo fs traza];
    rewrite <- app_assoc; repeat split; assumption.
Qed.

(** ** The claims *)



(** C7. The mode is Packaged exactly when [sys.frozen] exists and is
    truthy and [sys._MEIPASS] exists, FromSource in every other case;
    the flag is computed when the module is loaded, which always
    succeeds, and no sequence of configuration calls changes it,
    whatever the outcome of each call. *)
Theorem C7_execution_mode
    (s : sys_t) (rt : runtime) (os : list opciones) (st : estado) :
  mode_of (compute_IS_BUNDLED s)
  = match sys_frozen s, sys_MEIPASS s with
    | Some v, Some _ => if truthy v then Packaged else FromSource
    | _, _ => FromSource
    end
  /\ (mode_of (compute_IS_BUNDLED s) = Packaged
      <-> (exists v, sys_frozen s = Some v /\ truthy v = true)
          /\ (exists p, sys_MEIPASS s = Some p))
  /\ (mode_of (compute_IS_BUNDLED s) = FromSource
      <-> sys_frozen s = None
          \/ (exists v, sys_frozen s = Some v /\ truthy v = false)
          \/ sys_MEIPASS s = None)
  /\ (exists out g,
        module_load rt = (out, inr g)
        /\ IS_BUNDLED g = compute_IS_BUNDLED (sys rt))
  /\ IS_BUNDLED (modulo (tras_llamadas os st)) = IS_BUNDLED (modulo st).
Proof.
  assert (Hm : mode_of (compute_IS_BUNDLED s)
               = match sys_frozen s, sys_MEIPASS s with
                 | Some v, Some _ => if truthy v then Packaged else FromSource
                 | _, _ => FromSource
                 end).
  { unfold mode_of, compute_IS_BUNDLED, py_and, getattr_frozen,
      hasattr_MEIPASS.
    destruct (sys_frozen s) as [v|]; [|destruct (sys_MEIPASS s); reflexivity].
    destruct (truthy v) eqn:Hv.
    - destruct (sys_MEIPASS s); reflexivity.
    - rewrite Hv. destruct (sys_MEIPASS s); reflexivity. }
  split; [exact Hm|]. rewrite Hm. split; [|split; [|split]].
  - split.
    + intros H. destruct (sys_frozen s) as [v|]; [|discriminate H].
      destruct (sys_MEIPASS s) as [p|]; [|discriminate H].
      destruct (truthy v) eqn:Hv; [|discriminate H].
      split; [exists v; split; [reflexivity | exact Hv]
             | exists p; reflexivity].
    + intros [[v [Hf Hv]] [p Hp]]. now rewrite Hf, Hp, Hv.
  - split.
    + intros H. destruct (sys_frozen s) as [v|]; [|left; reflexivity].
      destruct (sys_MEIPASS s) as [p|]; [|right; right; reflexivity].
      destruct (truthy v) eqn:Hv; [discriminate H|].
      right; left. exists v. split; [reflexivity | exact Hv].
    + intros [Hf|[[v [Hf Hv]]|Hp]].
      * now rewrite Hf.
      * rewrite Hf, Hv. destruct (sys_MEIPASS s); reflexivity.
      * rewrite Hp. destruct (sys_frozen s); reflexivity.
  - apply module_load_total.
  - exact (proj1 (proj2 (tras_llamadas_entorno os st))).
Qed.

(** C7 at a packaged run, at a source run, and across two calls of
    which the first raises. *)
Lemma C7_witness :
  mode_of (compute_IS_BUNDLED sys_empaquetado) = Packaged
  /\ mode_of (compute_IS_BUNDLED (sys rt_app)) = FromSource
  /\ IS_BUNDLED
       (modulo (tras_llamadas [o_enorme; opciones_por_defecto]
                  (st_app [] so_ok)))
     = PyBool false.
Proof.
  split.
  { apply (proj1 (proj2 (C7_execution_mode sys_empaquetado rt_app []
                           (st_app [] so_ok)))).
    split; [exists (PyBool true); split; reflexivity
           | exists "/tmp/_MEI123"; reflexivity]. }
  split.
  { apply (proj1 (proj2 (proj2 (C7_execution_mode (sys rt_app) rt_app []
                                  (st_app [] so_ok))))).
    left. reflexivity. }
  exact (proj2 (proj2 (proj2 (proj2
           (C7_execution_mode sys_empaquetado rt_app
              [o_enorme; opciones_por_defecto] (st_app [] so_ok)))))).
Defined.







(** C10, as stated, fails on the code: with the console disabled and a
    file sink that fails, the CRITICAL report goes through
    [logging.critical], which finds the root logger without handlers and
    installs the package's default handler on standard error; the process
    is left with that sink, not with none. *)
Lemma C10_counterexample :
  let st := st_app [] so_logs_es_archivo in
  let o := sin_consola opciones_por_defecto in
  exists e st',
    log_a_consola o = false
    /\ fallo_archivo st o = Some e
    /\ configurar_logging o st = (Ok tt, st')
    /\ root_handlers st' = [manejador_basico 0]
    /\ root_handlers st' <> [].
Proof.
  cbv zeta. do 2 eexists.
  split; [reflexivity|]. split; [vm_compute; reflexivity|].
  split; [vm_compute; reflexivity|].
  split; [reflexivity | discriminate].
Qed.

(** C10, amended. With the console disabled and the file sink disabled or
    failed, the first call still ends in state Configured with
    [obtener_ruta_archivo_log] at [None], and every later call leaves the
    handler list, the state and the path as they are. With the file sink
    disabled the call attaches nothing: the root logger keeps the old
    handlers whose [close()] raised, and no handler at all if the old
    handlers all close. With the file sink failed, if no handler is left
    after the cleanup, the root logger ends with one handler, the default
    one on standard error that [logging.critical] installed; if an old
    handler survived the cleanup, no default handler is installed and
    the root logger keeps the surviving old handlers only. *)
Theorem C10_configured_without_requested_sinks
    (o : opciones) (st : estado) (os : list opciones) :
  _configuracion_realizada (modulo st) = false ->
  log_a_consola o = false ->
  log_a_archivo o = false \/ (exists e, fallo_archivo st o = Some e) ->
  exists st1 st2,
    configurar_logging o st = (Ok tt, st1)
    /\ _configuracion_realizada (modulo st1) = true
    /\ obtener_ruta_archivo_log st1 = None
    /\ (log_a_archivo o = false ->
        root_handlers st1 = filter cierre_falla (root_handlers st))
    /\ (log_a_archivo o = true ->
        root_handlers st1
        = if is_nil (filter cierre_falla (root_handlers st))
          then [manejador_basico (next_id st)]
          else filter cierre_falla (root_handlers st))
    /\ (forallb (fun h => negb (cierre_falla h)) (root_handlers st) = true ->
        root_handlers st1
        = if log_a_archivo o then [manejador_basico (next_id st)] else [])
    /\ reconfigurar os st1 = (Ok tt, st2)
    /\ root_handlers st2 = root_handlers st1
    /\ obtener_ruta_archivo_log st2 = None
    /\ _configuracion_realizada (modulo st2) = true.
Proof.
  intros Hc Hcon Hcase.
  rewrite (configurar_primera o st Hc), (tras_consola_off o st Hcon).
  assert (Hl : root_level (tras_limpieza st) = DEBUG) by reflexivity.
  assert (Hkey : exists st3,
            manejador_archivo o (tras_limpieza st) = (Ok tt, st3)
            /\ root_level st3 = DEBUG
            /\ modulo st3 = con_ruta_archivo_log_actual None (modulo st)
            /\ (log_a_archivo o = false ->
                root_handlers st3 = filter cierre_falla (root_handlers st))
            /\ (log_a_archivo o = true ->
                root_handlers st3
                = if is_nil (filter cierre_falla (root_handlers st))
                  then [manejador_basico (next_id st)]
                  else filter cierre_falla (root_handlers st))).
  { destruct (log_a_archivo o) eqn:Ha.
    - destruct Hcase as [Hx|[e Hf]]; [discriminate Hx|].
      assert (Hf2 : fallo_archivo (tras_limpieza st) o = Some e)
        by (rewrite (fallo_archivo_ext o st (tras_limpieza st));
            [exact Hf | reflexivity | reflexivity]).
      destruct (archivo_falla_campos o _ e Hl Ha Hf2)
        as [st3 [H3 [Hl3 [Hm3 [Hh3 _]]]]].
      exists st3. split; [exact H3|]. split; [exact Hl3|].
      split; [exact Hm3|]. split; [discriminate|]. intros _. exact Hh3.
    - rewrite (archivo_spec_off o _ Ha). eexists.
      split; [reflexivity|]. split; [reflexivity|]. split; [reflexivity|].
      split; [reflexivity | discriminate]. }
  destruct Hkey as [st3 [H3 [Hl3 [Hm3 [Hoff Hfail]]]]].
  assert (Hn3 : _ruta_archivo_log_actual (modulo st3) = None)
    by now rewrite Hm3.
  rewrite (bind_ok _ _ _ _ _ H3), (finalizar_sin_ruta o st3 Hl3 Hn3).
  cbv zeta.
  set (st1 := con_traza _ (con_modulo _ st3)).
  assert (Hc1 : _configuracion_realizada (modulo st1) = true) by reflexivity.
  destruct (reconfigurar_configurado os st1 Hc1) as [t Ht].
  exists st1. eexists. split; [reflexivity|]. split; [exact Hc1|].
  assert (Hr1 : obtener_ruta_archivo_log st1 = None).
  { unfold st1, obtener_ruta_archivo_log. cbn. now rewrite Hm3. }
  split; [exact Hr1|].
  split; [|split; [|split; [|split; [exact Ht|]]]].
  - intros Ha. change (root_handlers st1) with (root_handlers st3).
    exact (Hoff Ha).
  - intros Ha. change (root_handlers st1) with (root_handlers st3).
    exact (Hfail Ha).
  - intros Hall. change (root_handlers st1) with (root_handlers st3).
    destruct (log_a_archivo o) eqn:Ha.
    + rewrite (Hfail eq_refl), (filter_falla_nil _ Hall). reflexivity.
    + rewrite (Hoff eq_refl). now apply filter_falla_nil.
  - split; [reflexivity|]. split; [exact Hr1 | exact Hc1].
Qed.

(** C10 at a process with one old handler, both sinks disabled. *)
Lemma C10_witness :
  let st := st_app [h_viejo] so_ok in
  let o := {| nombre_archivo_log := "app.log"; nivel_archivo := DEBUG;
              nivel_consola := INFO; usar_rotacion := true;
              max_bytes_rotacion := 1024; num_respaldos := 2;
              log_a_consola := false; log_a_archivo := false |} in
  _configuracion_realizada (modulo st) = false
  /\ log_a_consola o = false
  /\ log_a_archivo o = false
  /\ exists st1 st2,
       configurar_logging o st = (Ok tt, st1)
       /\ root_handlers st1 = []
       /\ reconfigurar [opciones_por_defecto] st1 = (Ok tt, st2)
       /\ root_handlers st2 = []
       /\ obtener_ruta_archivo_log st2 = None.
Proof.
  cbv zeta. split; [reflexivity|]. split; [reflexivity|].
  split; [reflexivity|].
  destruct (C10_configured_without_requested_sinks
              {| nombre_archivo_log := "app.log"; nivel_archivo := DEBUG;
                 nivel_consola := INFO; usar_rotacion := true;
                 max_bytes_rotacion := 1024; num_respaldos := 2;
                 log_a_consola := false; log_a_archivo := false |}
              (st_app [h_viejo] so_ok) [opciones_por_defecto]
              eq_refl eq_refl (or_introl eq_refl))
    as [st1 [st2 [H1 [_ [_ [_ [_ [Hall [H2 [Hh2 [Hr2 _]]]]]]]]]]].
  exists st1, st2. split; [exact H1|].
  pose proof (Hall eq_refl) as Hnil.
  split; [exact Hnil|]. split; [exact H2|].
  split; [now rewrite Hh2 | exact Hr2].
Defined.

End BootstrapProps.

(* ------------------------------------------------------------------ *)
(** * Further properties of the path resolver *)

Module DisposicionProps.
Import posixpath Rutas Disposicion.

Lemma append_nil_r (a : string) : a ++ "" = a.
Proof. induction a as [|x a IH]; simpl; [reflexivity | now rewrite IH]. Qed.

Lemma seg_app (cs ds : list string) : seg (cs ++ ds) = seg cs ++ seg ds.
Proof.
  induction cs as [|c cs IH]; simpl; [reflexivity|].
  now rewrite IH, RutasProps.append_assoc.
Qed.

Lemma componente_sin_sep (c : string) : componente c = true -> sin_sep c = true.
Proof.
  unfold componente. intros H.
  apply andb_prop in H. destruct H as [H _].
  apply andb_prop in H. destruct H as [H _].
  apply andb_prop in H. now destruct H.
Qed.

Lemma componente_no_vacio (c : string) :
  componente c = true -> is_empty c = false.
Proof.
  unfold componente. destruct (is_empty c); [discriminate | reflexivity].
Qed.

Lemma split_sin_sep (c : string) : sin_sep c = true -> split c = [c].
Proof.
  induction c as [|x c IH]; simpl; intros H; [reflexivity|].
  apply andb_prop in H. destruct H as [Hx Hc].
  destruct (Ascii.eqb x sep); [discriminate Hx|].
  now rewrite (IH Hc).
Qed.

Lemma split_sin_sep_app (c r : string) :
  sin_sep c = true -> split (c ++ String sep r) = c :: split r.
Proof.
  induction c as [|x c IH]; simpl; intros H; [reflexivity|].
  apply andb_prop in H. destruct H as [Hx Hc].
  destruct (Ascii.eqb x sep); [discriminate Hx|].
  now rewrite (IH Hc).
Qed.

Lemma split_comp_seg (c : string) (r : list string) :
  sin_sep c = true -> forallb sin_sep r = true ->
  split (c ++ seg r) = c :: r.
Proof.
  revert c. induction r as [|d r IH]; intros c Hc Hr.
  - simpl. rewrite append_nil_r. now apply split_sin_sep.
  - simpl in Hr. apply andb_prop in Hr. destruct Hr as [Hd Hr].
    change (seg (d :: r)) with (String sep (d ++ seg r)).
    rewrite (split_sin_sep_app c (d ++ seg r) Hc).
    now rewrite (IH d Hd Hr).
Qed.

Lemma split_seg (c : string) (r : list string) :
  forallb sin_sep (c :: r) = true ->
  split (seg (c :: r)) = "" :: c :: r.
Proof.
  intros H. simpl in H. apply andb_prop in H. destruct H as [Hc Hr].
  cbn [seg]. change ("/" ++ c ++ seg r) with (String sep (c ++ seg r)).
  cbn [split]. rewrite Ascii.eqb_refl.
  now rewrite (split_comp_seg c r Hc Hr).
Qed.

Lemma concat_seg (c : string) (r : list string) :
  "/" ++ String.concat "/" (c :: r) = seg (c :: r).
Proof.
  revert c. induction r as [|d r IH]; intros c.
  - simpl. now rewrite append_nil_r.
  - change (String.concat "/" (c :: d :: r))
      with (c ++ "/" ++ String.concat "/" (d :: r)).
    rewrite (IH d). reflexivity.
Qed.

Lemma forallb_componente_sin_sep (cs : list string) :
  forallb componente cs = true -> forallb sin_sep cs = true.
Proof.
  induction cs as [|c cs IH]; simpl; intros H; [reflexivity|].
  apply andb_prop in H. destruct H as [Hc Hr].
  now rewrite (componente_sin_sep c Hc), (IH Hr).
Qed.

(** The loop of [normpath] keeps proper names as they come. *)
Lemma norm_fold_componentes (n : nat) (cs acc : list string) :
  forallb componente cs = true ->
  fold_left (norm_step n) cs acc = (acc ++ cs)%list.
Proof.
  revert acc. induction cs as [|c cs IH]; intros acc H.
  - simpl. now rewrite app_nil_r.
  - simpl in H. apply andb_prop in H. destruct H as [Hc Hr].
    cbn [fold_left].
    assert (Hs : norm_step n acc c = (acc ++ [c])%list).
    { unfold norm_step. unfold componente in Hc.
      destruct (is_empty c) eqn:He; [discriminate Hc|].
      destruct (c =? ".") eqn:Hd;
        [rewrite !andb_false_r in Hc; simpl in Hc;
         try discriminate Hc; destruct (sin_sep c); discriminate Hc|].
      destruct (c =? "..") eqn:Hdd;
        [rewrite !andb_false_r in Hc; discriminate Hc|].
      destruct (c =? "") eqn:E0.
      - apply String.eqb_eq in E0. subst c. discriminate He.
      - reflexivity. }
    rewrite Hs, (IH _ Hr). now rewrite <- app_assoc.
Qed.

Lemma seg_cons_shape (c : string) (r : list string) :
  componente c = true ->
  exists x t, negb (Ascii.eqb x sep) = true
              /\ seg (c :: r) = String sep (String x t).
Proof.
  intros Hc. pose proof (componente_sin_sep c Hc) as Hs.
  pose proof (componente_no_vacio c Hc) as He.
  destruct c as [|x c]; [discriminate He|].
  simpl in Hs. apply andb_prop in Hs. destruct Hs as [Hx _].
  exists x, (c ++ seg r). split; [exact Hx | reflexivity].
Qed.

Lemma initial_slashes_seg (c : string) (r : list string) :
  componente c = true -> initial_slashes (seg (c :: r)) = 1.
Proof.
  intros Hc. destruct (seg_cons_shape c r Hc) as [x [t [Hx E]]].
  rewrite E. unfold initial_slashes. rewrite Ascii.eqb_refl.
  apply negb_true_iff in Hx.
  destruct t; rewrite ?Hx; reflexivity.
Qed.

Lemma norm_step_vacio (n : nat) (acc : list string) :
  norm_step n acc "" = acc.
Proof. reflexivity. Qed.

(** [normpath] leaves an absolute path made of proper names as it is. *)
Lemma normpath_ruta_de (cs : list string) :
  forallb componente cs = true -> normpath (ruta_de cs) = ruta_de cs.
Proof.
  intros H. destruct cs as [|c r]; [reflexivity|].
  assert (Hc : componente c = true)
    by (simpl in H; apply andb_prop in H; now destruct H).
  unfold ruta_de, normpath.
  destruct (seg_cons_shape c r Hc) as [x [t [_ E]]].
  assert (He : is_empty (seg (c :: r)) = false) by (rewrite E; reflexivity).
  rewrite He, (initial_slashes_seg c r Hc).
  rewrite (split_seg c r (forallb_componente_sin_sep _ H)).
  change (fold_left (norm_step 1) ("" :: c :: r) [])
    with (fold_left (norm_step 1) (c :: r) []).
  rewrite (norm_fold_componentes 1 (c :: r) [] H).
  cbn [app repeat_sep].
  change (String sep "" ++ String.concat "/" (c :: r))
    with ("/" ++ String.concat "/" (c :: r)).
  rewrite concat_seg, He. reflexivity.
Qed.

Lemma forallb_snoc {A} (f : A -> bool) (l : list A) (a : A) :
  forallb f (l ++ [a]) = forallb f l && f a.
Proof. rewrite forallb_app. simpl. now rewrite andb_true_r. Qed.

(** [normpath] of such a path followed by [/..]: the last name goes. *)
Lemma normpath_sube (cs : list string) (c : string) :
  forallb componente (cs ++ [c]) = true ->
  normpath (seg (cs ++ [c]) ++ "/..") = ruta_de cs.
Proof.
  intros H.
  assert (Hcs : forallb componente cs = true /\ componente c = true).
  { rewrite forallb_snoc in H. now apply andb_prop in H. }
  destruct Hcs as [Hcs Hc].
  assert (E : seg (cs ++ [c]) ++ "/.." = seg ((cs ++ [c]) ++ [".."])).
  { rewrite (seg_app (cs ++ [c]) [".."]). reflexivity. }
  rewrite E.
  assert (Hne : exists h t, ((cs ++ [c]) ++ [".."])%list = h :: t
                            /\ componente h = true).
  { destruct cs as [|h t]; simpl.
    - exists c, [".."]. split; [reflexivity | exact Hc].
    - exists h, ((t ++ [c]) ++ [".."])%list. split; [reflexivity|].
      simpl in Hcs. apply andb_prop in Hcs. now destruct Hcs. }
  destruct Hne as [h [t [Eh Hh]]].
  assert (Hss : forallb sin_sep ((cs ++ [c]) ++ [".."]) = true).
  { rewrite forallb_snoc, (forallb_componente_sin_sep _ H). reflexivity. }
  unfold normpath. rewrite Eh in *.
  destruct (seg_cons_shape h t Hh) as [x [u [_ Es]]].
  assert (He : is_empty (seg (h :: t)) = false) by (rewrite Es; reflexivity).
  rewrite He, (initial_slashes_seg h t Hh), (split_seg h t Hss).
  change (fold_left (norm_step 1) ("" :: h :: t) [])
    with (fold_left (norm_step 1) (h :: t) []).
  rewrite <- Eh.
  rewrite fold_left_app, (norm_fold_componentes 1 (cs ++ [c]) [] H).
  cbn [app fold_left].
  assert (Hpop : norm_step 1 (cs ++ [c]) ".." = cs).
  { unfold norm_step. cbn [String.eqb Ascii.eqb orb negb Nat.eqb andb].
    simpl ((".." =? "") || (".." =? ".")).
    simpl (negb (".." =? "..")).
    rewrite last_last.
    assert (Hnil : is_nil (cs ++ [c]) = false) by (destruct cs; reflexivity).
    rewrite Hnil.
    assert (Hd : (c =? "..") = false).
    { unfold componente in Hc. destruct (c =? "..");
        [rewrite !andb_false_r in Hc; discriminate Hc | reflexivity]. }
    rewrite Hd. simpl. apply removelast_last. }
  rewrite Hpop. cbn [repeat_sep].
  destruct cs as [|c0 r0]; [reflexivity|].
  change (String sep "" ++ String.concat "/" (c0 :: r0))
    with ("/" ++ String.concat "/" (c0 :: r0)).
  rewrite concat_seg. unfold ruta_de.
  destruct (seg_cons_shape c0 r0) as [y [v [_ Ey]]].
  { simpl in Hcs. apply andb_prop in Hcs. now destruct Hcs. }
  rewrite Ey. reflexivity.
Qed.

Lemma rsplit_sin_sep (f : string) :
  sin_sep f = true -> rsplit_sep f = ("", f).
Proof.
  induction f as [|x f IH]; simpl; intros H; [reflexivity|].
  apply andb_prop in H. destruct H as [Hx Hf].
  rewrite (IH Hf). simpl.
  apply negb_true_iff in Hx. now rewrite Hx.
Qed.

Lemma rsplit_app (p f : string) :
  sin_sep f = true -> rsplit_sep (p ++ String sep f) = (p ++ "/", f).
Proof.
  intros Hf. induction p as [|x p IH].
  - simpl. rewrite (rsplit_sin_sep f Hf). reflexivity.
  - change (String x p ++ String sep f) with (String x (p ++ String sep f)).
    cbn [rsplit_sep]. rewrite IH.
    assert (He : is_empty (p ++ "/") = false) by (destruct p; reflexivity).
    rewrite He. reflexivity.
Qed.

Lemma rstrip_sep_snoc (p : string) : rstrip_sep (p ++ "/") = rstrip_sep p.
Proof.
  induction p as [|x p IH]; [reflexivity|].
  change (String x p ++ "/") with (String x (p ++ "/")).
  cbn [rstrip_sep]. now rewrite IH.
Qed.

Lemma rstrip_sep_id (p : string) :
  endswith_sep p = false -> rstrip_sep p = p.
Proof.
  induction p as [|x p IH]; [reflexivity|].
  intros H. cbn [rstrip_sep]. destruct p as [|y p].
  - simpl in *. now rewrite H.
  - rewrite IH by exact H. reflexivity.
Qed.

Lemma endswith_sep_sin_sep (c : string) :
  sin_sep c = true -> endswith_sep c = false.
Proof.
  induction c as [|x c IH]; [reflexivity|]. simpl. intros H.
  apply andb_prop in H. destruct H as [Hx Hc].
  apply negb_true_iff in Hx. destruct c; [exact Hx | now apply IH].
Qed.

Lemma endswith_sep_seg (c : string) (r : list string) :
  forallb componente (c :: r) = true -> endswith_sep (seg (c :: r)) = false.
Proof.
  revert c. induction r as [|d r IH]; intros c H.
  - simpl in H. rewrite andb_true_r in H.
    cbn [seg]. rewrite append_nil_r.
    rewrite RutasProps.endswith_sep_append
      by exact (componente_no_vacio c H).
    exact (endswith_sep_sin_sep c (componente_sin_sep c H)).
  - simpl in H. apply andb_prop in H. destruct H as [_ Hr].
    change (seg (c :: d :: r)) with ("/" ++ c ++ seg (d :: r)).
    rewrite <- RutasProps.append_assoc.
    destruct (seg_cons_shape d r) as [x [t [_ E]]].
    { simpl in Hr. apply andb_prop in Hr. now destruct Hr. }
    rewrite RutasProps.endswith_sep_append by (rewrite E; reflexivity).
    now apply IH.
Qed.

Lemma seg_snoc (cs : list string) (f : string) :
  seg (cs ++ [f]) = seg cs ++ String sep f.
Proof.
  rewrite seg_app. cbn [seg]. now rewrite append_nil_r.
Qed.

(** [dirname] and [basename] of an absolute path of proper names. *)
Lemma dirname_seg (cs : list string) (f : string) :
  forallb componente cs = true -> sin_sep f = true ->
  dirname (seg (cs ++ [f])) = ruta_de cs.
Proof.
  intros H Hf. unfold dirname.
  rewrite seg_snoc, (rsplit_app (seg cs) f Hf). cbn [fst].
  destruct cs as [|c r]; [reflexivity|].
  destruct (seg_cons_shape c r) as [x [t [Hx E]]].
  { simpl in H. apply andb_prop in H. now destruct H. }
  assert (He : is_empty (seg (c :: r) ++ "/") = false)
    by (rewrite E; reflexivity).
  assert (Ha : all_sep (seg (c :: r) ++ "/") = false).
  { rewrite E. simpl. apply negb_true_iff in Hx. now rewrite Hx. }
  rewrite He, Ha. cbn [negb andb].
  rewrite rstrip_sep_snoc.
  now rewrite (rstrip_sep_id _ (endswith_sep_seg c r H)).
Qed.

Lemma basename_seg (cs : list string) (f : string) :
  sin_sep f = true -> basename (seg (cs ++ [f])) = f.
Proof.
  intros Hf. unfold basename.
  now rewrite seg_snoc, (rsplit_app (seg cs) f Hf).
Qed.

Lemma isabs_seg (c : string) (r : list string) : isabs (seg (c :: r)) = true.
Proof. reflexivity. Qed.

(** [join] of such a directory and a relative name. *)
Lemma join_ruta_de (cs : list string) (b : string) :
  forallb componente cs = true -> isabs b = false ->
  join (ruta_de cs) [b] = seg (cs ++ [b]).
Proof.
  intros H Hb. unfold join. cbn [fold_left].
  rewrite (RutasProps.join2_relative _ b Hb), seg_snoc.
  destruct cs as [|c r]; [reflexivity|].
  unfold ruta_de, sep_tras.
  rewrite (endswith_sep_seg c r H).
  destruct (seg_cons_shape c r) as [x [t [_ E]]].
  { simpl in H. apply andb_prop in H. now destruct H. }
  rewrite E. reflexivity.
Qed.

(** Two levels up from a file: [abspath(join(dirname(abspath(file)), '..'))],
    the computation of lines 44-46 of the module and of lines 44-45 of the
    script. *)
Lemma dos_niveles_arriba (cs : list string) (d f dir : string) :
  forallb componente cs = true ->
  componente d = true -> componente f = true ->
  abspath dir (join (dirname (abspath dir (seg (cs ++ [d; f])))) [".."])
  = ruta_de cs.
Proof.
  intros Hcs Hd Hf.
  assert (Hall : forallb componente (cs ++ [d; f]) = true).
  { rewrite forallb_app, Hcs. simpl. now rewrite Hd, Hf. }
  assert (Hcd : forallb componente (cs ++ [d]) = true).
  { rewrite forallb_snoc, Hcs, Hd. reflexivity. }
  assert (Eabs : abspath dir (seg (cs ++ [d; f])) = seg (cs ++ [d; f])).
  { unfold abspath.
    assert (Hi : isabs (seg (cs ++ [d; f])) = true)
      by (destruct cs; reflexivity).
    rewrite Hi.
    pose proof (normpath_ruta_de _ Hall) as Hn.
    destruct cs; exact Hn. }
  rewrite Eabs.
  change (cs ++ [d; f])%list with (cs ++ [d] ++ [f])%list.
  rewrite app_assoc.
  rewrite (dirname_seg (cs ++ [d]) f Hcd (componente_sin_sep f Hf)).
  rewrite (join_ruta_de (cs ++ [d]) ".." Hcd eq_refl).
  unfold abspath.
  assert (Hi : isabs (seg ((cs ++ [d]) ++ [".."])) = true)
    by (destruct cs; reflexivity).
  rewrite Hi, seg_snoc.
  change (seg (cs ++ [d]) ++ String sep "..") with (seg (cs ++ [d]) ++ "/..").
  now apply normpath_sube.
Qed.

End DisposicionProps.

(* ------------------------------------------------------------------ *)
(** * Properties of the script *)

Module MainProps.
Import posixpath Rutas Logging Bootstrap Main.

Lemma mas_mas (st : flujo) (a b : list suceso) :
  mas (mas st a) b = mas st (a ++ b).
Proof. unfold mas. simpl. now rewrite app_assoc. Qed.

Lemma emitir_eq (s : suceso) (st : flujo) :
  emitir s st = (Ok tt, mas st [s]).
Proof. reflexivity. Qed.

Lemma emitir_bind {B} (s : suceso) (k : F B) (st : flujo) :
  (emitir s ;;; k) st = k (mas st [s]).
Proof. reflexivity. Qed.

Lemma llamar_bind {B} (s : suceso) (o : option exn) (k : F B) (st : flujo) :
  (llamar s o ;;; k) st
  = match o with
    | Some e => (Raise e, mas st [s])
    | None => k (mas st [s])
    end.
Proof. unfold llamar, bindF, emitir, raiseF, retF, mas. destruct o; reflexivity. Qed.

Lemma escribir_campo_bind {B} (w : mundo) (creds : valor) (campo clave : string)
    (k : F B) (st : flujo) :
  (escribir_campo w creds campo clave ;;; k) st
  = match wait_until w (visibility_of_element_located (By_ID campo)) with
    | Some e =>
        (Raise e, mas st [WaitUntil (visibility_of_element_located (By_ID campo))])
    | None =>
        match subscript creds clave with
        | inl e =>
            (Raise e,
             mas st [WaitUntil (visibility_of_element_located (By_ID campo))])
        | inr v =>
            match send_keys w (By_ID campo) v with
            | Some e =>
                (Raise e,
                 mas st [WaitUntil (visibility_of_element_located (By_ID campo));
                         SendKeys (By_ID campo) v])
            | None =>
                k (mas st [WaitUntil (visibility_of_element_located (By_ID campo));
                           SendKeys (By_ID campo) v])
            end
        end
    end.
Proof.
  unfold escribir_campo.
  unfold bindF at 1. unfold bindF at 1. unfold llamar at 1.
  unfold bindF at 1. rewrite emitir_eq.
  destruct (wait_until w _); [reflexivity|].
  unfold retF at 1. destruct (subscript creds clave); [reflexivity|].
  unfold llamar, bindF. rewrite emitir_eq, mas_mas.
  destruct (send_keys w _ _); reflexivity.
Qed.

(** The handlers of the login: whatever is raised, [False] comes back
    after one ERROR record. *)
Lemma login_handler (e : exn) (st : flujo) :
  exists t x,
    (if es_Timeout e then
       logger_error "Timeout durante el login. ¿Credenciales incorrectas o la página no cargó a tiempo?" ;;;
       retF false
     else
       logger_exception ("Error inesperado durante el login: " ++ exn_msg e) ;;;
       retF false) st
    = (Ok false, mas st [Registro ERROR t x]).
Proof.
  destruct (es_Timeout e); do 2 eexists; reflexivity.
Qed.

Ltac reescribir :=
  repeat match goal with
         | H : _ = _ |- _ => rewrite H
         end.

(** A failing branch of the login: the handler answers [False]. *)
Ltac rama_fallida w creds :=
  match goal with
  | |- exists evs, (if es_Timeout ?e then _ else _) ?st' = _ /\ _ =>
      let t := fresh "t" in
      let x := fresh "x" in
      let H := fresh "H" in
      destruct (login_handler e st') as [t [x H]];
      rewrite H, ?mas_mas; eexists;
      split;
      [ f_equal; f_equal; unfold login_sin_fallos, campo_sin_fallos;
        reescribir; reflexivity
      | split; [reflexivity | intros _; do 2 eexists; reflexivity] ]
  end.

(** [realizar_login] never raises; it answers whether every step
    answered well. *)
Lemma realizar_login_spec (w : mundo) (creds : valor) (st : flujo) :
  exists evs,
    realizar_login w creds st = (Ok (login_sin_fallos w creds), mas st evs)
    /\ forallb evento_login evs = true
    /\ (login_sin_fallos w creds = false ->
        exists t x, last evs registro_fin = Registro ERROR t x).
Proof.
  unfold realizar_login, logger_info. rewrite emitir_bind.
  unfold try_exceptF, pasos_login.
  rewrite llamar_bind.
  destruct (driver_get w URL_PRUEBA_LOGIN) eqn:E1; [rama_fallida w creds|].
  rewrite mas_mas, escribir_campo_bind.
  destruct (wait_until w (visibility_of_element_located (By_ID ID_CAMPO_USUARIO)))
    eqn:E2; [rama_fallida w creds|].
  destruct (subscript creds "correo") eqn:E3; [rama_fallida w creds|].
  destruct (send_keys w (By_ID ID_CAMPO_USUARIO) p) eqn:E4;
    [rama_fallida w creds|].
  rewrite mas_mas, escribir_campo_bind.
  destruct (wait_until w (visibility_of_element_located (By_ID ID_CAMPO_PASSWORD)))
    eqn:E5; [rama_fallida w creds|].
  destruct (subscript creds "contraseña") eqn:E6; [rama_fallida w creds|].
  destruct (send_keys w (By_ID ID_CAMPO_PASSWORD) p0) eqn:E7;
    [rama_fallida w creds|].
  rewrite mas_mas, escribir_campo_bind.
  destruct (wait_until w (visibility_of_element_located (By_ID ID_CAMPO_EMPRESA)))
    eqn:E8; [rama_fallida w creds|].
  destruct (subscript creds "empresa") eqn:E9; [rama_fallida w creds|].
  destruct (send_keys w (By_ID ID_CAMPO_EMPRESA) p1) eqn:E10;
    [rama_fallida w creds|].
  rewrite mas_mas, llamar_bind.
  destruct (wait_until w (element_to_be_clickable SELECTOR_BOTON_LOGIN)) eqn:E11;
    [rama_fallida w creds|].
  rewrite mas_mas, llamar_bind.
  destruct (click w SELECTOR_BOTON_LOGIN) eqn:E12; [rama_fallida w creds|].
  rewrite mas_mas, llamar_bind.
  destruct (wait_until w (visibility_of_element_located SELECTOR_ICONO_MENU))
    eqn:E13; [rama_fallida w creds|].
  unfold logger_info. rewrite mas_mas, emitir_bind, mas_mas. unfold retF.
  eexists. split.
  - f_equal. f_equal. unfold login_sin_fallos, campo_sin_fallos.
    reescribir. reflexivity.
  - split; [reflexivity|].
    unfold login_sin_fallos, campo_sin_fallos. reescribir.
    discriminate.
Qed.

Lemma mas_con_driver (st : flujo) (a : list suceso) :
  mas (con_driver st) a = con_driver (mas st a).
Proof. reflexivity. Qed.

Lemma mas_nil (st : flujo) : mas st [] = st.
Proof. unfold mas. rewrite app_nil_r. now destruct st. Qed.

Lemma except_flujo_spec (e : exn) (st : flujo) :
  exists t1 t2,
    except_flujo e st
    = (Ok tt, mas st [Registro CRITICAL t1 true;
                      Dialogo showerror "Error Crítico" t2]).
Proof.
  do 2 eexists. unfold except_flujo, logger_critical.
  rewrite emitir_bind, emitir_eq, mas_mas. reflexivity.
Qed.

Lemma iniciar_navegador_spec (w : mundo) (dir : string) (st : flujo) :
  exists t,
    iniciar_navegador w dir st
    = match instalar_driver w with
      | Some e => (Raise e, mas st [Registro INFO t false; InstalarDriver])
      | None =>
          match crear_chrome w with
          | Some e =>
              (Raise e, mas st [Registro INFO t false; InstalarDriver;
                                CrearChrome dir])
          | None =>
              match maximize_window w with
              | Some e =>
                  (Raise e,
                   con_driver (mas st [Registro INFO t false; InstalarDriver;
                                       CrearChrome dir; MaximizeWindow]))
              | None =>
                  (Ok tt,
                   con_driver (mas st [Registro INFO t false; InstalarDriver;
                                       CrearChrome dir; MaximizeWindow]))
              end
          end
      end.
Proof.
  eexists. unfold iniciar_navegador, logger_info.
  rewrite emitir_bind, llamar_bind.
  destruct (instalar_driver w); [rewrite mas_mas; reflexivity|].
  rewrite mas_mas, llamar_bind.
  destruct (crear_chrome w); [rewrite mas_mas; reflexivity|].
  rewrite mas_mas. unfold bindF at 1. unfold asignar_driver.
  fold (con_driver (mas st [Registro INFO "Inicializando WebDriver de Chrome..." false;
                            InstalarDriver; CrearChrome dir])).
  unfold llamar, bindF, emitir, raiseF, retF.
  destruct (maximize_window w); unfold con_driver, mas;
    cbn [driver sucesos app]; rewrite <- ?app_assoc; cbn [app];
    reflexivity.
Qed.

Lemma obtener_fecha_spec (w : mundo) (sug : string) (st : flujo) :
  exists t r,
    obtener_fecha_interactiva w sug st
    = match tk_Tk w with
      | Some e => (Raise e, mas st [Registro INFO t false; TkRoot])
      | None =>
          (Ok (askstring w sug),
           mas st [Registro INFO t false; TkRoot; AskString sug;
                   Registro (if fecha_verdadera (askstring w sug)
                             then INFO else WARNING) r false])
      end.
Proof.
  unfold obtener_fecha_interactiva, logger_info, logger_warning.
  rewrite emitir_bind, llamar_bind.
  destruct (tk_Tk w).
  - eexists. exists "". rewrite mas_mas. reflexivity.
  - rewrite mas_mas, emitir_bind, mas_mas.
    destruct (askstring w sug) as [[|c f]|];
      do 2 eexists; unfold bindF, emitir, retF; cbn [fst snd is_empty negb];
      unfold mas; cbn [driver sucesos fecha_verdadera is_empty negb];
      rewrite <- !app_assoc; reflexivity.
Qed.

Lemma descargar_y_procesar_spec (w : mundo) (dt ds fecha : string)
    (st : flujo) :
  let csv := Path_div w dt "reporte_bruto_simulado.csv" in
  exists t1 t2 t3 t4 t5,
    descargar_y_procesar w dt ds fecha st
    = match to_csv_simulado w csv with
      | Some e => (Raise e, mas st [Registro INFO t1 false; CsvSimulado csv])
      | None =>
          match procesar_reporte_con_pandas w csv ds fecha with
          | Some r =>
              (Ok tt, mas st [Registro INFO t1 false; CsvSimulado csv;
                              Registro INFO t2 false; Procesar csv ds fecha;
                              Registro INFO t3 false;
                              Dialogo showinfo "Éxito" (t4 r)])
          | None =>
              (Ok tt, mas st [Registro INFO t1 false; CsvSimulado csv;
                              Registro INFO t2 false; Procesar csv ds fecha;
                              Registro ERROR t3 false;
                              Dialogo showerror "Error" t5])
          end
      end.
Proof.
  intros csv.
  exists "Iniciando secuencia de navegación y descarga del reporte...".
  exists ("Descarga simulada completada. Archivo: " ++ csv).
  unfold descargar_y_procesar, logger_info, logger_error. fold csv.
  rewrite emitir_bind, llamar_bind.
  destruct (to_csv_simulado w csv).
  - exists "", (fun _ => ""), "". rewrite mas_mas. reflexivity.
  - rewrite mas_mas, emitir_bind, mas_mas, emitir_bind, mas_mas.
    destruct (procesar_reporte_con_pandas w csv ds fecha).
    + exists "PROCESO COMPLETADO CON ÉXITO.".
      exists (fun r => "El proceso ha finalizado correctamente." ++ nl
                         ++ "Reporte guardado en: " ++ r), "".
      rewrite emitir_bind, emitir_eq, !mas_mas. reflexivity.
    + exists "El procesamiento de datos falló. Revise los logs.".
      exists (fun _ => "").
      eexists. rewrite emitir_bind, emitir_eq, !mas_mas. reflexivity.
Qed.

Lemma forallb_implica {A} (p q : A -> bool) (l : list A) :
  (forall x, p x = true -> q x = true) ->
  forallb p l = true -> forallb q l = true.
Proof.
  intros H. induction l as [|x l IH]; [reflexivity|]. simpl. intros Hp.
  apply andb_prop in Hp. destruct Hp as [Hx Hl].
  now rewrite (H x Hx), (IH Hl).
Qed.

Lemma existsb_ninguno {A} (p q : A -> bool) (l : list A) :
  (forall x, p x = true -> q x = false) ->
  forallb p l = true -> existsb q l = false.
Proof.
  intros H. induction l as [|x l IH]; [reflexivity|]. simpl. intros Hp.
  apply andb_prop in Hp. destruct Hp as [Hx Hl].
  now rewrite (H x Hx), (IH Hl).
Qed.

Lemma filter_ninguno {A} (p q : A -> bool) (l : list A) :
  (forall x, p x = true -> q x = false) ->
  forallb p l = true -> filter q l = [].
Proof.
  intros H. induction l as [|x l IH]; [reflexivity|]. simpl. intros Hp.
  apply andb_prop in Hp. destruct Hp as [Hx Hl].
  now rewrite (H x Hx), (IH Hl).
Qed.

(** What the events of a login are not. *)
Lemma eventos_login (evl : list suceso) :
  forallb evento_login evl = true ->
  forallb (fun s => negb (es_quit s)) evl = true
  /\ existsb es_dialogo_exito evl = false
  /\ filter es_dialogo evl = []
  /\ forallb (fun s => negb (es_descarga s)) evl = true
  /\ existsb es_crear_chrome evl = false.
Proof.
  intros H. repeat split.
  - apply (forallb_implica evento_login); [|exact H].
    intros [] Hx; try reflexivity; discriminate Hx.
  - apply (existsb_ninguno evento_login); [|exact H].
    intros [] Hx; try reflexivity; discriminate Hx.
  - apply (filter_ninguno evento_login); [|exact H].
    intros [] Hx; try reflexivity; discriminate Hx.
  - apply (forallb_implica evento_login); [|exact H].
    intros [] Hx; try reflexivity; discriminate Hx.
  - apply (existsb_ninguno evento_login); [|exact H].
    intros [] Hx; try reflexivity; discriminate Hx.
Qed.

(** The end of a branch of the body: the state is put in normal form and
    the facts on its events are computed. *)
Ltac hoja Hd Hq Hx Hf Hn Hc :=
  rewrite ?mas_con_driver, ?mas_mas;
  eexists;
  split;
  [ unfold con_driver, mas; cbn [driver sucesos sin_error andb];
    rewrite ?Hd; reflexivity
  | unfold exito_cuerpo, cancelado, hasta_fecha, exito_descarga;
    reescribir;
    rewrite ?forallb_app, ?existsb_app, ?filter_app, ?length_app;
    rewrite ?Hq, ?Hx, ?Hf, ?Hn, ?Hc;
    cbn; repeat split; try reflexivity; try discriminate ].

(** The body of the second [try] with its [except] clause, started
    without a browser: it always returns. *)
Lemma cuerpo_spec (w : mundo) (creds : valor) (dt ds : string) (st : flujo) :
  driver st = false ->
  exists evs,
    try_exceptF (cuerpo_flujo w creds dt ds) except_flujo st
    = (Ok tt,
       {| driver := sin_error (instalar_driver w) && sin_error (crear_chrome w);
          sucesos := sucesos st ++ evs |})
    /\ forallb (fun s => negb (es_quit s)) evs = true
    /\ (sin_error (instalar_driver w) && sin_error (crear_chrome w) = false ->
        forallb (fun s => negb (usa_navegador s)) evs = true)
    /\ existsb es_dialogo_exito evs = exito_cuerpo w creds dt ds
    /\ length (filter es_dialogo evs) = (if cancelado w creds then 0 else 1)
    /\ (fecha_verdadera (askstring w (fecha_ayer w)) = false ->
        forallb (fun s => negb (es_descarga s)) evs = true)
    /\ existsb es_crear_chrome evs = sin_error (instalar_driver w).
Proof.
  intros Hd.
  unfold try_exceptF, cuerpo_flujo. unfold bindF at 1.
  destruct (iniciar_navegador_spec w dt st) as [t0 Hi]. rewrite Hi.
  destruct (instalar_driver w) as [e|] eqn:E1.
  { destruct (except_flujo_spec e (mas st [Registro INFO t0 false; InstalarDriver]))
      as [t1 [t2 He]]. rewrite He.
    hoja Hd Hd Hd Hd Hd Hd. }
  destruct (crear_chrome w) as [e|] eqn:E2.
  { destruct (except_flujo_spec e
                (mas st [Registro INFO t0 false; InstalarDriver; CrearChrome dt]))
      as [t1 [t2 He]]. rewrite He.
    hoja Hd Hd Hd Hd Hd Hd. }
  destruct (maximize_window w) as [e|] eqn:E3.
  { match goal with
    | |- context [except_flujo e ?s] =>
        destruct (except_flujo_spec e s) as [t1 [t2 He]]; rewrite He
    end.
    hoja Hd Hd Hd Hd Hd Hd. }
  match goal with
  | |- context [(_ <- realizar_login w creds ;; _) ?s] =>
      destruct (realizar_login_spec w creds s) as [evl [Hl [Hev _]]];
      unfold bindF at 1; rewrite Hl
  end.
  destruct (eventos_login evl Hev) as [Hq [Hx [Hf [Hn Hc]]]].
  destruct (login_sin_fallos w creds) eqn:E4; cbn [negb].
  2:{ unfold raiseF.
      match goal with
      | |- context [except_flujo ?e ?s] =>
          destruct (except_flujo_spec e s) as [t1 [t2 He]]; rewrite He
      end.
      hoja Hd Hq Hx Hf Hn Hc. }
  match goal with
  | |- context [(_ <- obtener_fecha_interactiva w ?sug ;; _) ?s] =>
      destruct (obtener_fecha_spec w sug s) as [t3 [r3 Ho]];
      unfold bindF at 1; rewrite Ho
  end.
  destruct (tk_Tk w) as [e|] eqn:E5.
  { match goal with
    | |- context [except_flujo e ?s] =>
        destruct (except_flujo_spec e s) as [t1 [t2 He]]; rewrite He
    end.
    hoja Hd Hq Hx Hf Hn Hc. }
  destruct (askstring w (fecha_ayer w)) as [[|c f]|] eqn:E6;
    cbn [is_empty fecha_verdadera negb];
    try (unfold logger_warning; rewrite emitir_eq;
         hoja Hd Hq Hx Hf Hn Hc).
  match goal with
  | |- context [descargar_y_procesar w dt ds ?fe ?s] =>
      destruct (descargar_y_procesar_spec w dt ds fe s)
        as [u1 [u2 [u3 [u4 [u5 Hp]]]]]; rewrite Hp
  end.
  destruct (to_csv_simulado w _) as [e|] eqn:E7.
  { match goal with
    | |- context [except_flujo e ?s] =>
        destruct (except_flujo_spec e s) as [t1 [t2 He]]; rewrite He
    end.
    hoja Hd Hq Hx Hf Hn Hc. }
  destruct (procesar_reporte_con_pandas w _ ds _) eqn:E8;
    hoja Hd Hq Hx Hf Hn Hc.
Qed.

Lemma bindF_assoc {A B C} (m : F A) (k1 : A -> F B) (k2 : B -> F C)
    (st : flujo) :
  bindF (bindF m k1) k2 st = bindF m (fun a => bindF (k1 a) k2) st.
Proof. unfold bindF. destruct (m st) as [[a|e] st']; reflexivity. Qed.

Lemma preparar_descargas_spec (w : mundo) (dir : string) (st : flujo) :
  preparar_descargas w dir st
  = match fallo_preparacion w dir with
    | None => (Ok (Some tt), mas st (eventos_preparacion w dir))
    | Some e =>
        if is_OSError e
        then (Ok None,
              mas st (eventos_preparacion w dir
                        ++ [Registro ERROR
                              ("No se pudo limpiar/crear el directorio de descargas: "
                                 ++ exn_msg e) false]))
        else (Raise e, mas st (eventos_preparacion w dir))
    end.
Proof.
  unfold preparar_descargas, fallo_preparacion, eventos_preparacion,
    try_exceptF, logger_info, logger_error.
  destruct (os_path_exists w dir).
  - rewrite bindF_assoc, llamar_bind.
    destruct (shutil_rmtree w dir) as [e|].
    + destruct (is_OSError e); [|reflexivity].
      rewrite emitir_bind, mas_mas. reflexivity.
    + rewrite emitir_bind, mas_mas, llamar_bind.
      destruct (os_makedirs_estricto w dir) as [e|]; rewrite mas_mas.
      * destruct (is_OSError e); [|reflexivity].
        rewrite emitir_bind, mas_mas. reflexivity.
      * reflexivity.
  - unfold bindF at 1. unfold retF at 1. rewrite llamar_bind.
    destruct (os_makedirs_estricto w dir) as [e|].
    + destruct (is_OSError e); [|reflexivity].
      rewrite emitir_bind, mas_mas. reflexivity.
    + reflexivity.
Qed.

Lemma finally_flujo_spec (w : mundo) (st : flujo) :
  finally_flujo w st
  = (match (if driver st then driver_quit w else None) with
     | Some e => Raise e
     | None => Ok tt
     end,
     mas st (epilogo w (driver st))).
Proof.
  unfold finally_flujo, epilogo, leer_driver, logger_info, registro_fin.
  unfold bindF at 1. destruct (driver st).
  - rewrite bindF_assoc, emitir_bind, llamar_bind.
    destruct (driver_quit w); rewrite mas_mas; [reflexivity|].
    rewrite emitir_eq, mas_mas. reflexivity.
  - unfold bindF at 1. unfold retF. rewrite emitir_eq. reflexivity.
Qed.

(** Runs that end before the second [try]. *)
Lemma flujo_no_arranca (w : mundo) (g : globals) (st : flujo) :
  arranca w g = false ->
  exists r evs,
    ejecutar_flujo_rpa w g st = (r, mas st (prologo g ++ evs))
    /\ forallb temprano evs = true
    /\ (forall a, r = Ok a ->
        exists n t, last evs registro_fin = Registro n t false
                    /\ (ERROR <=? n)%Z = true)
    /\ r = match json_load w (get_credentials_path g) with
           | OtraFalla e => Raise e
           | Leido v =>
               if es_verdadero v then
                 match fallo_preparacion w
                         (get_data_path g DIR_DESCARGAS_TEMPORAL) with
                 | Some e => if is_OSError e then Ok tt else Raise e
                 | None => Ok tt
                 end
               else Ok tt
           | _ => Ok tt
           end.
Proof.
  unfold arranca, preparado. intros Ha.
  unfold ejecutar_flujo_rpa, logger_info, logger_critical.
  rewrite emitir_bind. unfold bindF at 1.
  unfold cargar_credenciales, logger_debug, logger_error.
  rewrite emitir_bind, mas_mas.
  destruct (json_load w (get_credentials_path g)) as [v| | |e].
  - unfold retF at 1. destruct (es_verdadero v) eqn:Hv; cbn [negb].
    + unfold bindF at 1. rewrite preparar_descargas_spec.
      destruct (fallo_preparacion w _) as [e|]; [|discriminate Ha].
      destruct (is_OSError e); do 2 eexists; rewrite ?mas_mas;
        (split; [unfold prologo; cbn [app]; reflexivity|]).
      * unfold retF. rewrite forallb_app.
        unfold eventos_preparacion.
        destruct (os_path_exists w _); [destruct (shutil_rmtree w _)|];
          (split; [reflexivity|]);
          (split; [intros a _; do 2 eexists; split; reflexivity
                  | reflexivity]).
      * unfold eventos_preparacion.
        destruct (os_path_exists w _); [destruct (shutil_rmtree w _)|];
          (split; [reflexivity|]);
          (split; [intros a H; discriminate H | reflexivity]).
    + rewrite emitir_eq, mas_mas. do 2 eexists.
      split; [reflexivity|]. split; [reflexivity|].
      split; [intros a _; do 2 eexists; split; reflexivity | reflexivity].
  - rewrite emitir_bind, emitir_bind, !mas_mas. unfold retF.
    cbn [negb es_verdadero py_None].
    rewrite emitir_eq, mas_mas. do 2 eexists.
    split; [reflexivity|]. split; [reflexivity|].
    split; [intros a _; do 2 eexists; split; reflexivity | reflexivity].
  - rewrite emitir_bind, emitir_bind, !mas_mas. unfold retF.
    cbn [negb es_verdadero py_None].
    rewrite emitir_eq, mas_mas. do 2 eexists.
    split; [reflexivity|]. split; [reflexivity|].
    split; [intros a _; do 2 eexists; split; reflexivity | reflexivity].
  - unfold raiseF. exists (Raise e), [].
    split; [rewrite app_nil_r; reflexivity|]. split; [reflexivity|].
    split; [intros a H; discriminate H | reflexivity].
Qed.

(** Runs that get to the second [try]. *)
Lemma flujo_arranca (w : mundo) (g : globals) (st : flujo) :
  arranca w g = true ->
  let dt := get_data_path g DIR_DESCARGAS_TEMPORAL in
  let ds := get_data_path g "" in
  let creado := sin_error (instalar_driver w) && sin_error (crear_chrome w) in
  exists v evs,
    json_load w (get_credentials_path g) = Leido v
    /\ es_verdadero v = true
    /\ fallo_preparacion w dt = None
    /\ ejecutar_flujo_rpa w g st
       = (match (if creado then driver_quit w else None) with
          | Some e => Raise e
          | None => Ok tt
          end,
          {| driver := creado;
             sucesos := sucesos st
                          ++ (prologo g ++ eventos_preparacion w dt)
                          ++ evs ++ epilogo w creado |})
    /\ forallb (fun s => negb (es_quit s)) evs = true
    /\ (creado = false -> forallb (fun s => negb (usa_navegador s)) evs = true)
    /\ existsb es_dialogo_exito evs = exito_cuerpo w v dt ds
    /\ length (filter es_dialogo evs) = (if cancelado w v then 0 else 1)
    /\ (fecha_verdadera (askstring w (fecha_ayer w)) = false ->
        forallb (fun s => negb (es_descarga s)) evs = true)
    /\ existsb es_crear_chrome evs = sin_error (instalar_driver w).
Proof.
  intros Ha dt ds creado. subst dt ds creado.
  unfold arranca, preparado in Ha.
  destruct (json_load w (get_credentials_path g)) as [v| | |e] eqn:Hj;
    try discriminate Ha.
  apply andb_prop in Ha. destruct Ha as [Hv Hp].
  destruct (fallo_preparacion w (get_data_path g DIR_DESCARGAS_TEMPORAL))
    as [e|] eqn:Hf; [discriminate Hp|].
  set (st1 := {| driver := false;
                 sucesos := sucesos st
                              ++ prologo g
                              ++ eventos_preparacion w
                                   (get_data_path g DIR_DESCARGAS_TEMPORAL) |}).
  destruct (cuerpo_spec w v (get_data_path g DIR_DESCARGAS_TEMPORAL)
              (get_data_path g "") st1 eq_refl)
    as [evs [Hc [H1 [H2 [H3 [H4 [H5 H6]]]]]]].
  exists v, evs. split; [reflexivity|]. split; [exact Hv|].
  split; [reflexivity|].
  split; [|repeat split; assumption].
  unfold ejecutar_flujo_rpa, logger_info.
  rewrite emitir_bind. unfold bindF at 1.
  unfold cargar_credenciales, logger_debug.
  rewrite emitir_bind, mas_mas, Hj. unfold retF at 1. rewrite Hv.
  cbn [negb]. unfold bindF at 1. rewrite preparar_descargas_spec.
  rewrite Hf, mas_mas.
  unfold bindF at 1. unfold sin_driver.
  change ([Registro INFO "================ INICIO DEL FLUJO RPA ================" false]
            ++ [Registro DEBUG ("Intentando cargar credenciales desde: "
                                  ++ get_credentials_path g) false])%list
    with (prologo g).
  cbn [sucesos mas]. rewrite <- app_assoc. fold st1.
  unfold try_finallyF. rewrite Hc, finally_flujo_spec.
  cbn [driver]. unfold mas. cbn [driver sucesos].
  unfold st1. cbn [sucesos]. rewrite <- !app_assoc.
  destruct (if sin_error (instalar_driver w) && sin_error (crear_chrome w)
            then driver_quit w else None); reflexivity.
Qed.

Lemma eventos_preparacion_hechos (w : mundo) (dir : string) :
  let evs := eventos_preparacion w dir in
  forallb (fun s => negb (usa_navegador s)) evs = true
  /\ forallb (fun s => negb (es_quit s)) evs = true
  /\ existsb es_dialogo_exito evs = false
  /\ filter es_dialogo evs = []
  /\ forallb (fun s => negb (es_descarga s)) evs = true
  /\ existsb es_crear_chrome evs = false.
Proof.
  unfold eventos_preparacion.
  destruct (os_path_exists w dir); [destruct (shutil_rmtree w dir)|];
    repeat split; reflexivity.
Qed.

Lemma temprano_hechos (evs : list suceso) :
  forallb temprano evs = true ->
  forallb (fun s => negb (usa_navegador s)) evs = true
  /\ forallb (fun s => negb (es_quit s)) evs = true
  /\ existsb es_dialogo_exito evs = false
  /\ forallb (fun s => negb (es_descarga s)) evs = true
  /\ existsb es_crear_chrome evs = false
  /\ forallb (fun s => negb (es_registro_fin s)) evs = true.
Proof.
  intros H. repeat split.
  - apply (forallb_implica temprano); [|exact H].
    intros [] Hx; try reflexivity; discriminate Hx.
  - apply (forallb_implica temprano); [|exact H].
    intros [] Hx; try reflexivity; discriminate Hx.
  - apply (existsb_ninguno temprano); [|exact H].
    intros [| [] | | | | | | | | | | | | | |] Hx;
      try reflexivity; discriminate Hx.
  - apply (forallb_implica temprano); [|exact H].
    intros [] Hx; try reflexivity; discriminate Hx.
  - apply (existsb_ninguno temprano); [|exact H].
    intros [] Hx; try reflexivity; discriminate Hx.
  - apply (forallb_implica temprano); [|exact H].
    intros [] Hx; try reflexivity; try discriminate Hx. exact Hx.
Qed.

Lemma arranca_navegador (w : mundo) (g : globals) :
  arranca w g = true ->
  navegador_creado w g
  = sin_error (instalar_driver w) && sin_error (crear_chrome w).
Proof. intros H. unfold navegador_creado. now rewrite H. Qed.

Lemma no_arranca_navegador (w : mundo) (g : globals) :
  arranca w g = false -> navegador_creado w g = false.
Proof. intros H. unfold navegador_creado. now rewrite H. Qed.

Lemma last_app_no_vacio {A} (a b : list A) (d : A) :
  b <> [] -> last (a ++ b) d = last b d.
Proof.
  intros Hb. induction a as [|x a IH]; [reflexivity|].
  simpl. rewrite IH. destruct (a ++ b)%list eqn:E; [|reflexivity].
  destruct a; simpl in E; [now elim Hb | discriminate E].
Qed.

Lemma last_forallb {A} (p : A -> bool) (l : list A) (d : A) :
  l <> [] -> forallb p l = true -> p (last l d) = true.
Proof.
  induction l as [|x l IH]; intros Hne H; [now elim Hne|].
  simpl in H. apply andb_prop in H. destruct H as [Hx Hl].
  destruct l as [|y l]; [exact Hx|].
  change (p (last (y :: l) d) = true). apply IH; [discriminate | exact Hl].
Qed.

(** ** Extra properties of the flow *)

(** X1. The login never raises: it returns [True] exactly when the page
    loads, every wait ends, the credentials hold the three keys and every
    typing and click goes through; its events are records and browser
    calls, and when it returns [False] its last event is an ERROR
    record. *)
Theorem login_never_raises (w : mundo) (creds : valor) (st : flujo) :
  exists evs,
    realizar_login w creds st = (Ok (login_sin_fallos w creds), mas st evs)
    /\ forallb evento_login evs = true
    /\ (login_sin_fallos w creds = false ->
        exists t x, last evs registro_fin = Registro ERROR t x).
Proof. apply realizar_login_spec. Qed.

(** X2. Credentials that lack one of the keys [correo], [contraseña],
    [empresa]: the login returns [False]; the [KeyError] does not reach
    the caller. *)
Theorem login_missing_key (w : mundo) (d : list (string * pyval))
    (st : flujo) :
  buscar "correo" d = None \/ buscar "contraseña" d = None
  \/ buscar "empresa" d = None ->
  exists evs t x,
    realizar_login w (py_dict d) st = (Ok false, mas st evs)
    /\ last evs registro_fin = Registro ERROR t x.
Proof.
  intros Hk.
  destruct (realizar_login_spec w (py_dict d) st) as [evs [H [_ Hl]]].
  assert (Hf : login_sin_fallos w (py_dict d) = false).
  { unfold login_sin_fallos, campo_sin_fallos, py_dict. cbn [subscript].
    destruct Hk as [Hk|[Hk|Hk]]; rewrite Hk;
      rewrite ?andb_false_r; reflexivity. }
  destruct (Hl Hf) as [t [x Hlast]].
  exists evs, t, x. rewrite H, Hf. split; [reflexivity | exact Hlast].
Qed.

(** The login on the credentials [{"correo": ...}] alone. *)
Lemma login_missing_key_witness :
  buscar "contraseña" [("correo", PyStr "rpa@example.com")] = None
  /\ exists evs,
       realizar_login mundo_feliz
         (py_dict [("correo", PyStr "rpa@example.com")]) inicio
       = (Ok false, mas inicio evs).
Proof.
  split; [reflexivity|].
  destruct (login_missing_key mundo_feliz [("correo", PyStr "rpa@example.com")]
              inicio (or_intror (or_introl eq_refl)))
    as [evs [t [x [H _]]]].
  exists evs. exact H.
Defined.

(** X3. Credentials that cannot be used (file missing, malformed JSON, or a
    falsy value such as [null] or [{}]) stop the run at once: it returns
    after a CRITICAL record, with at most the ERROR record and the error
    dialog of the loader before it; no directory is touched, no browser
    is started and the closing record is not logged. *)
Theorem unusable_credentials_stop_the_run
    (w : mundo) (g : globals) (st : flujo) :
  match json_load w (get_credentials_path g) with
  | Leido v => es_verdadero v = false
  | FileNotFoundError | JSONDecodeError => True
  | OtraFalla _ => False
  end ->
  exists evs,
    corre w g st (Ok tt)
      (prologo g ++ evs
         ++ [Registro CRITICAL
               "No se pudieron cargar las credenciales. Terminando proceso."
               false])
    /\ ((exists v, json_load w (get_credentials_path g) = Leido v) ->
        evs = [])
    /\ ((forall v, json_load w (get_credentials_path g) <> Leido v) ->
        exists t t', evs = [Registro ERROR t false;
                            Dialogo showerror "Error" t']).
Proof.
  intros H. unfold corre, ejecutar_flujo_rpa, logger_info, logger_critical.
  rewrite emitir_bind. unfold bindF at 1.
  unfold cargar_credenciales, logger_debug, logger_error.
  rewrite emitir_bind, mas_mas.
  destruct (json_load w (get_credentials_path g)) as [v| | |e];
    [| | |destruct H].
  - unfold retF at 1. rewrite H. cbn [negb].
    rewrite emitir_eq, mas_mas. exists [].
    split; [eexists; reflexivity|].
    split; [reflexivity|]. intros Hn. now elim (Hn v).
  - rewrite emitir_bind, emitir_bind, !mas_mas. unfold retF.
    cbn [negb es_verdadero py_None]. rewrite emitir_eq, mas_mas.
    eexists. split; [eexists; reflexivity|].
    split; [intros [v Hv]; discriminate Hv|].
    intros _. do 2 eexists. reflexivity.
  - rewrite emitir_bind, emitir_bind, !mas_mas. unfold retF.
    cbn [negb es_verdadero py_None]. rewrite emitir_eq, mas_mas.
    eexists. split; [eexists; reflexivity|].
    split; [intros [v Hv]; discriminate Hv|].
    intros _. do 2 eexists. reflexivity.
Qed.

(** The run on an empty JSON object. *)
Lemma unusable_credentials_witness :
  es_verdadero (py_dict []) = false
  /\ corre mundo_sin_credenciales g_app inicio (Ok tt)
       (prologo g_app
          ++ [Registro CRITICAL
                "No se pudieron cargar las credenciales. Terminando proceso."
                false]).
Proof.
  split; [reflexivity|].
  destruct (unusable_credentials_stop_the_run mundo_sin_credenciales g_app
              inicio eq_refl) as [evs [Hc [He _]]].
  rewrite (He (ex_intro _ (py_dict []) eq_refl)) in Hc. exact Hc.
Defined.

(** Every run, by whether it gets to the second [try]. *)
Lemma corre_casos (w : mundo) (g : globals) (st : flujo) :
  let dt := get_data_path g DIR_DESCARGAS_TEMPORAL in
  let ds := get_data_path g "" in
  let creado := navegador_creado w g in
  (arranca w g = false
   /\ exists r evs,
        corre w g st r (prologo g ++ evs)
        /\ forallb temprano evs = true
        /\ (forall a, r = Ok a ->
            exists n t, last evs registro_fin = Registro n t false
                        /\ (ERROR <=? n)%Z = true))
  \/ (arranca w g = true
      /\ exists v evs,
           json_load w (get_credentials_path g) = Leido v
           /\ es_verdadero v = true
           /\ corre w g st
                (match (if creado then driver_quit w else None) with
                 | Some e => Raise e
                 | None => Ok tt
                 end)
                ((prologo g ++ eventos_preparacion w dt)
                   ++ evs ++ epilogo w creado)
           /\ forallb (fun s => negb (es_quit s)) evs = true
           /\ (creado = false ->
               forallb (fun s => negb (usa_navegador s)) evs = true)
           /\ existsb es_dialogo_exito evs = exito_cuerpo w v dt ds
           /\ length (filter es_dialogo evs) = (if cancelado w v then 0 else 1)
           /\ (fecha_verdadera (askstring w (fecha_ayer w)) = false ->
               forallb (fun s => negb (es_descarga s)) evs = true)
           /\ existsb es_crear_chrome evs = sin_error (instalar_driver w)).
Proof.
  intros dt ds creado. subst dt ds creado.
  destruct (arranca w g) eqn:Ha.
  - right. split; [reflexivity|].
    rewrite (arranca_navegador w g Ha).
    destruct (flujo_arranca w g st Ha)
      as [v [evs [Hj [Hv [_ [He Hrest]]]]]].
    exists v, evs. split; [exact Hj|]. split; [exact Hv|].
    split; [eexists; exact He | exact Hrest].
  - left. split; [reflexivity|].
    destruct (flujo_no_arranca w g st Ha) as [r [evs [He [Ht [Hl _]]]]].
    exists r, evs. split; [eexists; exact He|]. split; assumption.
Qed.

(** X4. The browser is always closed: in a run that gets a browser,
    [driver.quit()] is called once and no call uses the browser after
    it; a run that gets no browser makes no browser call at all. *)
Theorem browser_is_always_closed (w : mundo) (g : globals) (st : flujo) :
  exists r evs,
    corre w g st r evs
    /\ (navegador_creado w g = true ->
        exists pre post,
          evs = (pre ++ DriverQuit :: post)%list
          /\ forallb (fun s => negb (es_quit s)) pre = true
          /\ forallb (fun s => negb (usa_navegador s)) post = true)
    /\ (navegador_creado w g = false ->
        forallb (fun s => negb (usa_navegador s)) evs = true).
Proof.
  destruct (corre_casos w g st)
    as [[Ha [r [evs [Hc [Ht _]]]]]
       |[Ha [v [evs [_ [_ [Hc [Hq [Hn _]]]]]]]]].
  - exists r, (prologo g ++ evs)%list. split; [exact Hc|].
    rewrite (no_arranca_navegador w g Ha).
    split; [discriminate|]. intros _.
    rewrite forallb_app. destruct (temprano_hechos evs Ht) as [H1 _].
    now rewrite H1.
  - eexists. eexists. split; [exact Hc|].
    destruct (eventos_preparacion_hechos w
                (get_data_path g DIR_DESCARGAS_TEMPORAL))
      as [P1 [P2 _]].
    destruct (navegador_creado w g) eqn:Hcr.
    + split; [|discriminate]. intros _.
      exists ((prologo g ++ eventos_preparacion w
                 (get_data_path g DIR_DESCARGAS_TEMPORAL))
                ++ evs
                ++ [Registro INFO
                      "Cerrando el navegador y finalizando el proceso." false])%list.
      exists (match driver_quit w with
              | Some _ => []
              | None => [registro_fin]
              end).
      split; [unfold epilogo; rewrite <- !app_assoc; reflexivity|].
      split.
      * rewrite !forallb_app, P2, Hq. reflexivity.
      * destruct (driver_quit w); reflexivity.
    + split; [discriminate|]. intros _.
      rewrite !forallb_app, P1, (Hn eq_refl). reflexivity.
Qed.

(** X6. The success dialog is shown exactly when everything answered well:
    credentials loaded and truthy, directory made afresh, browser
    started, login passed, a date given, the download written and the
    pandas step returning a path. *)
Theorem success_dialog_iff_all_succeeded
    (w : mundo) (g : globals) (st : flujo) :
  exists r evs,
    corre w g st r evs
    /\ existsb es_dialogo_exito evs = exito w g.
Proof.
  destruct (corre_casos w g st)
    as [[Ha [r [evs [Hc [Ht _]]]]]
       |[Ha [v [evs [Hj [Hv [Hc [_ [_ [Hx _]]]]]]]]]].
  - exists r, (prologo g ++ evs)%list. split; [exact Hc|].
    rewrite existsb_app. destruct (temprano_hechos evs Ht) as [_ [_ [H3 _]]].
    rewrite H3. unfold exito. unfold arranca in Ha.
    destruct (json_load w (get_credentials_path g)); try reflexivity.
    rewrite andb_assoc, Ha. reflexivity.
  - do 2 eexists. split; [exact Hc|].
    destruct (eventos_preparacion_hechos w
                (get_data_path g DIR_DESCARGAS_TEMPORAL))
      as [_ [_ [P3 _]]].
    rewrite !existsb_app, P3, Hx. unfold exito. rewrite Hj.
    unfold arranca in Ha. rewrite Hj in Ha.
    rewrite andb_assoc, Ha.
    assert (Hep : existsb es_dialogo_exito
                    (epilogo w (navegador_creado w g)) = false).
    { unfold epilogo. destruct (navegador_creado w g);
        [destruct (driver_quit w)|]; reflexivity. }
    rewrite Hep. unfold prologo.
    cbn [existsb es_dialogo_exito orb andb].
    rewrite ?orb_false_r. reflexivity.
Qed.

(** X7. A run that gets to the second [try] shows exactly one dialog, except
    when it reaches the date prompt and the user gives no date: then it
    shows none. *)
Theorem one_dialog_per_started_run (w : mundo) (g : globals) (st : flujo) :
  arranca w g = true ->
  exists v r evs,
    json_load w (get_credentials_path g) = Leido v
    /\ corre w g st r evs
    /\ length (filter es_dialogo evs) = (if cancelado w v then 0 else 1).
Proof.
  intros Ha.
  destruct (corre_casos w g st)
    as [[Hn _]|[_ [v [evs [Hj [_ [Hc [_ [_ [_ [Hd _]]]]]]]]]]];
    [rewrite Ha in Hn; discriminate Hn|].
  exists v. do 2 eexists. split; [exact Hj|]. split; [exact Hc|].
  destruct (eventos_preparacion_hechos w
              (get_data_path g DIR_DESCARGAS_TEMPORAL))
    as [_ [_ [_ [P4 _]]]].
  rewrite !filter_app, P4, !length_app, Hd.
  assert (Hep : filter es_dialogo (epilogo w (navegador_creado w g)) = []).
  { unfold epilogo. destruct (navegador_creado w g);
      [destruct (driver_quit w)|]; reflexivity. }
  rewrite Hep. simpl. now rewrite Nat.add_0_r.
Qed.

(** The happy run shows one dialog. *)
Lemma one_dialog_witness :
  arranca mundo_feliz g_app = true
  /\ exists r evs,
       corre mundo_feliz g_app inicio r evs
       /\ length (filter es_dialogo evs) = 1.
Proof.
  split; [reflexivity|].
  destruct (one_dialog_per_started_run mundo_feliz g_app inicio eq_refl)
    as [v [r [evs [Hj [Hc Hd]]]]].
  exists r, evs. split; [exact Hc|].
  vm_compute in Hj. inversion Hj; subst v. exact Hd.
Defined.

(** X8. Without a date nothing is downloaded or processed: when the prompt
    gives [None] or the empty string, no run writes the CSV, calls the
    pandas step or shows the success dialog. *)
Theorem no_date_no_download (w : mundo) (g : globals) (st : flujo) :
  fecha_verdadera (askstring w (fecha_ayer w)) = false ->
  exists r evs,
    corre w g st r evs
    /\ forallb (fun s => negb (es_descarga s)) evs = true
    /\ existsb es_dialogo_exito evs = false.
Proof.
  intros Hf.
  destruct (corre_casos w g st)
    as [[Ha [r [evs [Hc [Ht _]]]]]
       |[Ha [v [evs [Hj [Hv [Hc [_ [_ [Hx [_ [Hd _]]]]]]]]]]]].
  - exists r, (prologo g ++ evs)%list. split; [exact Hc|].
    destruct (temprano_hechos evs Ht) as [_ [_ [H3 [H4 _]]]].
    rewrite forallb_app, existsb_app, H3, H4. split; reflexivity.
  - do 2 eexists. split; [exact Hc|].
    destruct (eventos_preparacion_hechos w
                (get_data_path g DIR_DESCARGAS_TEMPORAL))
      as [_ [_ [P3 [_ [P5 _]]]]].
    assert (Hep : forallb (fun s => negb (es_descarga s))
                    (epilogo w (navegador_creado w g)) = true
                  /\ existsb es_dialogo_exito
                       (epilogo w (navegador_creado w g)) = false).
    { unfold epilogo. destruct (navegador_creado w g);
        [destruct (driver_quit w)|]; split; reflexivity. }
    destruct Hep as [E1 E2].
    rewrite !forallb_app, !existsb_app, P3, P5, (Hd Hf), Hx, E1, E2.
    split; [reflexivity|].
    unfold exito_cuerpo. unfold fecha_verdadera in Hf.
    destruct (askstring w (fecha_ayer w)) as [f|];
      [rewrite Hf|]; rewrite ?andb_false_r; reflexivity.
Qed.

(** The run where the user confirms an empty date. *)
Lemma no_date_witness :
  fecha_verdadera (askstring mundo_fecha_vacia (fecha_ayer mundo_fecha_vacia))
  = false
  /\ exists r evs,
       corre mundo_fecha_vacia g_app inicio r evs
       /\ forallb (fun s => negb (es_descarga s)) evs = true.
Proof.
  split; [reflexivity|].
  destruct (no_date_no_download mundo_fecha_vacia g_app inicio eq_refl)
    as [r [evs [Hc [Hd _]]]].
  exists r, evs. split; assumption.
Defined.

(** X9. Chrome is launched exactly when the credentials are loaded and
    truthy, the download directory was made afresh and the driver got
    installed; the [makedirs] of that directory then comes before the
    launch. *)
Theorem chrome_launch_conditions (w : mundo) (g : globals) (st : flujo) :
  let dt := get_data_path g DIR_DESCARGAS_TEMPORAL in
  exists r evs,
    corre w g st r evs
    /\ existsb es_crear_chrome evs
       = arranca w g && sin_error (instalar_driver w)
    /\ (arranca w g = true ->
        exists a b,
          evs = (a ++ Makedirs dt :: b)%list
          /\ existsb es_crear_chrome a = false).
Proof.
  intros dt. subst dt.
  destruct (corre_casos w g st)
    as [[Ha [r [evs [Hc [Ht _]]]]]
       |[Ha [v [evs [Hj [Hv [Hc [_ [_ [_ [_ [_ Hk]]]]]]]]]]]].
  - exists r, (prologo g ++ evs)%list. split; [exact Hc|].
    destruct (temprano_hechos evs Ht) as [_ [_ [_ [_ [H5 _]]]]].
    rewrite existsb_app, H5, Ha. split; [reflexivity | discriminate].
  - do 2 eexists. split; [exact Hc|].
    destruct (eventos_preparacion_hechos w
                (get_data_path g DIR_DESCARGAS_TEMPORAL))
      as [_ [_ [_ [_ [_ P6]]]]].
    assert (Hep : existsb es_crear_chrome
                    (epilogo w (navegador_creado w g)) = false).
    { unfold epilogo. destruct (navegador_creado w g);
        [destruct (driver_quit w)|]; reflexivity. }
    split.
    + rewrite !existsb_app, P6, Hk, Hep, Ha. unfold prologo.
      cbn [existsb es_crear_chrome orb andb].
      rewrite ?orb_false_r. reflexivity.
    + intros _. unfold arranca, preparado in Ha. rewrite Hj, Hv in Ha.
      cbn [andb] in Ha.
      unfold eventos_preparacion. unfold fallo_preparacion in Ha.
      destruct (os_path_exists w _).
      * destruct (shutil_rmtree w _); [discriminate Ha|].
        eexists (prologo g ++ [Rmtree _; Registro INFO _ false])%list.
        eexists. split; [rewrite <- !app_assoc; reflexivity | reflexivity].
      * exists (prologo g). eexists.
        split; [rewrite <- !app_assoc; reflexivity | reflexivity].
Qed.

(** The happy run launches Chrome after making the directory. *)
Lemma chrome_launch_witness :
  arranca mundo_feliz g_app = true
  /\ exists r evs,
       corre mundo_feliz g_app inicio r evs
       /\ existsb es_crear_chrome evs = true.
Proof.
  split; [reflexivity|].
  destruct (chrome_launch_conditions mundo_feliz g_app inicio)
    as [r [evs [Hc [Hk _]]]].
  exists r, evs. split; [exact Hc | exact Hk].
Defined.

(** X10. The closing record is the last event of a run exactly when the run
    got to the second [try] and [driver.quit()], if called, returned. *)
Theorem closing_record_is_last (w : mundo) (g : globals) (st : flujo) :
  exists r evs,
    corre w g st r evs
    /\ es_registro_fin (last evs DriverQuit)
       = arranca w g
         && (negb (navegador_creado w g) || sin_error (driver_quit w)).
Proof.
  destruct (corre_casos w g st)
    as [[Ha [r [evs [Hc [Ht _]]]]]
       |[Ha [v [evs [_ [_ [Hc _]]]]]]].
  - exists r, (prologo g ++ evs)%list. split; [exact Hc|].
    rewrite Ha. cbn [andb].
    destruct evs as [|e evs].
    + rewrite app_nil_r. reflexivity.
    + rewrite last_app_no_vacio by discriminate.
      destruct (temprano_hechos (e :: evs) Ht) as [_ [_ [_ [_ [_ H6]]]]].
      pose proof (last_forallb _ (e :: evs) DriverQuit
                    ltac:(discriminate) H6) as Hl.
      cbv beta in Hl. now apply negb_true_iff in Hl.
  - do 2 eexists. split; [exact Hc|].
    rewrite Ha. cbn [andb].
    assert (Hne : epilogo w (navegador_creado w g) <> []).
    { unfold epilogo. destruct (navegador_creado w g); discriminate. }
    rewrite last_app_no_vacio;
      [|intros E; apply app_eq_nil in E; destruct E as [_ E]; now apply Hne].
    rewrite last_app_no_vacio by exact Hne.
    unfold epilogo. destruct (navegador_creado w g);
      [destruct (driver_quit w)|]; reflexivity.
Qed.

(** X11. When the download directory cannot be made afresh (credentials
    loaded and truthy), the run ends there: after the events of the
    attempt it logs one ERROR record and returns if the failure is an
    [OSError], and raises it otherwise; it shows no dialog, starts no
    browser and does not log the closing record; and when the existing
    directory cannot be removed, [os.makedirs] is not called. *)
Theorem download_dir_failure_ends_the_run
    (w : mundo) (g : globals) (st : flujo) (v : valor) (e : exn) :
  json_load w (get_credentials_path g) = Leido v ->
  es_verdadero v = true ->
  fallo_preparacion w (get_data_path g DIR_DESCARGAS_TEMPORAL) = Some e ->
  let dt := get_data_path g DIR_DESCARGAS_TEMPORAL in
  exists evs,
    corre w g st (if is_OSError e then Ok tt else Raise e) evs
    /\ evs = (prologo g ++ eventos_preparacion w dt
                ++ (if is_OSError e
                    then [Registro ERROR
                            ("No se pudo limpiar/crear el directorio de descargas: "
                               ++ exn_msg e) false]
                    else []))%list
    /\ existsb es_dialogo evs = false
    /\ existsb es_registro_fin evs = false
    /\ forallb temprano evs = true
    /\ (os_path_exists w dt = true -> shutil_rmtree w dt <> None ->
        ~ In (Makedirs dt) evs).
Proof.
  intros Hj Hv Hf dt.
  eexists. split; [|split; [reflexivity|]].
  - unfold corre, ejecutar_flujo_rpa, logger_info.
    rewrite emitir_bind. unfold bindF at 1.
    unfold cargar_credenciales, logger_debug.
    rewrite emitir_bind, mas_mas, Hj. unfold retF at 1. rewrite Hv.
    cbn [negb]. unfold bindF at 1. rewrite preparar_descargas_spec.
    fold dt. fold dt in Hf. rewrite Hf.
    destruct (is_OSError e); rewrite mas_mas; unfold retF, mas;
      cbn [driver sucesos]; eexists; unfold prologo;
      rewrite ?app_nil_r; reflexivity.
  - unfold fallo_preparacion in Hf. fold dt in Hf.
    unfold eventos_preparacion, prologo.
    destruct (os_path_exists w dt).
    + destruct (shutil_rmtree w dt) as [e'|].
      * destruct (is_OSError e); repeat split; try reflexivity;
          intros _ _ Hin; cbn [app In] in Hin;
          repeat (destruct Hin as [Hin|Hin]; [discriminate Hin|]);
          exact Hin.
      * destruct (is_OSError e); repeat split; try reflexivity;
          intros _ Hn; now elim Hn.
    + destruct (is_OSError e); repeat split; try reflexivity;
        intros Hx; discriminate Hx.
Qed.

(** The run whose download directory cannot be removed. *)
Lemma download_dir_failure_witness :
  fallo_preparacion mundo_disco_protegido
    (get_data_path g_app DIR_DESCARGAS_TEMPORAL)
  = Some (OSError "[Errno 13] Permission denied: '/app/data/descargas_temp'")
  /\ exists evs,
       corre mundo_disco_protegido g_app inicio (Ok tt) evs
       /\ existsb es_dialogo evs = false
       /\ existsb es_registro_fin evs = false.
Proof.
  split; [reflexivity|].
  destruct (download_dir_failure_ends_the_run mundo_disco_protegido g_app
              inicio _ _ eq_refl eq_refl eq_refl)
    as [evs [Hc [_ [Hd [Hr _]]]]].
  exists evs. split; [exact Hc|]. split; [exact Hd | exact Hr].
Defined.

(** X12. A failed login is reported as a critical error and ends the work:
    with the browser started, when the login returns [False] the run
    logs a CRITICAL record with the traceback and shows the dialog
    [Error Crítico], both naming [Fallo en el Login. Abortando.]; the
    user is not asked for a date, nothing is downloaded, and the browser
    is closed. *)
Theorem failed_login_is_reported
    (w : mundo) (g : globals) (st : flujo) (v : valor) :
  json_load w (get_credentials_path g) = Leido v ->
  es_verdadero v = true ->
  fallo_preparacion w (get_data_path g DIR_DESCARGAS_TEMPORAL) = None ->
  instalar_driver w = None ->
  crear_chrome w = None ->
  maximize_window w = None ->
  login_sin_fallos w v = false ->
  let dt := get_data_path g DIR_DESCARGAS_TEMPORAL in
  exists evl,
    corre w g st
      (match driver_quit w with Some e => Raise e | None => Ok tt end)
      ((prologo g ++ eventos_preparacion w dt
          ++ [Registro INFO "Inicializando WebDriver de Chrome..." false;
              InstalarDriver; CrearChrome dt; MaximizeWindow])
         ++ evl
         ++ [Registro CRITICAL
               "Ha ocurrido un error CRÍTICO en el flujo principal: Fallo en el Login. Abortando."
               true;
             Dialogo showerror "Error Crítico"
               ("Ha ocurrido un error inesperado durante la ejecución:" ++ nl
                  ++ "Fallo en el Login. Abortando." ++ nl ++ nl
                  ++ "Revise los logs.")]
         ++ epilogo w true)
    /\ forallb evento_login evl = true.
Proof.
  intros Hj Hv Hf E1 E2 E3 Hl dt.
  unfold corre, ejecutar_flujo_rpa, logger_info.
  rewrite emitir_bind. unfold bindF at 1.
  unfold cargar_credenciales, logger_debug.
  rewrite emitir_bind, mas_mas, Hj. unfold retF at 1. rewrite Hv.
  cbn [negb]. unfold bindF at 1. rewrite preparar_descargas_spec.
  fold dt. fold dt in Hf. rewrite Hf, mas_mas.
  unfold bindF at 1. unfold sin_driver.
  unfold try_finallyF, try_exceptF, cuerpo_flujo. unfold bindF at 1.
  unfold iniciar_navegador, logger_info.
  rewrite emitir_bind, llamar_bind, E1, mas_mas, llamar_bind, E2, mas_mas.
  unfold bindF at 1. unfold asignar_driver at 1.
  unfold llamar at 1. rewrite emitir_bind, E3. unfold retF at 1.
  unfold bindF at 1.
  match goal with
  | |- context [realizar_login w v ?s] =>
      destruct (realizar_login_spec w v s) as [evl [Hlog [Hev _]]];
      rewrite Hlog
  end.
  rewrite Hl. cbn [negb]. unfold raiseF.
  unfold except_flujo, logger_critical.
  rewrite emitir_bind, emitir_eq, !mas_mas. rewrite finally_flujo_spec.
  exists evl. split; [|exact Hev].
  unfold mas. cbn [driver sucesos exn_msg]. unfold prologo.
  destruct (driver_quit w); eexists; rewrite <- !app_assoc; reflexivity.
Qed.

(** The run whose login times out on the menu icon. *)
Lemma failed_login_witness :
  login_sin_fallos mundo_login_rechazado
    (py_dict [("correo", PyStr "rpa@example.com");
              ("contraseña", PyStr "secreto");
              ("empresa", PyStr "42")]) = false
  /\ exists evs,
       corre mundo_login_rechazado g_app inicio (Ok tt) evs
       /\ In (Dialogo showerror "Error Crítico"
                ("Ha ocurrido un error inesperado durante la ejecución:" ++ nl
                   ++ "Fallo en el Login. Abortando." ++ nl ++ nl
                   ++ "Revise los logs.")) evs.
Proof.
  split; [reflexivity|].
  destruct (failed_login_is_reported mundo_login_rechazado g_app inicio _
              eq_refl eq_refl eq_refl eq_refl eq_refl eq_refl eq_refl)
    as [evl [Hc _]].
  eexists. split; [exact Hc|].
  apply in_or_app. right. apply in_or_app. right.
  apply in_or_app. left. right. left. reflexivity.
Defined.

Lemma sin_error_None (r : option exn) : sin_error r = true -> r = None.
Proof. destruct r; [discriminate | reflexivity]. Qed.

(** X13. A run in which everything answers well: the date the user gave is
    the one passed to the pandas step, together with the simulated CSV
    in the download directory and the data directory as output; the
    success dialog names the path the pandas step returned; nothing is
    downloaded and no dialog is shown before the date prompt; and the
    browser is closed afterwards. *)
Theorem successful_run_uses_the_chosen_date
    (w : mundo) (g : globals) (st : flujo) :
  exito w g = true ->
  let dt := get_data_path g DIR_DESCARGAS_TEMPORAL in
  let ds := get_data_path g "" in
  let csv := Path_div w dt "reporte_bruto_simulado.csv" in
  exists fecha ruta antes,
    askstring w (fecha_ayer w) = Some fecha
    /\ procesar_reporte_con_pandas w csv ds fecha = Some ruta
    /\ corre w g st
         (match driver_quit w with Some e => Raise e | None => Ok tt end)
         (antes
            ++ [AskString (fecha_ayer w);
                Registro INFO ("Usuario seleccionó la fecha: " ++ fecha) false;
                Registro INFO
                  "Iniciando secuencia de navegación y descarga del reporte..."
                  false;
                CsvSimulado csv;
                Registro INFO
                  ("Descarga simulada completada. Archivo: " ++ csv) false;
                Procesar csv ds fecha;
                Registro INFO "PROCESO COMPLETADO CON ÉXITO." false;
                Dialogo showinfo "Éxito"
                  ("El proceso ha finalizado correctamente." ++ nl
                     ++ "Reporte guardado en: " ++ ruta)]
            ++ epilogo w true)
    /\ filter es_dialogo antes = []
    /\ forallb (fun s => negb (es_descarga s)) antes = true.
Proof.
  intros Hx dt ds csv. unfold exito in Hx.
  destruct (json_load w (get_credentials_path g)) as [v| | |] eqn:Hj;
    try discriminate Hx.
  fold dt ds in Hx.
  apply andb_prop in Hx. destruct Hx as [Hv Hx].
  apply andb_prop in Hx. destruct Hx as [Hp Hx].
  unfold exito_cuerpo, hasta_fecha in Hx.
  apply andb_prop in Hx. destruct Hx as [Hh Hx].
  apply andb_prop in Hh. destruct Hh as [E1 Hh].
  apply andb_prop in Hh. destruct Hh as [E2 Hh].
  apply andb_prop in Hh. destruct Hh as [E3 Hh].
  apply andb_prop in Hh. destruct Hh as [Hl Etk].
  apply sin_error_None in E1, E2, E3, Etk.
  destruct (askstring w (fecha_ayer w)) as [fecha|] eqn:Ha;
    [|discriminate Hx].
  apply andb_prop in Hx. destruct Hx as [Hne Hx].
  unfold exito_descarga in Hx. fold csv in Hx.
  apply andb_prop in Hx. destruct Hx as [Ecsv Hx].
  apply sin_error_None in Ecsv.
  destruct (procesar_reporte_con_pandas w csv ds fecha) as [ruta|] eqn:Hr;
    [|discriminate Hx].
  unfold preparado in Hp.
  destruct (fallo_preparacion w dt) eqn:Hf; [discriminate Hp|].
  exists fecha, ruta.
  unfold corre, ejecutar_flujo_rpa, logger_info.
  rewrite emitir_bind. unfold bindF at 1.
  unfold cargar_credenciales, logger_debug.
  rewrite emitir_bind, mas_mas, Hj. unfold retF at 1. rewrite Hv.
  cbn [negb]. unfold bindF at 1. rewrite preparar_descargas_spec.
  fold dt ds. rewrite Hf, mas_mas.
  unfold bindF at 1. unfold sin_driver.
  unfold try_finallyF, try_exceptF, cuerpo_flujo. unfold bindF at 1.
  unfold iniciar_navegador, logger_info.
  rewrite emitir_bind, llamar_bind, E1, mas_mas, llamar_bind, E2, mas_mas.
  unfold bindF at 1. unfold asignar_driver at 1.
  unfold llamar at 1. rewrite emitir_bind, E3. unfold retF at 1.
  unfold bindF at 1.
  match goal with
  | |- context [realizar_login w v ?s] =>
      destruct (realizar_login_spec w v s) as [evl [Hlog [Hev _]]];
      rewrite Hlog
  end.
  rewrite Hl. cbn [negb]. unfold bindF at 1.
  unfold obtener_fecha_interactiva, logger_info.
  rewrite emitir_bind, llamar_bind, Etk, emitir_bind, Ha, Hne.
  rewrite emitir_bind. unfold retF at 1.
  apply negb_true_iff in Hne. rewrite Hne.
  unfold descargar_y_procesar, logger_info. fold csv.
  rewrite emitir_bind, llamar_bind, Ecsv, emitir_bind, emitir_bind, Hr.
  rewrite emitir_bind, emitir_eq, !mas_mas, finally_flujo_spec.
  destruct (eventos_login evl Hev) as [_ [_ [Hn [Hc _]]]].
  destruct (eventos_preparacion_hechos w dt) as [_ [_ [_ [P4 [P5 _]]]]].
  exists ((prologo g ++ eventos_preparacion w dt
             ++ [Registro INFO "Inicializando WebDriver de Chrome..." false;
                 InstalarDriver; CrearChrome dt; MaximizeWindow])
            ++ evl
            ++ [Registro INFO
                  "Mostrando diálogo de selección de fecha al usuario." false;
                TkRoot])%list.
  split; [reflexivity|]. split; [reflexivity|].
  split.
  - unfold mas. cbn [driver sucesos]. unfold prologo.
    destruct (driver_quit w); eexists; rewrite <- !app_assoc; reflexivity.
  - rewrite !filter_app, !forallb_app, P4, P5, Hn, Hc. split; reflexivity.
Qed.

(** The happy run under [/app]. *)
Lemma successful_run_witness :
  exito mundo_feliz g_app = true
  /\ exists antes,
       corre mundo_feliz g_app inicio (Ok tt)
         (antes
            ++ [AskString "14/01/2024";
                Registro INFO "Usuario seleccionó la fecha: 14/01/2024" false;
                Registro INFO
                  "Iniciando secuencia de navegación y descarga del reporte..."
                  false;
                CsvSimulado "/app/data/descargas_temp/reporte_bruto_simulado.csv";
                Registro INFO
                  "Descarga simulada completada. Archivo: /app/data/descargas_temp/reporte_bruto_simulado.csv"
                  false;
                Procesar "/app/data/descargas_temp/reporte_bruto_simulado.csv"
                  "/app/data/" "14/01/2024";
                Registro INFO "PROCESO COMPLETADO CON ÉXITO." false;
                Dialogo showinfo "Éxito"
                  ("El proceso ha finalizado correctamente." ++ nl
                     ++ "Reporte guardado en: /app/data/reporte_procesado_20240115_093000.csv")]
            ++ epilogo mundo_feliz true).
Proof.
  split; [reflexivity|].
  destruct (successful_run_uses_the_chosen_date mundo_feliz g_app inicio
              eq_refl)
    as [fecha [ruta [antes [Ha [Hr [Hc _]]]]]].
  vm_compute in Ha. inversion Ha; subst fecha.
  vm_compute in Hr. inversion Hr; subst ruta.
  exists antes. exact Hc.
Defined.

End MainProps.

(* ------------------------------------------------------------------ *)
(** * Extra properties of the path resolver and of the bootstrap *)

Module Extras.
Import posixpath Rutas Logging Bootstrap Disposicion Main.
Import RutasProps BootstrapProps DisposicionProps.

Lemma ruta_de_snoc (cs : list string) (c : string) :
  ruta_de (cs ++ [c]) = seg (cs ++ [c]).
Proof. destruct cs; reflexivity. Qed.

Lemma forallb_componente_snoc (cs : list string) (c : string) :
  forallb componente cs = true -> componente c = true ->
  forallb componente (cs ++ [c]) = true.
Proof. intros H Hc. now rewrite forallb_snoc, H, Hc. Qed.

(** [join(R, a, b)] for a directory [R] of proper names and two names. *)
Lemma join_dos (cs : list string) (a b : string) :
  forallb componente cs = true -> componente a = true -> isabs b = false ->
  join (ruta_de cs) [a; b] = seg (cs ++ [a; b]).
Proof.
  intros H Ha Hb.
  assert (Hia : isabs a = false).
  { pose proof (componente_sin_sep a Ha) as Hs.
    destruct a as [|x a]; [reflexivity|]. simpl in *.
    apply andb_prop in Hs. destruct Hs as [Hx _].
    now apply negb_true_iff in Hx. }
  change (join (ruta_de cs) [a; b]) with (join (join (ruta_de cs) [a]) [b]).
  rewrite (join_ruta_de cs a H Hia), <- ruta_de_snoc.
  rewrite (join_ruta_de (cs ++ [a]) b (forallb_componente_snoc cs a H Ha) Hb).
  now rewrite <- app_assoc.
Qed.

(** [join(R, a, '')]: the directory [R/a] with a trailing separator. *)
Lemma join_vacio (cs : list string) (a : string) :
  forallb componente cs = true -> componente a = true ->
  join (ruta_de cs) [a; ""] = seg (cs ++ [a]) ++ "/".
Proof.
  intros H Ha. rewrite (join_dos cs a "" H Ha eq_refl).
  change (cs ++ [a; ""])%list with (cs ++ [a] ++ [""])%list.
  rewrite app_assoc, seg_snoc. reflexivity.
Qed.

(** The module load in FromSource mode from a file [R/d/f]. *)
Lemma carga_desde_fuente (rt : runtime) (cs : list string) (d f : string) :
  mode_of (compute_IS_BUNDLED (sys rt)) = FromSource ->
  forallb componente (cs ++ [d; f]) = true ->
  module_file rt = Some (seg (cs ++ [d; f])) ->
  exists g,
    module_load rt = ([], inr g)
    /\ truthy (IS_BUNDLED g) = false
    /\ RUTA_BASE_LECTURA g = ruta_de cs
    /\ RUTA_BASE_ESCRITURA g = ruta_de cs.
Proof.
  intros Hm Hall Hf.
  assert (Hb : truthy (compute_IS_BUNDLED (sys rt)) = false).
  { unfold mode_of in Hm.
    destruct (truthy (compute_IS_BUNDLED (sys rt)));
      [discriminate Hm | reflexivity]. }
  rewrite forallb_app in Hall. apply andb_prop in Hall.
  destruct Hall as [Hcs Hdf]. simpl in Hdf.
  apply andb_prop in Hdf. destruct Hdf as [Hd Hf'].
  rewrite andb_true_r in Hf'.
  destruct (module_load_dev rt Hb) as [r [Hr Hl]].
  assert (Hroot : r = ruta_de cs).
  { unfold _obtener_ruta_base_lectura in Hr. rewrite Hb, Hf in Hr.
    rewrite (dos_niveles_arriba cs d f (cwd rt) Hcs Hd Hf') in Hr.
    now inversion Hr. }
  subst r. eexists. split; [exact Hl|].
  split; [exact Hb|]. split; reflexivity.
Qed.

(** ** Source layout *)

(** X14. In FromSource mode, for a module file [R/d/f] given by an absolute
    path of proper names, whatever the working directory and the call
    stack: both bases are [R], the credentials file is
    [R/config/credenciales.json], logs go under [R/logs/] and data under
    [R/data/]. *)
Theorem source_layout_paths
    (rt : runtime) (cs : list string) (d f : string) :
  mode_of (compute_IS_BUNDLED (sys rt)) = FromSource ->
  forallb componente (cs ++ [d; f]) = true ->
  module_file rt = Some (seg (cs ++ [d; f])) ->
  exists g,
    module_load rt = ([], inr g)
    /\ RUTA_BASE_LECTURA g = ruta_de cs
    /\ RUTA_BASE_ESCRITURA g = ruta_de cs
    /\ get_credentials_path g = seg (cs ++ ["config"; "credenciales.json"])
    /\ get_logs_path g "" = seg (cs ++ ["logs"]) ++ "/"
    /\ get_data_path g "" = seg (cs ++ ["data"]) ++ "/"
    /\ get_data_path g DIR_DESCARGAS_TEMPORAL
       = seg (cs ++ ["data"; "descargas_temp"]).
Proof.
  intros Hm Hall Hf.
  destruct (carga_desde_fuente rt cs d f Hm Hall Hf)
    as [g [Hl [Hb [Hr Hw]]]].
  rewrite forallb_app in Hall. apply andb_prop in Hall.
  destruct Hall as [Hcs _].
  exists g. split; [exact Hl|].
  split; [exact Hr|]. split; [exact Hw|].
  unfold get_credentials_path, get_logs_path, get_data_path.
  rewrite Hb, Hr, Hw.
  split; [now apply join_dos|].
  split; [now apply join_vacio|].
  split; [now apply join_vacio|].
  now apply join_dos.
Qed.

(** The layout of a checkout under [/srv/rpa/current]. *)
Lemma source_layout_witness :
  let rt := rt_desde (seg ["srv"; "rpa"; "current"; "config"; "log_config.py"])
              [] "/tmp" in
  mode_of (compute_IS_BUNDLED (sys rt)) = FromSource
  /\ forallb componente
       (["srv"; "rpa"; "current"] ++ ["config"; "log_config.py"]) = true
  /\ exists g,
       module_load rt = ([], inr g)
       /\ get_logs_path g "" = "/srv/rpa/current/logs/".
Proof.
  cbv zeta. split; [reflexivity|]. split; [reflexivity|].
  destruct (source_layout_paths
              (rt_desde (seg ["srv"; "rpa"; "current"; "config"; "log_config.py"])
                 [] "/tmp")
              ["srv"; "rpa"; "current"] "config" "log_config.py"
              eq_refl eq_refl eq_refl)
    as [g [Hl [_ [_ [_ [Hlogs _]]]]]].
  exists g. split; [exact Hl | exact Hlogs].
Defined.

(** X15. The [scripts] convention of the fallback: when the module has no
    location of its own and the first frame with a source file runs
    [R/d/f], the read base is [R] if [d] is [scripts], and the caller's
    own directory [R/d] otherwise. *)
Theorem fallback_root_from_caller
    (rt : runtime) (b : pyval) (callers : list frame) (fr : frame)
    (cs : list string) (d f : string) :
  truthy b = false ->
  module_file rt = None ->
  currentframe_ok rt = true ->
  find has_file (module_frame rt :: callers) = Some fr ->
  f_globals_file fr = Some (FileStr (seg (cs ++ [d; f]))) ->
  forallb componente (cs ++ [d; f]) = true ->
  _obtener_ruta_base_lectura rt b callers
  = ([], inr (if d =? "scripts" then ruta_de cs else seg (cs ++ [d]))).
Proof.
  intros Hb Hmf Hcf Hfind Hfile Hall.
  rewrite forallb_app in Hall. apply andb_prop in Hall.
  destruct Hall as [Hcs Hdf]. simpl in Hdf.
  apply andb_prop in Hdf. destruct Hdf as [Hd Hf'].
  rewrite andb_true_r in Hf'.
  assert (Hall : forallb componente (cs ++ [d; f]) = true).
  { rewrite forallb_app, Hcs. simpl. now rewrite Hd, Hf'. }
  assert (Hcd : forallb componente (cs ++ [d]) = true)
    by now apply forallb_componente_snoc.
  unfold _obtener_ruta_base_lectura. rewrite Hb, Hmf.
  unfold raiz_por_pila. rewrite Hcf, walk_find, Hfind, Hfile.
  assert (Eabs : abspath (cwd rt) (seg (cs ++ [d; f])) = seg (cs ++ [d; f])).
  { unfold abspath.
    assert (Hi : isabs (seg (cs ++ [d; f])) = true)
      by (destruct cs; reflexivity).
    rewrite Hi. pose proof (normpath_ruta_de _ Hall) as Hn.
    destruct cs; exact Hn. }
  rewrite Eabs.
  change (cs ++ [d; f])%list with (cs ++ [d] ++ [f])%list.
  rewrite app_assoc.
  rewrite (dirname_seg (cs ++ [d]) f Hcd (componente_sin_sep f Hf')).
  rewrite ruta_de_snoc.
  rewrite (basename_seg cs d (componente_sin_sep d Hd)).
  destruct (d =? "scripts") eqn:Hs; [|reflexivity].
  rewrite <- ruta_de_snoc, (join_ruta_de (cs ++ [d]) ".." Hcd eq_refl).
  unfold abspath.
  assert (Hi : isabs (seg ((cs ++ [d]) ++ [".."])) = true)
    by (destruct cs; reflexivity).
  rewrite Hi, seg_snoc.
  change (seg (cs ++ [d]) ++ String sep "..") with (seg (cs ++ [d]) ++ "/..").
  now rewrite (normpath_sube cs d Hcd).
Qed.

(** The module run with [exec] from [/app/tools/run.py]: the read base is
    [/app/tools]. *)
Lemma fallback_root_witness :
  let rt := {| sys := sys rt_exec; module_file := None;
               module_co_filename := "<string>";
               outer_stack :=
                 [ {| f_globals_file := Some (FileStr "/app/tools/run.py");
                      f_co_filename := "/app/tools/run.py" |} ];
               cwd := "/home/rpa"; currentframe_ok := true |} in
  _obtener_ruta_base_lectura rt (PyBool false)
    (module_frame rt :: outer_stack rt)
  = ([], inr "/app/tools").
Proof.
  cbv zeta.
  apply (fallback_root_from_caller
           {| sys := sys rt_exec; module_file := None;
              module_co_filename := "<string>";
              outer_stack :=
                [ {| f_globals_file := Some (FileStr "/app/tools/run.py");
                     f_co_filename := "/app/tools/run.py" |} ];
              cwd := "/home/rpa"; currentframe_ok := true |}
           (PyBool false) _
           {| f_globals_file := Some (FileStr "/app/tools/run.py");
              f_co_filename := "/app/tools/run.py" |}
           ["app"] "tools" "run.py"); reflexivity.
Defined.

(** X16. An absolute suffix leaves the write base: [get_data_path] and
    [get_logs_path] return the suffix itself. *)
Theorem absolute_suffix_escapes_write_base (g : globals) (suffix : string) :
  isabs suffix = true ->
  get_data_path g suffix = suffix /\ get_logs_path g suffix = suffix.
Proof.
  intros H. unfold get_data_path, get_logs_path, join. cbn [fold_left].
  unfold join2 at 1 3. unfold isabs in H. rewrite H. split; reflexivity.
Qed.

Lemma absolute_suffix_witness :
  isabs "/etc/passwd" = true
  /\ get_data_path g_app "/etc/passwd" = "/etc/passwd".
Proof.
  split; [reflexivity|].
  exact (proj1 (absolute_suffix_escapes_write_base g_app "/etc/passwd" eq_refl)).
Defined.

(** X17. In Packaged mode the module load succeeds without looking at the
    module location, the stack or the working directory: the read base
    is [sys._MEIPASS], the write base is the directory of the executable,
    and credentials, data and logs are joined on the write base. For an
    executable [R/exe] of proper names, logs go under [R/logs/]. *)
Theorem packaged_layout_paths (rt : runtime) :
  mode_of (compute_IS_BUNDLED (sys rt)) = Packaged ->
  exists p g,
    sys_MEIPASS (sys rt) = Some p
    /\ module_load rt = ([], inr g)
    /\ RUTA_BASE_LECTURA g = p
    /\ RUTA_BASE_ESCRITURA g = dirname (sys_executable (sys rt))
    /\ get_credentials_path g
       = join (dirname (sys_executable (sys rt)))
           ["config"; "credenciales.json"]
    /\ (forall cs exe,
          forallb componente (cs ++ [exe]) = true ->
          sys_executable (sys rt) = seg (cs ++ [exe]) ->
          RUTA_BASE_ESCRITURA g = ruta_de cs
          /\ get_logs_path g "" = seg (cs ++ ["logs"]) ++ "/"
          /\ get_credentials_path g
             = seg (cs ++ ["config"; "credenciales.json"])).
Proof.
  intros Hm.
  assert (Hb : truthy (compute_IS_BUNDLED (sys rt)) = true).
  { unfold mode_of in Hm.
    destruct (truthy (compute_IS_BUNDLED (sys rt)));
      [reflexivity | discriminate Hm]. }
  assert (Hp : exists p, sys_MEIPASS (sys rt) = Some p).
  { unfold compute_IS_BUNDLED, py_and, hasattr_MEIPASS in Hb.
    destruct (sys_MEIPASS (sys rt)) as [p|]; [now exists p|].
    destruct (truthy (getattr_frozen (sys rt))) eqn:E;
      [discriminate Hb | congruence]. }
  destruct Hp as [p Hp]. exists p. eexists.
  split; [exact Hp|].
  split.
  { unfold module_load, _obtener_ruta_base_escritura,
      _obtener_ruta_base_lectura. rewrite Hb, Hp. reflexivity. }
  split; [reflexivity|]. split; [reflexivity|].
  split.
  { unfold get_credentials_path. cbn [IS_BUNDLED RUTA_BASE_ESCRITURA].
    now rewrite Hb. }
  intros cs exe Hall He.
  rewrite forallb_snoc in Hall. apply andb_prop in Hall.
  destruct Hall as [Hcs Hexe].
  cbn [RUTA_BASE_ESCRITURA].
  unfold get_logs_path, get_credentials_path.
  cbn [IS_BUNDLED RUTA_BASE_ESCRITURA]. rewrite Hb, He.
  rewrite (dirname_seg cs exe Hcs (componente_sin_sep exe Hexe)).
  split; [reflexivity|].
  split; [now apply join_vacio | now apply join_dos].
Qed.

(** A bundle run from [/opt/rpa/rpa]. *)
Lemma packaged_layout_witness :
  let rt := {| sys := sys_empaquetado; module_file := None;
               module_co_filename := "log_config.py"; outer_stack := [];
               cwd := "/"; currentframe_ok := true |} in
  mode_of (compute_IS_BUNDLED (sys rt)) = Packaged
  /\ exists g,
       module_load rt = ([], inr g)
       /\ RUTA_BASE_LECTURA g = "/tmp/_MEI123"
       /\ get_logs_path g "" = "/opt/rpa/logs/".
Proof.
  cbv zeta. split; [reflexivity|].
  destruct (packaged_layout_paths
              {| sys := sys_empaquetado; module_file := None;
                 module_co_filename := "log_config.py"; outer_stack := [];
                 cwd := "/"; currentframe_ok := true |} eq_refl)
    as [p [g [Hp [Hl [Hr [_ [_ Hx]]]]]]].
  exists g. split; [exact Hl|].
  split; [rewrite Hr; now inversion Hp|].
  exact (proj1 (proj2 (Hx ["opt"; "rpa"] "rpa" eq_refl eq_refl))).
Defined.

(** X18. The directory the script puts on [sys.path] is the read base of the
    module: for a script [R/d/f] and a module [R/d'/f'], absolute paths
    of proper names, [project_root] and [RUTA_BASE_LECTURA] are both [R];
    after the adjustment [R] is on [sys.path], the entries that were
    there keep their order, and adjusting again changes nothing. *)
Theorem project_root_is_read_base
    (rt : runtime) (cs : list string) (d f d' f' dir : string)
    (sys_path : list string) :
  mode_of (compute_IS_BUNDLED (sys rt)) = FromSource ->
  forallb componente (cs ++ [d; f]) = true ->
  forallb componente (cs ++ [d'; f']) = true ->
  module_file rt = Some (seg (cs ++ [d'; f'])) ->
  let root := project_root dir (seg (cs ++ [d; f])) in
  root = ruta_de cs
  /\ (exists g, module_load rt = ([], inr g) /\ RUTA_BASE_LECTURA g = root)
  /\ In root (ajustar_sys_path root sys_path)
  /\ (exists pre, ajustar_sys_path root sys_path = (pre ++ sys_path)%list)
  /\ ajustar_sys_path root (ajustar_sys_path root sys_path)
     = ajustar_sys_path root sys_path.
Proof.
  intros Hm Hs Hmod Hf root.
  assert (Hroot : root = ruta_de cs).
  { unfold root, project_root, script_dir.
    rewrite forallb_app in Hs. apply andb_prop in Hs.
    destruct Hs as [Hcs Hdf]. simpl in Hdf.
    apply andb_prop in Hdf. destruct Hdf as [Hd Hf'].
    rewrite andb_true_r in Hf'.
    now apply dos_niveles_arriba. }
  split; [exact Hroot|].
  split.
  { destruct (carga_desde_fuente rt cs d' f' Hm Hmod Hf)
      as [g [Hl [_ [Hr _]]]].
    exists g. split; [exact Hl | now rewrite Hroot]. }
  unfold ajustar_sys_path.
  destruct (existsb (String.eqb root) sys_path) eqn:E.
  - split.
    { apply existsb_exists in E. destruct E as [x [Hin Hx]].
      apply String.eqb_eq in Hx. now subst x. }
    split; [exists []; reflexivity|]. now rewrite E.
  - split; [left; reflexivity|].
    split; [exists [root]; reflexivity|].
    cbn [existsb]. now rewrite String.eqb_refl.
Qed.

(** The script [/app/scripts/main.py] started from another directory,
    the module being [/app/config/log_config.py]. *)
Lemma project_root_witness :
  mode_of (compute_IS_BUNDLED (sys rt_app)) = FromSource
  /\ project_root "/home/rpa" "/app/scripts/main.py" = "/app"
  /\ ajustar_sys_path "/app" ["/usr/lib/python3"]
     = ["/app"; "/usr/lib/python3"].
Proof.
  split; [reflexivity|].
  destruct (project_root_is_read_base rt_app ["app"] "scripts" "main.py"
              "config" "log_config.py" "/home/rpa" ["/usr/lib/python3"]
              eq_refl eq_refl eq_refl eq_refl) as [Hr _].
  split; [exact Hr | reflexivity].
Defined.

(** ** The file sink when it can be set up *)

(** The logs directory is never the empty path. *)
Lemma logs_dir_forma (g : globals) :
  get_logs_path g ""
  = RUTA_BASE_ESCRITURA g ++ sep_tras (RUTA_BASE_ESCRITURA g) ++ "logs/".
Proof.
  unfold get_logs_path.
  now rewrite (join_base_sub_suffix (RUTA_BASE_ESCRITURA g) "logs" ""
                 eq_refl eq_refl eq_refl eq_refl).
Qed.

Lemma endswith_sep_logs_dir (g : globals) :
  endswith_sep (get_logs_path g "") = true.
Proof.
  rewrite logs_dir_forma, <- append_assoc.
  now rewrite (endswith_sep_append _ "logs/" eq_refl).
Qed.

(** The path of the log file, by the kind of name. *)
Lemma ruta_log_forma (g : globals) (nombre : string) :
  join (get_logs_path g "") [nombre]
  = if isabs nombre then nombre else get_logs_path g "" ++ nombre.
Proof.
  unfold join. cbn [fold_left]. unfold join2, isabs.
  destruct (startswith_sep nombre); [reflexivity|].
  now rewrite (endswith_sep_logs_dir g), orb_true_r.
Qed.

Lemma ruta_log_no_vacia (g : globals) (nombre : string) :
  is_empty (join (get_logs_path g "") [nombre]) = false.
Proof.
  rewrite ruta_log_forma. destruct (isabs nombre) eqn:Ha.
  - destruct nombre; [discriminate Ha | reflexivity].
  - rewrite logs_dir_forma, !append_assoc.
    destruct (RUTA_BASE_ESCRITURA g);
      [destruct (sep_tras ""); reflexivity | reflexivity].
Qed.

(** The first call when the file sink can be set up, field by field: it
    returns when the status line can be built and raises the
    [OverflowError] of the division otherwise, in the same state but for
    the status record. *)
Lemma configurar_exito (o : opciones) (st : estado) :
  _configuracion_realizada (modulo st) = false ->
  log_a_archivo o = true ->
  fallo_archivo st o = None ->
  let st2 := tras_consola o st in
  let ruta := join (get_logs_path (modulo st) "") [nombre_archivo_log o] in
  let h := archivo_de o (next_id st2) ruta in
  let hs := if mem h (root_handlers st2) then root_handlers st2
            else (root_handlers st2 ++ [h])%list in
  let g := con_configuracion_realizada true
             (con_ruta_archivo_log_actual (Some ruta) (modulo st)) in
  configurar_logging o st
  = (if rotacion_formateable o then Ok tt else Raise OverflowError,
     {| modulo := g; root_level := DEBUG; root_handlers := hs;
        cerrados := cerrados st2; next_id := S (next_id st2);
        traza := (traza st2 ++ resumen o g hs)%list; fs := fs st |}).
Proof.
  intros Hc Ha Hf st2 ruta h hs g.
  rewrite (configurar_primera o st Hc). fold st2.
  destruct (tras_consola_marco o st) as [Hl [Hm Hfs]].
  fold st2 in Hl, Hm, Hfs.
  assert (Hf2 : fallo_archivo st2 o = None).
  { rewrite (fallo_archivo_ext o st st2); [exact Hf | exact Hfs|].
    now rewrite Hm. }
  pose proof (archivo_spec_ok o st2 Ha Hf2) as E. cbv zeta in E.
  rewrite Hm in E. fold ruta in E. fold h in E.
  rewrite (bind_ok _ _ _ _ _ E).
  rewrite finalizar_spec
    by (destruct (mem h (root_handlers st2)); exact Hl).
  rewrite <- (desenlace_con_ruta o g ruta eq_refl
                (ruta_log_no_vacia (modulo st) (nombre_archivo_log o))).
  unfold hs.
  destruct (mem h (root_handlers st2));
    unfold con_modulo, con_traza, con_next_id, con_root_handlers;
    cbn [modulo root_level root_handlers cerrados next_id traza fs];
    fold g; rewrite ?Hl, ?Hfs; reflexivity.
Qed.






(** ** The handlers of the root logger after a successful call *)











(** ** The start-up of the script *)

Lemma nombre_log_relativo (ts : string) :
  isabs (nombre_log_ejecucion ts) = false.
Proof. reflexivity. Qed.

(** X23. The log file of a run of the script. With the write base [R] (an
    absolute path of proper names), a process not yet configured and a
    file sink that can be set up, the start-up of [main.py] returns and
    the log file is [R/logs/ejecucion_rpa_<timestamp>.log], whatever the
    timestamp text; the root logger holds the console handler at INFO on
    standard output and a rotating file handler at DEBUG on that file,
    10 MiB per file and 5 backups. *)
Theorem main_log_file (st : estado) (cs : list string) (ts : string) :
  _configuracion_realizada (modulo st) = false ->
  forallb componente cs = true ->
  RUTA_BASE_ESCRITURA (modulo st) = ruta_de cs ->
  fallo_archivo st (opciones_main ts) = None ->
  let ruta := seg (cs ++ ["logs"]) ++ "/ejecucion_rpa_" ++ ts ++ ".log" in
  exists st' id,
    configurar_desde_main ts st = (Ok tt, st')
    /\ obtener_ruta_archivo_log st' = Some ruta
    /\ In {| h_id := next_id st; h_class := StreamHandler stdout;
             h_level := INFO; h_formatter := Some formateador_log;
             h_close := None |} (root_handlers st')
    /\ In {| h_id := id;
             h_class := RotatingFileHandler ruta (10 * 1024 * 1024) 5;
             h_level := DEBUG; h_formatter := Some formateador_log;
             h_close := None |} (root_handlers st').
Proof.
  intros Hc Hcs Hb Hf ruta.
  pose proof (configurar_exito (opciones_main ts) st Hc eq_refl Hf) as E.
  cbv zeta in E.
  assert (Hr : join (get_logs_path (modulo st) "")
                 [nombre_archivo_log (opciones_main ts)] = ruta).
  { rewrite ruta_log_forma.
    change (isabs (nombre_archivo_log (opciones_main ts))) with false.
    cbv iota. unfold get_logs_path. rewrite Hb.
    rewrite (join_vacio cs "logs" Hcs eq_refl).
    unfold ruta. rewrite append_assoc. reflexivity. }
  rewrite Hr in E.
  set (st2 := tras_consola (opciones_main ts) st) in *.
  eexists. exists (next_id st2). split; [exact E|].
  cbn [modulo root_handlers obtener_ruta_archivo_log
       _ruta_archivo_log_actual con_configuracion_realizada
       con_ruta_archivo_log_actual].
  split; [reflexivity|].
  pose proof (tras_consola_attached (opciones_main ts) st eq_refl) as Hin.
  fold st2 in Hin.
  change (consola_de (opciones_main ts) (next_id st))
    with {| h_id := next_id st; h_class := StreamHandler stdout;
            h_level := INFO; h_formatter := Some formateador_log;
            h_close := None |} in Hin.
  change (archivo_de (opciones_main ts) (next_id st2) ruta)
    with {| h_id := next_id st2;
            h_class := RotatingFileHandler ruta (10 * 1024 * 1024) 5;
            h_level := DEBUG; h_formatter := Some formateador_log;
            h_close := None |}.
  set (h := {| h_id := next_id st2;
               h_class := RotatingFileHandler ruta (10 * 1024 * 1024) 5;
               h_level := DEBUG; h_formatter := Some formateador_log;
               h_close := None |}).
  destruct (mem h (root_handlers st2)) eqn:Hm.
  - split; [exact Hin | now apply mem_true_iff].
  - split; [apply in_or_app; left; exact Hin
           | apply in_or_app; right; left; reflexivity].
Qed.

(** The script started under [/app] at 09:30:00 on 3 November 2026. *)
Lemma main_log_file_witness :
  exists st',
    configurar_desde_main "20261103_093000" (st_app [] so_ok) = (Ok tt, st')
    /\ obtener_ruta_archivo_log st'
       = Some "/app/logs/ejecucion_rpa_20261103_093000.log".
Proof.
  destruct (main_log_file (st_app [] so_ok) ["app"] "20261103_093000"
              eq_refl eq_refl eq_refl eq_refl)
    as [st' [id [H [Hr _]]]].
  exists st'. split; [exact H | exact Hr].
Defined.

(** ** The labels selected by the pandas step *)

(** X24. The list of labels built on line 211
    ([columnas_existentes_para_final], the list then used to index the
    frame): a label is in the list exactly when it is one of the four
    wanted and is a label of the frame; the list repeats no label and
    depends only on which labels the frame has, not on their order or
    on how often a label occurs in the frame; the label [es_ingreso] of
    the column that step 3 adds is never in the list; and when the four
    wanted labels are all in the frame the list is the wanted list in
    its own order. *)
Theorem kept_columns (columnas : list string) :
  (forall c, In c (columnas_existentes_para_final columnas)
             <-> In c columnas_finales /\ In c columnas)
  /\ NoDup (columnas_existentes_para_final columnas)
  /\ ~ In "es_ingreso" (columnas_existentes_para_final columnas)
  /\ (forall columnas',
        (forall c, In c columnas <-> In c columnas') ->
        columnas_existentes_para_final columnas'
        = columnas_existentes_para_final columnas)
  /\ ((forall c, In c columnas_finales -> In c columnas) ->
      columnas_existentes_para_final columnas = columnas_finales).
Proof.
  assert (Hex : forall l c, existsb (String.eqb c) l = true <-> In c l).
  { intros l c. rewrite existsb_exists. split.
    - intros [x [Hin Hx]]. apply String.eqb_eq in Hx. now subst x.
    - intros Hin. exists c. split; [exact Hin | apply String.eqb_refl]. }
  unfold columnas_existentes_para_final.
  split; [|split; [|split; [|split]]].
  - intros c. rewrite filter_In, Hex. reflexivity.
  - apply NoDup_filter. unfold columnas_finales.
    repeat constructor; simpl; intuition discriminate.
  - intros Hin. apply filter_In in Hin. destruct Hin as [Hin _].
    unfold columnas_finales in Hin. simpl in Hin.
    intuition discriminate.
  - intros columnas' Heq. apply filter_ext. intros c.
    destruct (existsb (String.eqb c) columnas) eqn:E.
    + apply Hex. apply Heq. now apply Hex.
    + destruct (existsb (String.eqb c) columnas') eqn:E';
        [|reflexivity].
      apply Hex, Heq, Hex in E'. congruence.
  - intros Hall. apply forallb_filter_id. apply forallb_forall.
    intros c Hin. apply Hex. now apply Hall.
Qed.

End Extras.
